(** * vf_python: the "python" video filter of libavfilter

    A shallow embedding of [libavfilter/vf_python.c].  The filter embeds a
    CPython interpreter: [init] starts it, imports a module and resolves the
    per-frame callable; [filter_frame] marshals four values into a tuple and
    calls it; [uninit] calls an optional finalizer, drops the two references
    the filter holds and stops the interpreter.

    The C functions are written in a state-and-fault monad over a [World]
    that holds the interpreter (a reference-counted object heap, the error
    indicator), the filter's private context, the frames the host owns and a
    trace of what was observable from outside.  Dereferencing a null pointer
    is a [Crash].

    What the model assumes: allocation in the interpreter never fails; the
    target is LP64, so a pointer fits a C [long]; a Python function is known
    by its outcome (a value or an exception) as a function of its arguments
    and of the history, and what it returns is a fresh atomic object; the
    names given to the interpreter are well-formed (not empty).

    What the model leaves out: the objects a pending exception keeps alive
    (its traceback and through it the callee and its arguments, the object
    of an [AttributeError], the name of a [ModuleNotFoundError]).  Which
    these are depends on the interpreter's version, and the filter never
    clears an exception.  So after a call that raises, a lookup or an
    import that fails, the reference counts of the model are those the
    filter's own code accounts for, a lower bound of the interpreter's; the
    theorems about what is released are stated for the paths on which no
    exception is left pending, and the others speak of return codes,
    traces and the private context only. *)

From Stdlib Require Import ZArith NArith String List Lia.
From Stdlib Require Import Floats.PrimFloat Floats.SpecFloat Floats.FloatOps.
From stdpp Require Import base option list gmap strings.

Set Default Proof Using "Type".

(** ** The C side: configuration, frames, links *)

(** Object and frame addresses; the null pointer is [0]. *)
Abbreviation NULL := 0%N (only parsing).

Record PythonContext := mkPythonContext {
  module : option string;
  init_function : option string;
  init_args : option string;
  filter_function : option string;
  uninit_function : option string;
  pModule : N;
  pFunc : N
}.

Definition set_pModule (p : N) (c : PythonContext) : PythonContext :=
  mkPythonContext (module c) (init_function c) (init_args c)
                  (filter_function c) (uninit_function c) p (pFunc c).

Definition set_pFunc (p : N) (c : PythonContext) : PythonContext :=
  mkPythonContext (module c) (init_function c) (init_args c)
                  (filter_function c) (uninit_function c) (pModule c) p.

Record AVRational := mkRational { num : Z; den : Z }.

(** The fields of [AVFrame] that the filter reads; [data] is the array of
    plane pointers. *)
Record AVFrame := mkFrame {
  pts : Z;
  width : Z;
  height : Z;
  data : list N
}.

Record AVFilterContext := mkFilterContext {
  outputs : list N
}.

Record AVFilterLink := mkLink {
  dst : AVFilterContext;
  time_base : AVRational
}.

(** Modelled from the spec: the invalid-argument-class code that a failed
    activation surfaces to the host.  [libavutil/error.h] is not among the
    sources; there [EINVAL] is the POSIX errno 22. *)
Definition EINVAL : Z := 22.

(** Modelled from the spec: the macro that turns an errno into the host's
    error code ([libavutil/error.h], not among the sources): it negates. *)
Definition AVERROR (e : Z) : Z := (- e)%Z.

(** Modelled from the spec: the severity of the descriptive log message
    ([libavutil/log.h], not among the sources). *)
Definition AV_LOG_ERROR : Z := 16.

(** The newline that ends each log message. *)
Definition nl : string := String (Ascii.ascii_of_nat 10) EmptyString.

(** Conversion of an [int64_t] to [double] (round to nearest even). *)
Definition double_of_int64 (z : Z) : float :=
  SF2Prim (binary_normalize prec emax z 0%Z false).

(** Conversion of a data pointer to a C [long] on an LP64 target: the
    64 bits of the address read as a signed integer. *)
Definition long_of_ptr (a : N) : Z :=
  let u := (Z.of_N a mod 2 ^ 64)%Z in
  if (u <? 2 ^ 63)%Z then u else (u - 2 ^ 64)%Z.

(** ** The interpreter side: objects *)

Inductive PyAtom :=
| AtomNone
| AtomFloat (d : float)
| AtomLong (z : Z)
| AtomStr (s : string).

Inductive PyBody :=
| PyAtomic (a : PyAtom)
| PyTuple (items : list N)
| PyModule (name : string) (dict : list (string * N))
| PyFunction (qualname : string).

Abbreviation PyFloat d := (PyAtomic (AtomFloat d)).
Abbreviation PyLong z := (PyAtomic (AtomLong z)).
Abbreviation PyUnicode s := (PyAtomic (AtomStr s)).

Record PyObject := mkObject {
  ob_refcnt : Z;
  ob_body : PyBody
}.

(** What a module defines under a name: a function or a plain value. *)
Inductive Attr :=
| AttrFunction (qualname : string)
| AttrConst (a : PyAtom).

Definition attr_body (a : Attr) : PyBody :=
  match a with
  | AttrFunction q => PyFunction q
  | AttrConst v => PyAtomic v
  end.

(** How a call of a Python function ends. *)
Inductive Outcome :=
| Returns (v : PyAtom)
| Raises (exc : string).

(** ** The trace *)

Inductive Event :=
| EvPyInitialize
| EvPyFinalize
| EvImport (name : string) (res : N)
| EvGetAttr (obj : N) (name : string) (res : N)
| EvCall (callee : N) (qualname : string) (args : list (option PyBody)) (out : Outcome)
| EvBadCall (callee : N)
| EvDecref (p : N)
| EvLog (level : Z) (msg : string)
| EvMakeWritable (frame : N)
| EvFilterFrame (outlink : N) (frame : N).

(** ** The world *)

Record World := mkWorld {
  py_live : bool;
  heap : gmap N PyObject;
  next_addr : N;
  sys_modules : list (string * N);
  err_indicator : option string;
  priv : PythonContext;
  frames : gmap N AVFrame;
  trace : list Event
}.

Definition with_heap (h : gmap N PyObject) (w : World) : World :=
  mkWorld (py_live w) h (next_addr w) (sys_modules w) (err_indicator w)
          (priv w) (frames w) (trace w).

Definition with_next (n : N) (w : World) : World :=
  mkWorld (py_live w) (heap w) n (sys_modules w) (err_indicator w)
          (priv w) (frames w) (trace w).

Definition with_sys_modules (m : list (string * N)) (w : World) : World :=
  mkWorld (py_live w) (heap w) (next_addr w) m (err_indicator w)
          (priv w) (frames w) (trace w).

Definition with_err (e : option string) (w : World) : World :=
  mkWorld (py_live w) (heap w) (next_addr w) (sys_modules w) e
          (priv w) (frames w) (trace w).

Definition with_priv (c : PythonContext) (w : World) : World :=
  mkWorld (py_live w) (heap w) (next_addr w) (sys_modules w) (err_indicator w)
          c (frames w) (trace w).

Definition with_frames (f : gmap N AVFrame) (w : World) : World :=
  mkWorld (py_live w) (heap w) (next_addr w) (sys_modules w) (err_indicator w)
          (priv w) f (trace w).

Definition emit (e : Event) (w : World) : World :=
  mkWorld (py_live w) (heap w) (next_addr w) (sys_modules w) (err_indicator w)
          (priv w) (frames w) (trace w ++ [e]).

(** ** The monad: state, and a fault for undefined behaviour *)

Inductive Fault :=
| NullDeref
| DanglingRef
| BadFrame.

Inductive Res (A : Type) :=
| Ok (a : A) (w : World)
| Crash (f : Fault) (w : World).
Arguments Ok {A} a w.
Arguments Crash {A} f w.

Definition C (A : Type) : Type := World -> Res A.

Definition ret {A} (a : A) : C A := fun w => Ok a w.

Definition bind {A B} (m : C A) (k : A -> C B) : C B :=
  fun w => match m w with
           | Ok a w' => k a w'
           | Crash f w' => Crash f w'
           end.

Notation "x <- m ;; k" := (bind m (fun x => k))
  (at level 100, m at next level, right associativity).
Notation "m ;; k" := (bind m (fun _ => k))
  (at level 100, right associativity).

Definition world_of {A} (r : Res A) : World :=
  match r with Ok _ w => w | Crash _ w => w end.

Definition value_of {A} (r : Res A) : option A :=
  match r with Ok a _ => Some a | Crash _ _ => None end.

Definition fault_of {A} (r : Res A) : option Fault :=
  match r with Ok _ _ => None | Crash f _ => Some f end.

(** ** Reference counting *)

Definition children (b : PyBody) : list N :=
  match b with
  | PyTuple items => items
  | PyModule _ dict => map snd dict
  | _ => []
  end.

(** Drop one reference to [p]; an object whose count reaches zero is freed
    and drops its references to its children.  The fuel bounds the depth of
    that cascade. *)
Fixpoint release (fuel : nat) (h : gmap N PyObject) (p : N) : gmap N PyObject :=
  match fuel with
  | O => h
  | S fuel' =>
      if (p =? 0)%N then h else
      match h !! p with
      | None => h
      | Some o =>
          if (ob_refcnt o <=? 1)%Z
          then fold_left (release fuel') (children (ob_body o)) (delete p h)
          else <[p := mkObject (ob_refcnt o - 1) (ob_body o)]> h
      end
  end.

Definition retain (h : gmap N PyObject) (p : N) : gmap N PyObject :=
  match h !! p with
  | None => h
  | Some o => <[p := mkObject (ob_refcnt o + 1) (ob_body o)]> h
  end.

Definition assoc {A} (k : string) (l : list (string * A)) : option A :=
  snd <$> find (fun e => String.eqb k (fst e)) l.

Fixpoint alloc_attrs (attrs : list (string * Attr)) (n : N) (h : gmap N PyObject)
  : list (string * N) * N * gmap N PyObject :=
  match attrs with
  | [] => ([], n, h)
  | (k, a) :: rest =>
      let '(d, n', h') :=
        alloc_attrs rest (N.succ n) (<[n := mkObject 1 (attr_body a)]> h) in
      ((k, n) :: d, n', h')
  end.

Definition tuple_view (h : gmap N PyObject) (args : N) : option (list (option PyBody)) :=
  if (args =? 0)%N then Some [] else
  match h !! args with
  | Some (mkObject _ (PyTuple items)) =>
      Some (map (fun a => ob_body <$> h !! a) items)
  | _ => None
  end.

(** ** What the filter is linked against

    The modules that can be imported and what their functions do when
    called (as a function of the arguments seen and of the history), and the
    three libavutil/libavfilter services [filter_frame] uses:
    [av_q2d], [av_frame_make_writable] (its effect on the frame) and
    [ff_filter_frame] (the code the next stage answers with). *)
Class Env := {
  site_packages : string -> option (list (string * Attr));
  script : string -> list (option PyBody) -> list Event -> Outcome;
  av_q2d : AVRational -> float;
  make_writable : AVFrame -> AVFrame;
  downstream : N -> N -> AVFrame -> Z
}.

Section Filter.
Context `{E : Env}.

(** ** The CPython calls the filter makes *)

Definition alloc (b : PyBody) : C N := fun w =>
  let p := next_addr w in
  Ok p (with_next (N.succ p) (with_heap (<[p := mkObject 1 b]> (heap w)) w)).

Definition Py_Initialize : C unit := fun w =>
  if py_live w then Ok tt (emit EvPyInitialize w)
  else Ok tt (mkWorld true ∅ 1%N [] None (priv w) (frames w)
                      (trace w ++ [EvPyInitialize])).

Definition Py_FinalizeEx : C Z := fun w =>
  if py_live w
  then Ok 0%Z (mkWorld false ∅ (next_addr w) [] None (priv w) (frames w)
                       (trace w ++ [EvPyFinalize]))
  else Ok 0%Z (emit EvPyFinalize w).

Definition PyUnicode_DecodeFSDefault (s : option string) : C N :=
  match s with
  | None => fun w => Crash NullDeref w
  | Some str => alloc (PyUnicode str)
  end.

Definition PyFloat_FromDouble (d : float) : C N := alloc (PyFloat d).

Definition PyLong_FromLong (z : Z) : C N := alloc (PyLong z).

Definition PyTuple_New (n : nat) : C N := alloc (PyTuple (replicate n NULL)).

(** The release of one reference, without a trace entry. *)
Definition drop_ref (p : N) : C unit := fun w =>
  Ok tt (with_heap (release (S (size (heap w))) (heap w) p) w).

Definition Py_DECREF (p : N) : C unit := fun w =>
  if (p =? 0)%N then Crash NullDeref w else
  match heap w !! p with
  | None => Crash DanglingRef w
  | Some _ => drop_ref p (emit (EvDecref p) w)
  end.

Definition Py_XDECREF (p : N) : C unit :=
  if (p =? 0)%N then ret tt else Py_DECREF p.

(** [PyTuple_SetItem] steals the reference to [v]; it refuses (and drops
    [v]) when [op] is not a tuple it solely owns or [i] is out of range. *)
Definition PyTuple_SetItem (op : N) (i : nat) (v : N) : C Z := fun w =>
  if (op =? 0)%N then Crash NullDeref w else
  match heap w !! op with
  | None => Crash DanglingRef w
  | Some (mkObject rc (PyTuple items)) =>
      if negb (rc =? 1)%Z
      then (drop_ref v ;; ret (-1)%Z) (with_err (Some "SystemError") w)
      else match items !! i with
           | None => (drop_ref v ;; ret (-1)%Z) (with_err (Some "IndexError") w)
           | Some old =>
               (drop_ref old ;; ret 0%Z)
                 (with_heap (<[op := mkObject rc (PyTuple (<[i := v]> items))]> (heap w)) w)
           end
  | Some _ => (drop_ref v ;; ret (-1)%Z) (with_err (Some "SystemError") w)
  end.

(** [PyImport_Import]: a module already in [sys.modules] is handed out
    again; otherwise it is loaded, its attributes are created and it is
    entered into [sys.modules] (which holds one reference, the caller the
    other).  A module that cannot be found gives null with the error
    indicator set; the reference the exception keeps to the name is not
    counted. *)
Definition PyImport_Import (name : N) : C N := fun w =>
  if (name =? 0)%N then Crash NullDeref w else
  match heap w !! name with
  | None => Crash DanglingRef w
  | Some (mkObject _ (PyUnicode s)) =>
      match assoc s (sys_modules w) with
      | Some m => Ok m (emit (EvImport s m) (with_heap (retain (heap w) m) w))
      | None =>
          match site_packages s with
          | Some attrs =>
              let '(d, m, h) := alloc_attrs attrs (next_addr w) (heap w) in
              Ok m (emit (EvImport s m)
                      (with_sys_modules ((s, m) :: sys_modules w)
                         (with_next (N.succ m)
                            (with_heap (<[m := mkObject 2 (PyModule s d)]> h) w))))
          | None =>
              Ok NULL (emit (EvImport s NULL)
                         (with_err (Some "ModuleNotFoundError") w))
          end
      end
  | Some _ => Ok NULL (with_err (Some "TypeError") w)
  end.

(** [PyObject_GetAttrString] returns a new reference, or null with
    [AttributeError] set; the reference the exception keeps to the object
    is not counted. *)
Definition PyObject_GetAttrString (o : N) (name : option string) : C N := fun w =>
  if (o =? 0)%N then Crash NullDeref w else
  match name with
  | None => Crash NullDeref w
  | Some nm =>
      match heap w !! o with
      | None => Crash DanglingRef w
      | Some ob =>
          match ob_body ob with
          | PyModule _ d =>
              match assoc nm d with
              | Some a =>
                  match heap w !! a with
                  | None => Crash DanglingRef w
                  | Some _ => Ok a (emit (EvGetAttr o nm a)
                                      (with_heap (retain (heap w) a) w))
                  end
              | None => Ok NULL (emit (EvGetAttr o nm NULL)
                                   (with_err (Some "AttributeError") w))
              end
          | _ => Ok NULL (emit (EvGetAttr o nm NULL)
                            (with_err (Some "AttributeError") w))
          end
      end
  end.

(** [PyCallable_Check] accepts a null pointer and answers 0 for it. *)
Definition PyCallable_Check (o : N) : C bool := fun w =>
  if (o =? 0)%N then Ok false w else
  match heap w !! o with
  | None => Crash DanglingRef w
  | Some ob => Ok (match ob_body ob with PyFunction _ => true | _ => false end) w
  end.

(** [PyObject_CallObject]: the callee sees the items of the argument
    tuple; a value it returns is a new object owned by the caller, an
    exception sets the error indicator and gives null; the references the
    exception keeps, through its traceback, to the callee and its
    arguments are not counted. *)
Definition PyObject_CallObject (callable args : N) : C N := fun w =>
  if (callable =? 0)%N then Crash NullDeref w else
  match heap w !! callable with
  | None => Crash DanglingRef w
  | Some ob =>
      match ob_body ob, tuple_view (heap w) args with
      | PyFunction q, Some argv =>
          match script q argv (trace w) with
          | Returns v =>
              (alloc (PyAtomic v)) (emit (EvCall callable q argv (Returns v)) w)
          | Raises e =>
              Ok NULL (emit (EvCall callable q argv (Raises e))
                         (with_err (Some e) w))
          end
      | _, _ => Ok NULL (emit (EvBadCall callable) (with_err (Some "TypeError") w))
      end
  end.

(** ** The libav calls the filter makes *)

Definition av_log (level : Z) (msg : string) : C unit :=
  fun w => Ok tt (emit (EvLog level msg) w).

Definition av_frame_make_writable (f : N) : C Z := fun w =>
  match frames w !! f with
  | None => Crash BadFrame w
  | Some fr => Ok 0%Z (emit (EvMakeWritable f)
                         (with_frames (<[f := make_writable fr]> (frames w)) w))
  end.

Definition deref_frame (f : N) : C AVFrame := fun w =>
  match frames w !! f with
  | None => Crash BadFrame w
  | Some fr => Ok fr w
  end.

Definition ff_filter_frame (link : N) (f : N) : C Z := fun w =>
  match frames w !! f with
  | None => Crash BadFrame w
  | Some fr => Ok (downstream link f fr) (emit (EvFilterFrame link f) w)
  end.

Definition load_priv : C PythonContext := fun w => Ok (priv w) w.

Definition store_pModule (p : N) : C unit := fun w =>
  Ok tt (with_priv (set_pModule p (priv w)) w).

Definition store_pFunc (p : N) : C unit := fun w =>
  Ok tt (with_priv (set_pFunc p (priv w)) w).

(** ** vf_python.c *)

Definition filter_frame (inlink : AVFilterLink) (in_ : N) : C Z :=
  let ctx := dst inlink in
  let outlink := nth 0 (outputs ctx) NULL in
  _ <- av_frame_make_writable in_ ;;
  pArgs <- PyTuple_New 4 ;;
  fr <- deref_frame in_ ;;
  pValue <- PyFloat_FromDouble
              (PrimFloat.mul (double_of_int64 (pts fr)) (av_q2d (time_base inlink))) ;;
  _ <- PyTuple_SetItem pArgs 0 pValue ;;
  pValue <- PyLong_FromLong (width fr) ;;
  _ <- PyTuple_SetItem pArgs 1 pValue ;;
  pValue <- PyLong_FromLong (height fr) ;;
  _ <- PyTuple_SetItem pArgs 2 pValue ;;
  pValue <- PyLong_FromLong (long_of_ptr (nth 0 (data fr) NULL)) ;;
  _ <- PyTuple_SetItem pArgs 3 pValue ;;
  py_context <- load_priv ;;
  pValue <- PyObject_CallObject (pFunc py_context) pArgs ;;
  _ <- Py_DECREF pArgs ;;
  _ <- (if (pValue =? NULL)%N then ret tt else Py_DECREF pValue) ;;
  ff_filter_frame outlink in_.

Definition check_and_call_init : C Z :=
  py_context <- load_priv ;;
  match init_function py_context with
  | Some _ =>
      pFunc <- PyObject_GetAttrString (pModule py_context) (init_function py_context) ;;
      callable <- (if (pFunc =? NULL)%N then ret false else PyCallable_Check pFunc) ;;
      if callable then
        pArgs <- PyTuple_New 1 ;;
        pValue <- PyUnicode_DecodeFSDefault (init_args py_context) ;;
        _ <- PyTuple_SetItem pArgs 0 pValue ;;
        pValue <- PyObject_CallObject pFunc pArgs ;;
        _ <- Py_DECREF pArgs ;;
        _ <- Py_XDECREF pValue ;;
        _ <- Py_XDECREF pFunc ;;
        ret 0%Z
      else
        _ <- Py_XDECREF pFunc ;;
        ret (-1)%Z
  | None => ret 0%Z
  end.

Definition check_and_call_uninit : C Z :=
  py_context <- load_priv ;;
  match uninit_function py_context with
  | Some _ =>
      pFunc <- PyObject_GetAttrString (pModule py_context) (uninit_function py_context) ;;
      callable <- (if (pFunc =? NULL)%N then ret false else PyCallable_Check pFunc) ;;
      if callable then
        pArgs <- PyTuple_New 0 ;;
        pValue <- PyObject_CallObject pFunc pArgs ;;
        _ <- Py_DECREF pArgs ;;
        _ <- Py_XDECREF pValue ;;
        _ <- Py_XDECREF pFunc ;;
        ret 0%Z
      else
        _ <- Py_XDECREF pFunc ;;
        ret (-1)%Z
  | None => ret 0%Z
  end.

Definition init (ctx : AVFilterContext) : C Z :=
  _ <- Py_Initialize ;;
  py_context <- load_priv ;;
  pName <- PyUnicode_DecodeFSDefault (module py_context) ;;
  m <- PyImport_Import pName ;;
  _ <- store_pModule m ;;
  _ <- Py_DECREF pName ;;
  py_context <- load_priv ;;
  if negb (pModule py_context =? NULL)%N then
    f <- PyObject_GetAttrString (pModule py_context) (filter_function py_context) ;;
    _ <- store_pFunc f ;;
    py_context <- load_priv ;;
    unusable <- (if (pFunc py_context =? NULL)%N then ret true
                 else c <- PyCallable_Check (pFunc py_context) ;; ret (negb c)) ;;
    if unusable then
      _ <- av_log AV_LOG_ERROR ("could not load filter function" ++ nl) ;;
      ret (AVERROR EINVAL)
    else
      r <- check_and_call_init ;;
      if (r <? 0)%Z then
        _ <- av_log AV_LOG_ERROR ("could not call init function" ++ nl) ;;
        ret (AVERROR EINVAL)
      else ret 0%Z
  else
    _ <- av_log AV_LOG_ERROR ("could not load module" ++ nl) ;;
    ret (AVERROR EINVAL).

Definition uninit (ctx : AVFilterContext) : C unit :=
  r <- check_and_call_uninit ;;
  _ <- (if (r <? 0)%Z then av_log AV_LOG_ERROR ("could not call uninit function" ++ nl) else ret tt) ;;
  py_context <- load_priv ;;
  _ <- Py_DECREF (pFunc py_context) ;;
  py_context <- load_priv ;;
  _ <- Py_DECREF (pModule py_context) ;;
  _ <- Py_FinalizeEx ;;
  ret tt.

(** Modelled from the spec: the host that drives the stage (libavfilter's
    filter graph is not among the sources).  The stage is activated; when
    activation fails it goes directly to Terminated and no frame is
    processed; otherwise the frames are handled one at a time in arrival
    order (their return codes are collected) and the stage is deactivated
    once. *)
Fixpoint handle_frames (inlink : AVFilterLink) (fs : list N) : C (list Z) :=
  match fs with
  | [] => ret []
  | f :: rest =>
      r <- filter_frame inlink f ;;
      rs <- handle_frames inlink rest ;;
      ret (r :: rs)
  end.

(** Modelled from the spec: the stage's life as the host drives it,
    Activating, then Steady and Deactivating, or Terminated at once when
    activation fails. *)
Definition run_stage (ctx : AVFilterContext) (inlink : AVFilterLink) (fs : list N)
  : C (Z * list Z) :=
  r <- init ctx ;;
  if (r <? 0)%Z then ret (r, [])
  else
    rs <- handle_frames inlink fs ;;
    _ <- uninit ctx ;;
    ret (r, rs).

End Filter.

(** ** Reading a trace *)

(** The events added between two worlds. *)
Definition since (w w' : World) : list Event :=
  drop (length (trace w)) (trace w').

Definition is_call (e : Event) : bool :=
  match e with
  | EvCall _ _ _ _ | EvBadCall _ => true
  | _ => false
  end.

Definition is_forward (e : Event) : bool :=
  match e with
  | EvFilterFrame _ _ => true
  | _ => false
  end.

Definition is_lookup (e : Event) : bool :=
  match e with
  | EvGetAttr _ _ _ => true
  | _ => false
  end.

Definition calls (tr : list Event) : list Event := List.filter is_call tr.

(** ** Well-formed interpreter heaps *)

(** Every live object sits at a non-null address below the allocation
    pointer and is referenced at least once. *)
Definition heap_ok (w : World) : bool :=
  (0 <? next_addr w)%N &&
  forallb (fun e => (0 <? fst e)%N && (fst e <? next_addr w)%N
                    && (0 <? ob_refcnt (snd e))%Z)
          (map_to_list (heap w)).

(** A computation that leaves the filter's private context as it found it,
    however it ends. *)
Definition keeps_priv {A} (m : C A) : Prop :=
  forall w, priv (world_of (m w)) = priv w.

(** The world in which [init] reaches [check_and_call_init]: the module
    [m] is loaded at [pm] with dictionary [d] over the heap [h], the name
    object is freed, and the filter callable [qf] at [fa] is bound. *)
Definition after_binding (w : World) (m : string) (d : list (string * N)) (pm : N)
    (h : gmap N PyObject) (f : string) (fa : N) (qf : string) : World :=
  mkWorld true
    (<[fa := mkObject 2 (PyFunction qf)]>
       (<[pm := mkObject 2 (PyModule m d)]> (delete 1%N h)))
    (N.succ pm) [(m, pm)] None
    (set_pFunc fa (set_pModule pm (priv w))) (frames w)
    (trace w ++ [EvPyInitialize; EvImport m pm; EvDecref 1%N; EvGetAttr pm f fa]).

(** A stage whose activation succeeded: the interpreter runs, and the two
    references the context holds are a live module and a live function. *)
Definition Bound (w : World) : Prop :=
  py_live w = true /\ heap_ok w = true /\
  exists rcm m d rcf qf,
    heap w !! pModule (priv w) = Some (mkObject rcm (PyModule m d)) /\
    heap w !! pFunc (priv w) = Some (mkObject rcf (PyFunction qf)).

(** The ways [init] can end from [w]. *)
Inductive init_outcome (w : World) : Res Z -> Prop :=
| init_crashes f w' :
    calls (since w w') = [] ->
    init_outcome w (Crash f w')
| init_refuses w' :
    calls (since w w') = [] ->
    init_outcome w (Ok (AVERROR EINVAL) w')
| init_plain w' :
    init_function (priv w) = None ->
    calls (since w w') = [] ->
    length (List.filter is_lookup (since w w')) = 1 ->
    Bound w' ->
    init_outcome w (Ok 0%Z w')
| init_called w' g a c qg out :
    init_function (priv w) = Some g ->
    init_args (priv w) = Some a ->
    calls (since w w') = [EvCall c qg [Some (PyUnicode a)] out] ->
    Bound w' ->
    err_indicator w' = match out with Raises e => Some e | Returns _ => None end ->
    init_outcome w (Ok 0%Z w').

(** ** A concrete stage

    The configuration of the spec's example scenario: module [demo] with an
    initializer [setup], a handler [process] and a finalizer [teardown],
    and frames of 64 by 64 on a 1/25 time base.  In [raising] both [setup]
    and [process] raise; in [quiet] every function returns [None]. *)
Module Demo.

Definition site (m : string) : option (list (string * Attr)) :=
  if String.eqb m "demo"
  then Some [("setup", AttrFunction "demo.setup");
             ("process", AttrFunction "demo.process");
             ("teardown", AttrFunction "demo.teardown");
             ("gain", AttrConst (AtomLong 2))]
  else None.

Definition q2d (r : AVRational) : float :=
  PrimFloat.div (double_of_int64 (num r)) (double_of_int64 (den r)).

Definition raising : Env := {|
  site_packages := site;
  script := fun q _ _ =>
    if String.eqb q "demo.setup" then Raises "RuntimeError"
    else if String.eqb q "demo.process" then Raises "ValueError"
    else Returns AtomNone;
  av_q2d := q2d;
  make_writable := fun f => f;
  downstream := fun _ _ _ => 0%Z
|}.

Definition quiet : Env := {|
  site_packages := site;
  script := fun _ _ _ => Returns AtomNone;
  av_q2d := q2d;
  make_writable := fun f => f;
  downstream := fun _ _ _ => 0%Z
|}.

Definition config (init_fn init_arg uninit_fn : option string) : PythonContext :=
  mkPythonContext (Some "demo") init_fn init_arg (Some "process") uninit_fn NULL NULL.

Definition host_frames : gmap N AVFrame :=
  <[4096%N := mkFrame 0 64 64 [65536%N]]>
    (<[4097%N := mkFrame 1 64 64 [131072%N]]>
       (<[4098%N := mkFrame 2 64 64 [196608%N]]> ∅)).

(** The world before activation: no interpreter, a zeroed context. *)
Definition boot (c : PythonContext) : World :=
  mkWorld false ∅ 0%N [] None c host_frames [].

Definition ctx : AVFilterContext := mkFilterContext [7%N].

Definition inlink : AVFilterLink := mkLink ctx (mkRational 1 25).

(** The world activation leaves behind. *)
Definition after_init (E : Env) (c : PythonContext) : World :=
  world_of (@init E ctx (boot c)).

Definition plain : PythonContext := config None None None.

Definition with_init : PythonContext := config (Some "setup") (Some "gain=2") None.

Definition with_missing_init : PythonContext :=
  config (Some "warmup") (Some "gain=2") None.

Definition with_uninit : PythonContext := config None None (Some "teardown").

Definition with_missing_uninit : PythonContext := config None None (Some "cleanup").

(** A module name that cannot be imported, and a filter name bound to a
    value. *)
Definition no_module : PythonContext :=
  mkPythonContext (Some "nosuch") None None (Some "process") None NULL NULL.

Definition value_filter : PythonContext :=
  mkPythonContext (Some "demo") None None (Some "gain") None NULL NULL.

(** An activated stage whose context names an initializer but no
    argument string. *)
Definition unset_args : World :=
  with_priv (mkPythonContext (Some "demo") (Some "setup") None (Some "process") None 6 3)
            (after_init quiet plain).

End Demo.

(** ** The stages of a context's life

    What the two references of the private context point at decides what
    [filter_frame] and [uninit] can do.  The predicates below are boolean,
    so that they can be evaluated on a concrete world. *)

(** The dictionary of the module [pModule] refers to. *)
Definition module_dict (w : World) : list (string * N) :=
  match heap w !! pModule (priv w) with
  | Some (mkObject _ (PyModule _ d)) => d
  | _ => []
  end.

(** Whether [name] is bound, in that module, to a live function object:
    the test [pFunc && PyCallable_Check(pFunc)] after
    [PyObject_GetAttrString(pModule, name)]. *)
Definition resolves (w : World) (name : string) : bool :=
  match assoc name (module_dict w) with
  | Some a => match heap w !! a with
              | Some (mkObject _ (PyFunction _)) => true
              | _ => false
              end
  | None => false
  end.

(** The code [check_and_call_init] and [check_and_call_uninit] return for
    an optional function name, and the number of calls they make. *)
Definition hook_code (w : World) (name : option string) : Z :=
  match name with
  | None => 0
  | Some n => if resolves w n then 0 else (-1)
  end.

Definition hook_calls (w : World) (name : option string) : nat :=
  match name with
  | None => 0
  | Some n => if resolves w n then 1 else 0
  end.

(** The interpreter runs and [pModule] is a live module all of whose
    attributes are live. *)
Definition module_loaded (w : World) : bool :=
  py_live w && heap_ok w &&
  match heap w !! pModule (priv w) with
  | Some (mkObject _ (PyModule _ d)) =>
      forallb (fun e => match heap w !! snd e with Some _ => true | None => false end) d
  | _ => false
  end.

(** Moreover [pFunc] is a live object, a function or a plain value. *)
Definition references_live (w : World) : bool :=
  module_loaded w &&
  match heap w !! pFunc (priv w) with
  | Some (mkObject _ (PyFunction _ | PyAtomic _)) => true
  | _ => false
  end.

(** Moreover [pFunc] is a function: the stage is activated. *)
Definition activated (w : World) : bool :=
  module_loaded w &&
  match heap w !! pFunc (priv w) with
  | Some (mkObject _ (PyFunction _)) => true
  | _ => false
  end.

(** The five option strings of the private context. *)
Definition options (c : PythonContext) :=
  (module c, init_function c, init_args c, filter_function c, uninit_function c).

(** A computation that leaves the option strings as it found them, however
    it ends. *)
Definition keeps_options {A} (m : C A) : Prop :=
  forall w, options (priv (world_of (m w))) = options (priv w).

(** The world in which [init] reaches the lookup of the filter function:
    the module [m] is loaded at [pm] with dictionary [d] over the heap [h]
    and the name object is freed. *)
Definition after_import (w : World) (m : string) (d : list (string * N)) (pm : N)
    (h : gmap N PyObject) : World :=
  mkWorld true (<[pm := mkObject 2 (PyModule m d)]> (delete 1%N h)) (N.succ pm)
    [(m, pm)] None (set_pModule pm (priv w)) (frames w)
    (trace w ++ [EvPyInitialize; EvImport m pm; EvDecref 1%N]).


(** The messages logged. *)
Definition is_log (e : Event) : bool :=
  match e with
  | EvLog _ _ => true
  | _ => false
  end.

(** The callee and the arguments of a call that was made. *)
Definition call_view (e : Event) : option (N * list (option PyBody)) :=
  match e with
  | EvCall c _ args _ => Some (c, args)
  | _ => None
  end.

Section Marshal.
Context `{E : Env}.

(** The four values [filter_frame] builds from a frame, in tuple order. *)
Definition marshal (tb : AVRational) (fr : AVFrame) : list (option PyBody) :=
  [Some (PyFloat (PrimFloat.mul (double_of_int64 (pts fr)) (av_q2d tb)));
   Some (PyLong (width fr)); Some (PyLong (height fr));
   Some (PyLong (long_of_ptr (nth 0 (data fr) NULL)))].

(** The call the frame at [f] gives rise to. *)
Definition frame_call (w : World) (tb : AVRational) (f : N)
  : option (N * list (option PyBody)) :=
  fr ← frames w !! f; Some (pFunc (priv w), marshal tb (make_writable fr)).

End Marshal.

(** ** Further configurations of the concrete stage *)
Module Cases.

(** What module [demo] defines. *)
Definition demo_attrs : list (string * Attr) :=
  [("setup"%string, AttrFunction "demo.setup");
   ("process"%string, AttrFunction "demo.process");
   ("teardown"%string, AttrFunction "demo.teardown");
   ("gain"%string, AttrConst (AtomLong 2))].

(** Options left at their defaults. *)
Definition no_module_name : PythonContext :=
  mkPythonContext None None None (Some "process") None NULL NULL.

Definition no_filter_name : PythonContext :=
  mkPythonContext (Some "demo") None None None None NULL NULL.

(** A module that cannot be imported, with a finalizer configured. *)
Definition no_module_with_uninit : PythonContext :=
  mkPythonContext (Some "nosuch") None None (Some "process") (Some "teardown") NULL NULL.

(** An activated stage that owns a frame whose first plane lies in the
    upper half of the address space. *)
Definition high_plane : World :=
  with_frames (<[4099%N := mkFrame 3 64 64 [9223372036854779904%N]]> Demo.host_frames)
              (Demo.after_init Demo.quiet Demo.plain).

End Cases.

(** * Properties *)

(** ** Heaps, association lists, release *)

Lemma heap_ok_pos w : heap_ok w = true -> (0 < next_addr w)%N.
Proof.
  unfold heap_ok. intros H. apply andb_true_iff in H as [H _].
  by apply N.ltb_lt in H.
Qed.

Lemma heap_ok_object w p o :
  heap_ok w = true -> heap w !! p = Some o ->
  (0 < p < next_addr w)%N /\ (0 < ob_refcnt o)%Z.
Proof.
  unfold heap_ok. intros H Hp. apply andb_true_iff in H as [_ H].
  rewrite forallb_forall in H.
  apply elem_of_map_to_list in Hp. apply list_elem_of_In in Hp.
  specialize (H _ Hp). cbn in H. apply andb_true_iff in H as [H H3].
  apply andb_true_iff in H as [H1 H2].
  apply N.ltb_lt in H1, H2. apply Z.ltb_lt in H3. lia.
Qed.

Lemma heap_ok_lookup w p o :
  heap_ok w = true -> heap w !! p = Some o -> (0 < p < next_addr w)%N.
Proof. intros H Hp. by destruct (heap_ok_object w p o H Hp). Qed.

Lemma heap_ok_fresh w p :
  heap_ok w = true -> (next_addr w <= p)%N -> heap w !! p = None.
Proof.
  intros H Hp. destruct (heap w !! p) eqn:Hl; [|done].
  apply (heap_ok_lookup _ _ _ H) in Hl. lia.
Qed.

Lemma heap_ok_intro w :
  (0 < next_addr w)%N ->
  (forall p o, heap w !! p = Some o ->
               (0 < p < next_addr w)%N /\ (0 < ob_refcnt o)%Z) ->
  heap_ok w = true.
Proof.
  intros Hn H. unfold heap_ok. apply andb_true_iff. split; [by apply N.ltb_lt|].
  apply forallb_forall. intros [p o] Hin. cbn.
  apply list_elem_of_In, elem_of_map_to_list in Hin.
  apply H in Hin. rewrite !andb_true_iff, !N.ltb_lt, Z.ltb_lt. lia.
Qed.

Lemma since_app w w' evs : trace w' = trace w ++ evs -> since w w' = evs.
Proof. intros H. unfold since. rewrite H. apply drop_app_length. Qed.

Lemma heap_ok_mono w w' :
  heap_ok w = true -> heap w' = heap w -> (next_addr w <= next_addr w')%N ->
  heap_ok w' = true.
Proof.
  intros Hok Hh Hn. apply heap_ok_intro.
  - pose proof (heap_ok_pos _ Hok). lia.
  - intros p o Hl. rewrite Hh in Hl. pose proof (heap_ok_object _ _ _ Hok Hl). lia.
Qed.

Lemma below_fresh (h : gmap N PyObject) (n p : N) o :
  (forall p, (n <= p)%N -> h !! p = None) -> h !! p = Some o -> (p < n)%N.
Proof.
  intros Hfresh Hl. destruct (N.lt_ge_cases p n) as [|Hge]; [done|].
  rewrite (Hfresh _ Hge) in Hl. done.
Qed.

Lemma assoc_cons {A} k k0 (a0 : A) rest :
  assoc k ((k0, a0) :: rest) = if String.eqb k k0 then Some a0 else assoc k rest.
Proof. unfold assoc. cbn. destruct (String.eqb k k0); reflexivity. Qed.

(** Loading a module's attributes: the addresses handed out lie in
    [[n, n')], objects outside that range are untouched, and the dictionary
    built maps each name the module defines to a fresh object of that
    kind. *)
Lemma alloc_attrs_spec attrs : forall n h d n' h',
  alloc_attrs attrs n h = (d, n', h') ->
  (n <= n')%N /\
  (forall p, (p < n \/ n' <= p)%N -> h' !! p = h !! p) /\
  (forall p o, h' !! p = Some o -> (n <= p < n')%N -> ob_refcnt o = 1%Z) /\
  (forall k, match assoc k attrs with
             | None => assoc k d = None
             | Some at' => exists a, assoc k d = Some a /\ (n <= a < n')%N /\
                                     h' !! a = Some (mkObject 1 (attr_body at'))
             end).
Proof.
  induction attrs as [|[k0 a0] rest IH]; intros n h d n' h' Heq; cbn in Heq.
  - inversion Heq; subst. split; [lia|]. split; [done|]. split; [intros; lia|].
    intros k. reflexivity.
  - destruct (alloc_attrs rest (N.succ n) (<[n:=mkObject 1 (attr_body a0)]> h))
      as [[d1 n1] h1] eqn:Hrest.
    inversion Heq; subst. destruct (IH _ _ _ _ _ Hrest) as (Hle & Hout & Hrc & Hin).
    split; [lia|]. split; [|split].
    + intros p Hp. rewrite Hout by lia. apply lookup_insert_ne. lia.
    + intros p o Hl Hp. destruct (decide (p = n)) as [->|Hne].
      * rewrite Hout in Hl by lia. rewrite lookup_insert_eq in Hl.
        by inversion Hl.
      * apply (Hrc p o Hl). lia.
    + intros k. rewrite !assoc_cons. destruct (String.eqb k k0).
      * exists n. split; [done|]. split; [lia|]. rewrite Hout by lia.
        apply lookup_insert_eq.
      * specialize (Hin k). destruct (assoc k rest) as [at'|]; [|done].
        destruct Hin as (a & Ha & Hr & Hl). exists a. split; [done|]. split; [lia|done].
Qed.

Lemma release_null n h : release n h 0 = h.
Proof. destruct n; reflexivity. Qed.

Lemma release_atom n h p o :
  p ≠ 0%N -> h !! p = Some o -> (ob_refcnt o <= 1)%Z -> children (ob_body o) = [] ->
  release (S n) h p = delete p h.
Proof.
  intros Hp Hl Hr Hc. cbn. destruct (N.eqb_spec p 0); [done|].
  rewrite Hl. destruct (Z.leb_spec (ob_refcnt o) 1); [|lia]. rewrite Hc. reflexivity.
Qed.

Lemma release_shared n h p o :
  p ≠ 0%N -> h !! p = Some o -> (1 < ob_refcnt o)%Z ->
  release (S n) h p = <[p := mkObject (ob_refcnt o - 1) (ob_body o)]> h.
Proof.
  intros Hp Hl Hr. cbn. destruct (N.eqb_spec p 0); [done|].
  rewrite Hl. destruct (Z.leb_spec (ob_refcnt o) 1); [lia|]. reflexivity.
Qed.

Lemma fold_release_atoms n (items : list N) (h : gmap N PyObject) :
  NoDup items ->
  (forall a, a ∈ items -> a ≠ 0%N /\ exists o, h !! a = Some o /\ (ob_refcnt o <= 1)%Z
                                    /\ children (ob_body o) = []) ->
  fold_left (release (S n)) items h = fold_left (fun m a => delete a m) items h.
Proof.
  revert h. induction items as [|a items IH]; intros h Hnd Hall; [reflexivity|].
  apply NoDup_cons in Hnd as [Hna Hnd].
  destruct (Hall a) as (Ha0 & o & Hl & Hr & Hc); [left|].
  cbn [fold_left]. rewrite (release_atom n h a o Ha0 Hl Hr Hc).
  apply IH; [done|]. intros b Hb.
  destruct (Hall b) as (Hb0 & ob & Hlb & Hrb & Hcb); [by right|].
  split; [done|]. exists ob. rewrite lookup_delete_ne; [done|]. intros ->. done.
Qed.

Lemma size_pos_lookup (h : gmap N PyObject) p o :
  h !! p = Some o -> exists n, size h = S n.
Proof.
  intros Hl. destruct (size h) eqn:Hs; [|eauto].
  apply map_size_empty_inv in Hs. subst. rewrite lookup_empty in Hl. done.
Qed.

(** Dropping the last reference to a tuple of solely owned atoms frees the
    tuple and its items. *)
Lemma release_tuple_atoms (h : gmap N PyObject) t rc items :
  t ≠ 0%N -> h !! t = Some (mkObject rc (PyTuple items)) -> (rc <= 1)%Z ->
  NoDup items ->
  Forall (fun a => a ≠ 0%N /\ a ≠ t /\
                   exists o, h !! a = Some o /\ (ob_refcnt o <= 1)%Z
                             /\ children (ob_body o) = []) items ->
  release (S (size h)) h t = fold_left (fun m a => delete a m) items (delete t h).
Proof.
  intros Ht Hl Hrc Hnd Hall.
  destruct (size_pos_lookup h t _ Hl) as [n ->].
  cbn [release]. destruct (N.eqb_spec t 0); [done|]. rewrite Hl.
  cbn [ob_refcnt ob_body children]. destruct (Z.leb_spec rc 1); [|lia].
  apply fold_release_atoms; [done|]. intros a Ha.
  rewrite Forall_forall in Hall. destruct (Hall a Ha) as (Ha0 & Hat & o & Hlo & Hr & Hc).
  split; [done|]. exists o. by rewrite lookup_delete_ne.
Qed.

(** ** Symbolic execution of the monadic code

    [run] takes the left-hand side to weak head normal form, which stops at
    the first heap lookup; [look] resolves that lookup; [heap_simp] pushes
    deletions through insertions once temporaries are freed. *)

Ltac whnf_lhs :=
  match goal with
  | |- ?l = _ =>
      let l' := eval lazy head beta iota zeta delta
        [bind ret filter_frame init uninit check_and_call_init check_and_call_uninit
         run_stage alloc PyTuple_New PyFloat_FromDouble PyLong_FromLong
         PyUnicode_DecodeFSDefault PyTuple_SetItem PyObject_CallObject Py_DECREF Py_XDECREF
         PyImport_Import PyObject_GetAttrString PyCallable_Check Py_Initialize Py_FinalizeEx
         store_pModule store_pFunc retain
         drop_ref av_frame_make_writable deref_frame ff_filter_frame load_priv av_log
         tuple_view negb andb orb Z.eqb Pos.eqb Z.ltb Z.compare AVERROR EINVAL Z.opp] in l in
      change l with l'
  end.

Ltac proj :=
  cbn [with_heap with_next with_err with_frames with_priv with_sys_modules emit
       heap next_addr py_live sys_modules err_indicator priv frames trace
       ob_body ob_refcnt replicate
       set_pModule set_pFunc module init_function init_args filter_function
       uninit_function pModule pFunc].

Ltac look :=
  match goal with
  | |- context [ retain _ _ ] => unfold retain
  | |- context [ <[?i := ?x]> ?m !! ?j ] =>
      first [ rewrite (lookup_insert_eq m i x)
            | rewrite (lookup_insert_ne m i j x) by lia ]
  | |- context [ delete ?i ?m !! ?j ] => rewrite (lookup_delete_ne m i j) by lia
  | H : ?m !! ?j = _ |- context [ ?m !! ?j ] => rewrite H
  | H : assoc ?k ?d = _ |- context [ assoc ?k ?d ] => rewrite H
  | |- context [ assoc _ [] ] => change (assoc _ []) with (@None N)
  | |- context [ (?a =? ?b)%N ] =>
      first [ rewrite (proj2 (N.eqb_neq a b)) by lia
            | rewrite (proj2 (N.eqb_eq a b)) by lia ]
  | |- context [ release _ _ 0%N ] => rewrite release_null
  | |- context [ @lookup nat N (list N) _ ?i ?l ] =>
      let v := eval simpl in (l !! i) in change (l !! i) with v
  | |- context [ @insert nat N (list N) _ ?i ?x ?l ] =>
      let v := eval simpl in (<[i := x]> l) in change (<[i := x]> l) with v
  end.

Ltac run := repeat (whnf_lhs; proj; repeat look).

(** The same, stopping at the calls of [check_and_call_init] and
    [check_and_call_uninit]. *)
Ltac whnf_outer :=
  match goal with
  | |- ?l = _ =>
      let l' := eval lazy head beta iota zeta delta
        [bind ret init uninit run_stage alloc
         PyUnicode_DecodeFSDefault Py_DECREF Py_XDECREF
         PyImport_Import PyObject_GetAttrString PyCallable_Check Py_Initialize Py_FinalizeEx
         store_pModule store_pFunc drop_ref load_priv av_log
         negb andb orb Z.eqb Pos.eqb Z.ltb Z.compare AVERROR EINVAL Z.opp] in l in
      change l with l'
  end.

Ltac run_outer := repeat (whnf_outer; proj; repeat look).

Ltac since_now := erewrite since_app; [|cbn; rewrite <- ?app_assoc; reflexivity].

Ltac nodup :=
  repeat (apply NoDup_cons; split; [rewrite ?elem_of_cons, elem_of_nil; lia|]);
  apply NoDup_nil; exact I.

Ltac atoms :=
  repeat (apply Forall_cons; split;
          [split; [lia|]; split; [lia|]; eexists; split; [repeat look; reflexivity|];
           split; [cbn; lia | reflexivity]|]);
  apply Forall_nil; exact I.

Ltac arith :=
  repeat match goal with
  | |- context [(?a + 1 - 1)%Z] => replace (a + 1 - 1)%Z with a by lia
  end.

Ltac heap_simp :=
  repeat first
    [ rewrite delete_insert_eq
    | rewrite insert_insert_eq
    | rewrite insert_id by (repeat look; reflexivity)
    | rewrite delete_insert_ne by lia
    | rewrite delete_empty
    | match goal with
      | Hfresh : forall p, _ -> ?h !! p = None |- context [delete ?i ?h] =>
          rewrite (delete_id h i) by (apply Hfresh; lia)
      end ].

Ltac free_tuple :=
  erewrite release_tuple_atoms;
  [| lia | repeat look; reflexivity | lia | nodup | atoms];
  cbn [fold_left].

Ltac free_atom :=
  erewrite release_atom; [| lia | repeat look; reflexivity | cbn; lia | reflexivity ].

Ltac unshare :=
  erewrite release_shared; [| lia | repeat look; reflexivity | cbn; lia];
  cbn [ob_refcnt ob_body]; arith.

Ltac finish :=
  cbv beta iota delta
    [with_heap with_next with_err with_frames with_priv with_sys_modules emit
     heap next_addr py_live sys_modules err_indicator priv frames trace];
  rewrite <- ?app_assoc; cbn [app];
  repeat (f_equal; try lia).

(** An address below [2^63] reaches the handler unchanged. *)
Lemma long_of_ptr_low a : (a < 2 ^ 63)%N -> long_of_ptr a = Z.of_N a.
Proof.
  intros Ha. unfold long_of_ptr.
  assert (0 <= Z.of_N a < 2 ^ 63)%Z as Hz.
  { split; [lia|]. change (2 ^ 63)%Z with (Z.of_N (2 ^ 63)). lia. }
  rewrite Z.mod_small by lia. cbv zeta.
  destruct (Z.ltb_spec (Z.of_N a) (2 ^ 63)); [reflexivity | lia].
Qed.

(** ** The per-frame call *)

Section Frames.
Context `{E : Env}.

(** What [filter_frame] does to a world in which the filter callable is a
    live function object and the frame is one the host owns: the only
    lasting effects are on the frame, the trace, the allocation pointer
    and, when the handler raises, the error indicator. *)
Lemma filter_frame_steady inlink in_ w fr ob q :
  heap_ok w = true ->
  frames w !! in_ = Some fr ->
  heap w !! pFunc (priv w) = Some ob ->
  ob_body ob = PyFunction q ->
  let fr' := make_writable fr in
  let outlink := nth 0 (outputs (dst inlink)) 0%N in
  let argv := [Some (PyFloat (PrimFloat.mul (double_of_int64 (pts fr'))
                                            (av_q2d (time_base inlink))));
               Some (PyLong (width fr')); Some (PyLong (height fr'));
               Some (PyLong (long_of_ptr (nth 0 (data fr') 0%N)))] in
  let a := next_addr w in
  let out := script q argv (trace w ++ [EvMakeWritable in_]) in
  filter_frame inlink in_ w =
  Ok (downstream outlink in_ fr')
     match out with
     | Returns v =>
         mkWorld (py_live w) (heap w) (a + 6)%N (sys_modules w) (err_indicator w) (priv w)
                 (<[in_ := fr']> (frames w))
                 (trace w ++ [EvMakeWritable in_; EvCall (pFunc (priv w)) q argv out;
                              EvDecref a; EvDecref (a + 5)%N; EvFilterFrame outlink in_])
     | Raises e =>
         mkWorld (py_live w) (heap w) (a + 5)%N (sys_modules w) (Some e) (priv w)
                 (<[in_ := fr']> (frames w))
                 (trace w ++ [EvMakeWritable in_; EvCall (pFunc (priv w)) q argv out;
                              EvDecref a; EvFilterFrame outlink in_])
     end.
Proof.
  intros Hok Hfr Hf Hq fr' outlink argv a out.
  pose proof (heap_ok_lookup _ _ _ Hok Hf) as Hlt.
  pose proof (fun p => heap_ok_fresh w p Hok) as Hfresh.
  destruct w as [live h nx sm err pv fs tr]; cbn in *.
  run. rewrite Hq. run.
  cbn [map]. repeat look. cbn [fmap option_fmap option_map ob_body].
  fold fr'. fold argv. fold out.
  destruct out as [v|e] eqn:Hout; run.
  - free_tuple. heap_simp. run. free_atom. heap_simp. run. finish.
  - free_tuple. heap_simp. run. finish.
Qed.

Lemma filter_frame_steady_props inlink in_ w fr ob q :
  heap_ok w = true ->
  frames w !! in_ = Some fr ->
  heap w !! pFunc (priv w) = Some ob ->
  ob_body ob = PyFunction q ->
  let fr' := make_writable fr in
  let outlink := nth 0 (outputs (dst inlink)) 0%N in
  let argv := [Some (PyFloat (PrimFloat.mul (double_of_int64 (pts fr'))
                                            (av_q2d (time_base inlink))));
               Some (PyLong (width fr')); Some (PyLong (height fr'));
               Some (PyLong (long_of_ptr (nth 0 (data fr') 0%N)))] in
  let out := script q argv (trace w ++ [EvMakeWritable in_]) in
  exists w' mid,
    filter_frame inlink in_ w = Ok (downstream outlink in_ fr') w' /\
    trace w' = trace w ++ [EvMakeWritable in_; EvCall (pFunc (priv w)) q argv out]
                       ++ mid ++ [EvFilterFrame outlink in_] /\
    Forall (fun e => is_call e = false /\ is_forward e = false) mid /\
    heap w' = heap w /\ priv w' = priv w /\ py_live w' = py_live w /\
    frames w' = <[in_ := fr']> (frames w) /\
    (next_addr w <= next_addr w')%N /\
    err_indicator w' = match out with
                       | Returns _ => err_indicator w
                       | Raises e => Some e
                       end.
Proof.
  intros Hok Hfr Hf Hq fr' outlink argv out.
  pose proof (filter_frame_steady inlink in_ w fr ob q Hok Hfr Hf Hq) as H.
  cbv zeta in H. fold fr' outlink argv out in H. rewrite H.
  destruct out as [v|e].
  - eexists _, [EvDecref (next_addr w); EvDecref (next_addr w + 5)%N].
    split; [reflexivity|]. cbn. split; [reflexivity|].
    split; [repeat constructor|]. repeat split; lia.
  - eexists _, [EvDecref (next_addr w)].
    split; [reflexivity|]. cbn. split; [reflexivity|].
    split; [repeat constructor|]. repeat split; lia.
Qed.


Lemma handle_frames_steady inlink fs : forall w ob q,
  heap_ok w = true ->
  heap w !! pFunc (priv w) = Some ob ->
  ob_body ob = PyFunction q ->
  Forall (fun f => is_Some (frames w !! f)) fs ->
  let outlink := nth 0 (outputs (dst inlink)) 0%N in
  exists rs w' evs,
    handle_frames inlink fs w = Ok rs w' /\
    trace w' = trace w ++ evs /\
    List.filter is_forward evs = map (EvFilterFrame outlink) fs /\
    length (calls evs) = length fs /\
    length rs = length fs /\
    heap w' = heap w /\ priv w' = priv w.
Proof.
  induction fs as [|f fs IH]; intros w ob q Hok Hf Hq Hall outlink.
  - exists [], w, []. cbn. rewrite app_nil_r. done.
  - apply Forall_cons in Hall as [[fr Hfr] Hall].
    destruct (filter_frame_steady_props inlink f w fr ob q Hok Hfr Hf Hq)
      as (w1 & mid & Hrun & Htr & Hmid & Hh & Hp & _ & Hfs & Hn & _).
    destruct (IH w1 ob q) as (rs & w2 & evs & Hrun2 & Htr2 & Hfw & Hc & Hl & Hh2 & Hp2).
    + by apply (heap_ok_mono w).
    + by rewrite Hh, Hp.
    + done.
    + eapply Forall_impl; [exact Hall|]. intros g [frg Hg]. rewrite Hfs.
      destruct (decide (f = g)) as [->|Hne].
      * rewrite lookup_insert_eq. eauto.
      * rewrite lookup_insert_ne by done. eauto.
    + eexists (_ :: rs), w2, _.
      split. { cbn [handle_frames]. unfold bind at 1. rewrite Hrun.
               unfold bind at 1. rewrite Hrun2. reflexivity. }
      split. { rewrite Htr2, Htr. rewrite <- app_assoc. reflexivity. }
      assert (List.filter is_forward mid = [] /\ calls mid = []) as [Hm1 Hm2].
      { clear -Hmid. induction Hmid as [|e mid [He1 He2] _ [IH1 IH2]]; [done|].
        unfold calls in *. cbn. rewrite He1, He2. done. }
      unfold calls in *.
      cbn [app List.filter is_forward is_call].
      rewrite !List.filter_app, Hm1, Hm2. cbn. rewrite Hfw, Hc, Hl, Hh2, Hp2, Hh, Hp.
      fold outlink. done.
Qed.


(** Frames handled one after the other in steady state: for each frame in
    turn the bound callable is called and then the frame is forwarded. *)
Lemma handle_frames_invokes inlink fs : forall w ob q,
  heap_ok w = true ->
  heap w !! pFunc (priv w) = Some ob ->
  ob_body ob = PyFunction q ->
  Forall (fun f => is_Some (frames w !! f)) fs ->
  let outlink := nth 0 (outputs (dst inlink)) 0%N in
  exists rs w' evs,
    handle_frames inlink fs w = Ok rs w' /\
    trace w' = trace w ++ evs /\
    length rs = length fs /\
    length (calls evs) = length fs /\
    Forall (fun c => exists args out, c = EvCall (pFunc (priv w)) q args out) (calls evs) /\
    List.filter is_forward evs = map (EvFilterFrame outlink) fs /\
    List.filter (fun ev => is_call ev || is_forward ev) evs
      = concat (zip_with (fun c f => [c; EvFilterFrame outlink f]) (calls evs) fs).
Proof.
  induction fs as [|f fs IH]; intros w ob q Hok Hf Hq Hall outlink.
  - exists [], w, []. cbn. rewrite app_nil_r. repeat split; constructor.
  - apply Forall_cons in Hall as [[fr Hfr] Hall].
    destruct (filter_frame_steady_props inlink f w fr ob q Hok Hfr Hf Hq)
      as (w1 & mid & Hrun & Htr & Hmid & Hh & Hp & _ & Hfs & Hn & _).
    destruct (IH w1 ob q) as (rs & w2 & evs & Hrun2 & Htr2 & Hl & Hc & Hcs & Hfw & Hil).
    + by apply (heap_ok_mono w).
    + by rewrite Hh, Hp.
    + done.
    + eapply Forall_impl; [exact Hall|]. intros g [frg Hg]. rewrite Hfs.
      destruct (decide (f = g)) as [->|Hne].
      * rewrite lookup_insert_eq. eauto.
      * rewrite lookup_insert_ne by done. eauto.
    + eexists (_ :: rs), w2, _.
      split. { cbn [handle_frames]. unfold bind at 1. rewrite Hrun.
               unfold bind at 1. rewrite Hrun2. reflexivity. }
      split. { rewrite Htr2, Htr. rewrite <- app_assoc. reflexivity. }
      assert (List.filter is_forward mid = [] /\ calls mid = [] /\
              List.filter (fun ev => is_call ev || is_forward ev) mid = [])
        as (Hm1 & Hm2 & Hm3).
      { clear -Hmid. induction Hmid as [|e mid [He1 He2] _ (IH1 & IH2 & IH3)]; [done|].
        unfold calls in *. cbn. rewrite He1, He2. done. }
      unfold calls in *.
      cbn [app List.filter is_forward is_call orb].
      rewrite !List.filter_app, Hm1, Hm2, Hm3. cbn.
      rewrite Hl, Hc, Hfw, Hil, Hp in *. fold outlink.
      repeat split; try done.
      apply Forall_cons. split; [eauto|done].
Qed.

(** *** The private context is not written while frames are handled *)

Lemma keeps_priv_ret {A} (a : A) : keeps_priv (ret a).
Proof. intros w. reflexivity. Qed.

Lemma keeps_priv_bind {A B} (m : C A) (k : A -> C B) :
  keeps_priv m -> (forall a, keeps_priv (k a)) -> keeps_priv (bind m k).
Proof.
  intros Hm Hk w. unfold bind. specialize (Hm w).
  destruct (m w) as [a w1|f w1]; cbn in *; [|done].
  rewrite Hk. done.
Qed.

Lemma keeps_priv_if {A} (c : bool) (a b : C A) :
  keeps_priv a -> keeps_priv b -> keeps_priv (if c then a else b).
Proof. by destruct c. Qed.

Ltac keeps_prim :=
  intros w;
  cbv [alloc PyTuple_New PyFloat_FromDouble PyLong_FromLong PyUnicode_DecodeFSDefault
       drop_ref Py_DECREF Py_XDECREF PyTuple_SetItem PyObject_CallObject
       PyObject_GetAttrString PyCallable_Check
       av_frame_make_writable deref_frame ff_filter_frame load_priv av_log bind ret];
  repeat case_match; reflexivity.

Lemma keeps_priv_alloc b : keeps_priv (alloc b).
Proof. keeps_prim. Qed.
Lemma keeps_priv_PyTuple_New n : keeps_priv (PyTuple_New n).
Proof. keeps_prim. Qed.
Lemma keeps_priv_PyFloat_FromDouble d : keeps_priv (PyFloat_FromDouble d).
Proof. keeps_prim. Qed.
Lemma keeps_priv_PyLong_FromLong z : keeps_priv (PyLong_FromLong z).
Proof. keeps_prim. Qed.
Lemma keeps_priv_Py_DECREF p : keeps_priv (Py_DECREF p).
Proof. keeps_prim. Qed.
Lemma keeps_priv_PyTuple_SetItem p i v : keeps_priv (PyTuple_SetItem p i v).
Proof. keeps_prim. Qed.
Lemma keeps_priv_PyObject_CallObject f a : keeps_priv (PyObject_CallObject f a).
Proof. keeps_prim. Qed.
Lemma keeps_priv_av_frame_make_writable f : keeps_priv (av_frame_make_writable f).
Proof. keeps_prim. Qed.
Lemma keeps_priv_deref_frame f : keeps_priv (deref_frame f).
Proof. keeps_prim. Qed.
Lemma keeps_priv_ff_filter_frame l f : keeps_priv (ff_filter_frame l f).
Proof. keeps_prim. Qed.
Lemma keeps_priv_load_priv : keeps_priv load_priv.
Proof. keeps_prim. Qed.

Create HintDb keeps discriminated.
#[local] Hint Resolve keeps_priv_ret keeps_priv_if keeps_priv_alloc keeps_priv_PyTuple_New
  keeps_priv_PyFloat_FromDouble keeps_priv_PyLong_FromLong keeps_priv_Py_DECREF
  keeps_priv_PyTuple_SetItem keeps_priv_PyObject_CallObject
  keeps_priv_av_frame_make_writable keeps_priv_deref_frame keeps_priv_ff_filter_frame
  keeps_priv_load_priv : keeps.

Lemma keeps_priv_filter_frame inlink in_ : keeps_priv (filter_frame inlink in_).
Proof.
  unfold filter_frame.
  repeat (apply keeps_priv_bind; [auto with keeps | intros]). auto with keeps.
Qed.

Lemma keeps_priv_handle_frames inlink fs : keeps_priv (handle_frames inlink fs).
Proof.
  induction fs as [|f fs IH]; cbn [handle_frames]; [apply keeps_priv_ret|].
  apply keeps_priv_bind; [apply keeps_priv_filter_frame|]. intros r.
  apply keeps_priv_bind; [exact IH|]. intros rs. apply keeps_priv_ret.
Qed.

(** C1: in steady state [filter_frame] calls the bound filter callable
    exactly once, with one tuple of four items: the timestamp as a float,
    [pts] times the input link's time base; the width and the height as
    integers; the address of the first data plane as an integer (the
    pointer converted to a C [long], which is the address itself below
    [2^63]).  The values are read from the frame after
    [av_frame_make_writable] has run on it. *)
Theorem filter_frame_call_arguments inlink in_ w fr ob q :
  heap_ok w = true ->
  frames w !! in_ = Some fr ->
  heap w !! pFunc (priv w) = Some ob ->
  ob_body ob = PyFunction q ->
  exists r w' out,
    filter_frame inlink in_ w = Ok r w' /\
    calls (since w w') =
      [EvCall (pFunc (priv w)) q
         [Some (PyFloat (PrimFloat.mul (double_of_int64 (pts (make_writable fr)))
                                       (av_q2d (time_base inlink))));
          Some (PyLong (width (make_writable fr)));
          Some (PyLong (height (make_writable fr)));
          Some (PyLong (long_of_ptr (nth 0 (data (make_writable fr)) NULL)))]
         out] /\
    ((nth 0 (data (make_writable fr)) NULL < 2 ^ 63)%N ->
     long_of_ptr (nth 0 (data (make_writable fr)) NULL)
     = Z.of_N (nth 0 (data (make_writable fr)) NULL)).
Proof.
  intros Hok Hfr Hf Hq.
  destruct (filter_frame_steady_props inlink in_ w fr ob q Hok Hfr Hf Hq)
    as (w' & mid & Hrun & Htr & Hmid & _).
  eexists _, w', _. split; [exact Hrun|]. split; [|apply long_of_ptr_low].
  rewrite (since_app _ _ _ Htr). unfold calls.
  cbn [app List.filter is_call]. rewrite List.filter_app. cbn.
  replace (List.filter is_call mid) with (@nil Event); [reflexivity|].
  clear -Hmid. induction Hmid as [|e mid [He _] _ IH]; [done|]. cbn. by rewrite He.
Qed.


(** C3, as the code has it: when the handler call of a frame raises,
    [filter_frame] still forwards that frame and returns the next stage's
    code; the interpreter's error indicator is left set to the exception
    (nothing clears it); and every later frame is processed as well: for
    each of them in turn the bound callable is called again and then the
    frame is forwarded. *)
Theorem filter_frame_survives_handler_failure inlink in_ w fr ob q e rest :
  heap_ok w = true ->
  frames w !! in_ = Some fr ->
  heap w !! pFunc (priv w) = Some ob ->
  ob_body ob = PyFunction q ->
  (exists c q' args,
      In (EvCall c q' args (Raises e)) (since w (world_of (filter_frame inlink in_ w)))) ->
  Forall (fun f => is_Some (frames w !! f)) rest ->
  let outlink := nth 0 (outputs (dst inlink)) NULL in
  exists w',
    filter_frame inlink in_ w = Ok (downstream outlink in_ (make_writable fr)) w' /\
    last (trace w') = Some (EvFilterFrame outlink in_) /\
    err_indicator w' = Some e /\
    exists rs w'',
      handle_frames inlink rest w' = Ok rs w'' /\
      List.filter is_forward (since w' w'') = map (EvFilterFrame outlink) rest /\
      length rs = length rest /\
      length (calls (since w' w'')) = length rest /\
      Forall (fun c => exists args out, c = EvCall (pFunc (priv w)) q args out)
             (calls (since w' w'')) /\
      List.filter (fun ev => is_call ev || is_forward ev) (since w' w'')
        = concat (zip_with (fun c f => [c; EvFilterFrame outlink f])
                           (calls (since w' w'')) rest).
Proof.
  intros Hok Hfr Hf Hq (c & q' & args & Hin) Hrest outlink.
  destruct (filter_frame_steady_props inlink in_ w fr ob q Hok Hfr Hf Hq)
    as (w' & mid & Hrun & Htr & Hmid & Hh & Hp & _ & Hfs & Hn & Herr).
  rewrite Hrun in Hin. cbn [world_of] in Hin. rewrite (since_app _ _ _ Htr) in Hin.
  assert (script q
            [Some (PyFloat (PrimFloat.mul (double_of_int64 (pts (make_writable fr)))
                                          (av_q2d (time_base inlink))));
             Some (PyLong (width (make_writable fr)));
             Some (PyLong (height (make_writable fr)));
             Some (PyLong (long_of_ptr (nth 0 (data (make_writable fr)) NULL)))]
            (trace w ++ [EvMakeWritable in_]) = Raises e) as Hout.
  { cbn [app In] in Hin. destruct Hin as [Hin|[Hin|Hin]]; [done| congruence |].
    apply in_app_or in Hin as [Hin|[Hin|[]]]; [|done].
    rewrite Forall_forall in Hmid. apply list_elem_of_In, Hmid in Hin as [Hin _]. done. }
  rewrite Hout in Herr.
  exists w'. split; [exact Hrun|].
  split. { rewrite Htr, !app_assoc. apply last_snoc. }
  split; [exact Herr|].
  destruct (handle_frames_invokes inlink rest w' ob q)
    as (rs & w'' & evs & Hrun2 & Htr2 & Hl & Hc & Hcs & Hfw & Hil).
  - by apply (heap_ok_mono w).
  - by rewrite Hh, Hp.
  - done.
  - eapply Forall_impl; [exact Hrest|]. intros g [frg Hg]. rewrite Hfs.
    destruct (decide (in_ = g)) as [->|Hne].
    + rewrite lookup_insert_eq. eauto.
    + rewrite lookup_insert_ne by done. eauto.
  - exists rs, w''. rewrite (since_app _ _ _ Htr2). rewrite Hp in Hcs. done.
Qed.

End Frames.


Lemma filter_frame_call_arguments_witness :
  heap_ok (Demo.after_init Demo.quiet Demo.plain) = true /\
  frames (Demo.after_init Demo.quiet Demo.plain) !! 4097%N
    = Some (mkFrame 1 64 64 [131072%N]) /\
  heap (Demo.after_init Demo.quiet Demo.plain) !! 3%N
    = Some (mkObject 2 (PyFunction "demo.process")) /\
  exists r w' out,
    @filter_frame Demo.quiet Demo.inlink 4097%N (Demo.after_init Demo.quiet Demo.plain)
      = Ok r w' /\
    calls (since (Demo.after_init Demo.quiet Demo.plain) w') =
      [EvCall 3%N "demo.process"
         [Some (PyFloat 0x1.47ae147ae147bp-5%float); Some (PyLong 64); Some (PyLong 64);
          Some (PyLong 131072)] out] /\
    ((131072 < 2 ^ 63)%N -> long_of_ptr 131072 = 131072%Z).
Proof.
  assert (heap_ok (Demo.after_init Demo.quiet Demo.plain) = true) as H1
    by (vm_compute; reflexivity).
  assert (frames (Demo.after_init Demo.quiet Demo.plain) !! 4097%N
          = Some (mkFrame 1 64 64 [131072%N])) as H2 by (vm_compute; reflexivity).
  assert (heap (Demo.after_init Demo.quiet Demo.plain)
            !! pFunc (priv (Demo.after_init Demo.quiet Demo.plain))
          = Some (mkObject 2 (PyFunction "demo.process"))) as H3
    by (vm_compute; reflexivity).
  split; [exact H1|]. split; [exact H2|]. split; [exact H3|].
  exact (filter_frame_call_arguments (E := Demo.quiet) Demo.inlink 4097%N _ _ _ _
           H1 H2 H3 eq_refl).
Defined.


(** C3 as the spec states it fails: after a frame whose handler raised,
    the error indicator, clear before, holds the exception. *)
Lemma filter_frame_leaves_error_indicator_set :
  err_indicator (Demo.after_init Demo.raising Demo.plain) = None /\
  value_of (@filter_frame Demo.raising Demo.inlink 4097%N
              (Demo.after_init Demo.raising Demo.plain)) = Some 0%Z /\
  calls (since (Demo.after_init Demo.raising Demo.plain)
               (world_of (@filter_frame Demo.raising Demo.inlink 4097%N
                            (Demo.after_init Demo.raising Demo.plain)))) =
    [EvCall 3%N "demo.process"
       [Some (PyFloat 0x1.47ae147ae147bp-5%float); Some (PyLong 64); Some (PyLong 64);
        Some (PyLong 131072)] (Raises "ValueError")] /\
  err_indicator (world_of (@filter_frame Demo.raising Demo.inlink 4097%N
                             (Demo.after_init Demo.raising Demo.plain)))
    = Some "ValueError"%string.
Proof. vm_compute. repeat split; reflexivity. Qed.

Lemma filter_frame_survives_handler_failure_witness :
  heap_ok (Demo.after_init Demo.raising Demo.plain) = true /\
  frames (Demo.after_init Demo.raising Demo.plain) !! 4096%N
    = Some (mkFrame 0 64 64 [65536%N]) /\
  heap (Demo.after_init Demo.raising Demo.plain) !! 3%N
    = Some (mkObject 2 (PyFunction "demo.process")) /\
  (exists c q' args,
      In (EvCall c q' args (Raises "ValueError"))
         (since (Demo.after_init Demo.raising Demo.plain)
                (world_of (@filter_frame Demo.raising Demo.inlink 4096%N
                             (Demo.after_init Demo.raising Demo.plain))))) /\
  Forall (fun f => is_Some (frames (Demo.after_init Demo.raising Demo.plain) !! f))
         [4097%N; 4098%N] /\
  exists w',
    @filter_frame Demo.raising Demo.inlink 4096%N (Demo.after_init Demo.raising Demo.plain)
      = Ok 0%Z w' /\
    last (trace w') = Some (EvFilterFrame 7%N 4096%N) /\
    err_indicator w' = Some "ValueError"%string /\
    exists rs w'',
      @handle_frames Demo.raising Demo.inlink [4097%N; 4098%N] w' = Ok rs w'' /\
      List.filter is_forward (since w' w'')
        = [EvFilterFrame 7%N 4097%N; EvFilterFrame 7%N 4098%N] /\
      length rs = 2%nat /\
      length (calls (since w' w'')) = 2%nat /\
      Forall (fun c => exists args out, c = EvCall 3%N "demo.process" args out)
             (calls (since w' w'')) /\
      List.filter (fun ev => is_call ev || is_forward ev) (since w' w'')
        = concat (zip_with (fun c f => [c; EvFilterFrame 7%N f])
                           (calls (since w' w'')) [4097%N; 4098%N]).
Proof.
  assert (heap_ok (Demo.after_init Demo.raising Demo.plain) = true) as H1
    by (vm_compute; reflexivity).
  assert (frames (Demo.after_init Demo.raising Demo.plain) !! 4096%N
          = Some (mkFrame 0 64 64 [65536%N])) as H2 by (vm_compute; reflexivity).
  assert (heap (Demo.after_init Demo.raising Demo.plain)
            !! pFunc (priv (Demo.after_init Demo.raising Demo.plain))
          = Some (mkObject 2 (PyFunction "demo.process"))) as H3
    by (vm_compute; reflexivity).
  assert (exists c q' args,
      In (EvCall c q' args (Raises "ValueError"))
         (since (Demo.after_init Demo.raising Demo.plain)
                (world_of (@filter_frame Demo.raising Demo.inlink 4096%N
                             (Demo.after_init Demo.raising Demo.plain))))) as H4.
  { eexists _, _, _. vm_compute. right. left. reflexivity. }
  assert (Forall (fun f => is_Some (frames (Demo.after_init Demo.raising Demo.plain) !! f))
                 [4097%N; 4098%N]) as H5.
  { repeat constructor; vm_compute; eexists; reflexivity. }
  split; [exact H1|]. split; [exact H2|]. split; [exact H3|].
  split; [exact H4|]. split; [exact H5|].
  exact (filter_frame_survives_handler_failure (E := Demo.raising) Demo.inlink 4096%N
           _ _ _ _ "ValueError" [4097%N; 4098%N] H1 H2 H3 eq_refl H4 H5).
Defined.

(** ** Activation and teardown *)

Section Lifecycle.
Context `{E : Env}.

(** *** The optional initializer *)

Lemma check_and_call_init_unset w :
  init_function (priv w) = None -> check_and_call_init w = Ok 0%Z w.
Proof. intros H. unfold check_and_call_init, bind, load_priv. rewrite H. reflexivity. Qed.

Lemma check_and_call_init_unresolved w g rcm m d :
  init_function (priv w) = Some g ->
  (0 < pModule (priv w))%N ->
  heap w !! pModule (priv w) = Some (mkObject rcm (PyModule m d)) ->
  assoc g d = None ->
  check_and_call_init w =
  Ok (-1)%Z (emit (EvGetAttr (pModule (priv w)) g NULL)
                  (with_err (Some "AttributeError"%string) w)).
Proof.
  intros Hg Hpm Hm Hga.
  destruct w as [live h nx sm err pv fs tr]; cbn in *.
  run. rewrite Hg. run. reflexivity.
Qed.

Lemma check_and_call_init_not_callable w g rcm m d ga rc body :
  (forall p, (next_addr w <= p)%N -> heap w !! p = None) ->
  init_function (priv w) = Some g ->
  (0 < pModule (priv w))%N ->
  heap w !! pModule (priv w) = Some (mkObject rcm (PyModule m d)) ->
  assoc g d = Some ga ->
  heap w !! ga = Some (mkObject rc body) ->
  (forall q, body <> PyFunction q) ->
  (0 < ga)%N -> (0 < rc)%Z ->
  check_and_call_init w =
  Ok (-1)%Z (emit (EvDecref ga) (emit (EvGetAttr (pModule (priv w)) g ga) w)).
Proof.
  intros Hfresh Hg Hpm Hm Hga Hl Hnf Hga0 Hrc.
  destruct w as [live h nx sm err pv fs tr]; cbn in *.
  run. rewrite Hg. run.
  destruct body as [v|items|nm dd|q]; [| | |by destruct (Hnf q)];
    run; unshare; heap_simp; finish.
Qed.

Lemma check_and_call_init_calls w g a rcm m d ga rc qg :
  (forall p, (next_addr w <= p)%N -> heap w !! p = None) ->
  init_function (priv w) = Some g ->
  init_args (priv w) = Some a ->
  (0 < pModule (priv w))%N ->
  heap w !! pModule (priv w) = Some (mkObject rcm (PyModule m d)) ->
  assoc g d = Some ga ->
  heap w !! ga = Some (mkObject rc (PyFunction qg)) ->
  (0 < ga)%N -> (0 < rc)%Z ->
  let n := next_addr w in
  let argv := [Some (PyUnicode a)] in
  let out := script qg argv (trace w ++ [EvGetAttr (pModule (priv w)) g ga]) in
  check_and_call_init w =
  Ok 0%Z
     match out with
     | Returns v =>
         mkWorld (py_live w) (heap w) (n + 3)%N (sys_modules w) (err_indicator w) (priv w)
                 (frames w)
                 (trace w ++ [EvGetAttr (pModule (priv w)) g ga; EvCall ga qg argv out;
                              EvDecref n; EvDecref (n + 2)%N; EvDecref ga])
     | Raises e =>
         mkWorld (py_live w) (heap w) (n + 2)%N (sys_modules w) (Some e) (priv w)
                 (frames w)
                 (trace w ++ [EvGetAttr (pModule (priv w)) g ga; EvCall ga qg argv out;
                              EvDecref n; EvDecref ga])
     end.
Proof.
  intros Hfresh Hg Ha Hpm Hm Hga Hl Hga0 Hrc n argv out.
  pose proof (below_fresh _ _ _ _ Hfresh Hm) as Hpmlt.
  pose proof (below_fresh _ _ _ _ Hfresh Hl) as Hgalt.
  destruct w as [live h nx sm err pv fs tr]; cbn in *.
  run. rewrite Hg. run. rewrite Ha. run.
  cbn [map]. repeat look. cbn [fmap option_fmap option_map ob_body].
  fold argv. fold out.
  destruct out as [v|e] eqn:Hout; run.
  - free_tuple. heap_simp. run. free_atom. heap_simp. run. unshare. heap_simp. finish.
  - free_tuple. heap_simp. run. unshare. heap_simp. finish.
Qed.

Lemma check_and_call_init_null_args w g rcm m d ga rc qg :
  (forall p, (next_addr w <= p)%N -> heap w !! p = None) ->
  init_function (priv w) = Some g ->
  init_args (priv w) = None ->
  (0 < pModule (priv w))%N ->
  heap w !! pModule (priv w) = Some (mkObject rcm (PyModule m d)) ->
  assoc g d = Some ga ->
  heap w !! ga = Some (mkObject rc (PyFunction qg)) ->
  (0 < ga)%N ->
  check_and_call_init w =
  Crash NullDeref
    (mkWorld (py_live w)
       (<[next_addr w := mkObject 1 (PyTuple [NULL])]>
          (<[ga := mkObject (rc + 1) (PyFunction qg)]> (heap w)))
       (N.succ (next_addr w)) (sys_modules w) (err_indicator w) (priv w) (frames w)
       (trace w ++ [EvGetAttr (pModule (priv w)) g ga])).
Proof.
  intros Hfresh Hg Ha Hpm Hm Hga Hl Hga0.
  pose proof (below_fresh _ _ _ _ Hfresh Hl) as Hgalt.
  destruct w as [live h nx sm err pv fs tr]; cbn in *.
  run. rewrite Hg. run. rewrite Ha. run. reflexivity.
Qed.

(** *** The optional finalizer *)

Lemma check_and_call_uninit_unset w :
  uninit_function (priv w) = None -> check_and_call_uninit w = Ok 0%Z w.
Proof. intros H. unfold check_and_call_uninit, bind, load_priv. rewrite H. reflexivity. Qed.

Lemma check_and_call_uninit_unresolved w u rcm m d :
  uninit_function (priv w) = Some u ->
  (0 < pModule (priv w))%N ->
  heap w !! pModule (priv w) = Some (mkObject rcm (PyModule m d)) ->
  assoc u d = None ->
  check_and_call_uninit w =
  Ok (-1)%Z (emit (EvGetAttr (pModule (priv w)) u NULL)
                  (with_err (Some "AttributeError"%string) w)).
Proof.
  intros Hu Hpm Hm Hua.
  destruct w as [live h nx sm err pv fs tr]; cbn in *.
  run. rewrite Hu. run. reflexivity.
Qed.

Lemma check_and_call_uninit_not_callable w u rcm m d ua rc body :
  (forall p, (next_addr w <= p)%N -> heap w !! p = None) ->
  uninit_function (priv w) = Some u ->
  (0 < pModule (priv w))%N ->
  heap w !! pModule (priv w) = Some (mkObject rcm (PyModule m d)) ->
  assoc u d = Some ua ->
  heap w !! ua = Some (mkObject rc body) ->
  (forall q, body <> PyFunction q) ->
  (0 < ua)%N -> (0 < rc)%Z ->
  check_and_call_uninit w =
  Ok (-1)%Z (emit (EvDecref ua) (emit (EvGetAttr (pModule (priv w)) u ua) w)).
Proof.
  intros Hfresh Hu Hpm Hm Hua Hl Hnf Hua0 Hrc.
  destruct w as [live h nx sm err pv fs tr]; cbn in *.
  run. rewrite Hu. run.
  destruct body as [v|items|nm dd|q]; [| | |by destruct (Hnf q)];
    run; unshare; heap_simp; finish.
Qed.

Lemma check_and_call_uninit_calls w u rcm m d ua rc qu :
  (forall p, (next_addr w <= p)%N -> heap w !! p = None) ->
  uninit_function (priv w) = Some u ->
  (0 < pModule (priv w))%N ->
  heap w !! pModule (priv w) = Some (mkObject rcm (PyModule m d)) ->
  assoc u d = Some ua ->
  heap w !! ua = Some (mkObject rc (PyFunction qu)) ->
  (0 < ua)%N -> (0 < rc)%Z ->
  let n := next_addr w in
  let out := script qu [] (trace w ++ [EvGetAttr (pModule (priv w)) u ua]) in
  check_and_call_uninit w =
  Ok 0%Z
     match out with
     | Returns v =>
         mkWorld (py_live w) (heap w) (n + 2)%N (sys_modules w) (err_indicator w) (priv w)
                 (frames w)
                 (trace w ++ [EvGetAttr (pModule (priv w)) u ua; EvCall ua qu [] out;
                              EvDecref n; EvDecref (n + 1)%N; EvDecref ua])
     | Raises e =>
         mkWorld (py_live w) (heap w) (n + 1)%N (sys_modules w) (Some e) (priv w)
                 (frames w)
                 (trace w ++ [EvGetAttr (pModule (priv w)) u ua; EvCall ua qu [] out;
                              EvDecref n; EvDecref ua])
     end.
Proof.
  intros Hfresh Hu Hpm Hm Hua Hl Hua0 Hrc n out.
  pose proof (below_fresh _ _ _ _ Hfresh Hm) as Hpmlt.
  pose proof (below_fresh _ _ _ _ Hfresh Hl) as Hualt.
  destruct w as [live h nx sm err pv fs tr]; cbn in *.
  run. rewrite Hu. run.
  cbn [map]. fold out.
  destruct out as [v|e] eqn:Hout; run.
  - free_tuple. heap_simp. run. free_atom. heap_simp. run. unshare. heap_simp. finish.
  - free_tuple. heap_simp. run. unshare. heap_simp. finish.
Qed.

(** *** Teardown of an activated stage *)

(** The two releases and the shutdown that end [uninit], from a world in
    which both references are live. *)
Lemma uninit_tail w r rcm m d rcf qf :
  py_live w = true ->
  (0 < pModule (priv w))%N -> (0 < pFunc (priv w))%N ->
  heap w !! pModule (priv w) = Some (mkObject rcm (PyModule m d)) ->
  heap w !! pFunc (priv w) = Some (mkObject rcf (PyFunction qf)) ->
  (_ <- (if (r <? 0)%Z then av_log AV_LOG_ERROR ("could not call uninit function" ++ nl) else ret tt) ;;
   py_context <- load_priv ;;
   _ <- Py_DECREF (pFunc py_context) ;;
   py_context <- load_priv ;;
   _ <- Py_DECREF (pModule py_context) ;;
   _ <- Py_FinalizeEx ;;
   ret tt) w =
  Ok tt (mkWorld false ∅ (next_addr w) [] None (priv w) (frames w)
           (trace w ++ (if (r <? 0)%Z then [EvLog AV_LOG_ERROR ("could not call uninit function" ++ nl)] else [])
                    ++ [EvDecref (pFunc (priv w)); EvDecref (pModule (priv w));
                        EvPyFinalize])).
Proof.
  intros Hlive Hpm Hpf Hm Hf.
  assert (pModule (priv w) <> pFunc (priv w)) as Hne by (intros Heq; congruence).
  destruct w as [live h nx sm err pv fs tr]; cbn in *. subst live.
  destruct (r <? 0)%Z; run.
  - destruct (Z.leb_spec rcf 1).
    + erewrite release_atom; [| lia | repeat look; reflexivity | cbn; lia | reflexivity ].
      run. finish.
    + erewrite release_shared; [| lia | repeat look; reflexivity | cbn; lia].
      run. finish.
  - destruct (Z.leb_spec rcf 1).
    + erewrite release_atom; [| lia | repeat look; reflexivity | cbn; lia | reflexivity ].
      run. finish.
    + erewrite release_shared; [| lia | repeat look; reflexivity | cbn; lia].
      run. finish.
Qed.

(** *** Activation *)

Section Loading.
Variables (ctx : AVFilterContext) (w : World) (m : string)
          (attrs : list (string * Attr)) (d : list (string * N)) (pm : N)
          (h : gmap N PyObject).
Hypothesis Hlive : py_live w = false.
Hypothesis Hmod : module (priv w) = Some m.
Hypothesis Hsite : site_packages m = Some attrs.
Hypothesis Halloc :
  alloc_attrs attrs 2 (<[1%N := mkObject 1 (PyUnicode m)]> ∅) = (d, pm, h).

Lemma import_name : h !! 1%N = Some (mkObject 1 (PyUnicode m)).
Proof using Halloc.
  destruct (alloc_attrs_spec _ _ _ _ _ _ Halloc) as (_ & Hout & _ & _).
  rewrite Hout by lia. apply lookup_insert_eq.
Qed.

Lemma import_base : (2 <= pm)%N.
Proof using Halloc. by destruct (alloc_attrs_spec _ _ _ _ _ _ Halloc) as (? & _). Qed.

Lemma import_fresh p : (pm <= p)%N -> h !! p = None.
Proof using Halloc.
  destruct (alloc_attrs_spec _ _ _ _ _ _ Halloc) as (Hle & Hout & _ & _).
  intros Hp. rewrite Hout by lia. rewrite lookup_insert_ne by lia. apply lookup_empty.
Qed.

Lemma import_null : h !! 0%N = None.
Proof using Halloc.
  destruct (alloc_attrs_spec _ _ _ _ _ _ Halloc) as (Hle & Hout & _ & _).
  rewrite Hout by lia. rewrite lookup_insert_ne by lia. apply lookup_empty.
Qed.

Lemma import_refcnt p o : h !! p = Some o -> (0 < ob_refcnt o)%Z.
Proof using Halloc.
  destruct (alloc_attrs_spec _ _ _ _ _ _ Halloc) as (Hle & Hout & Hrc & _).
  intros Hl. destruct (N.lt_ge_cases p 2) as [Hlt|Hge].
  - rewrite Hout in Hl by lia. destruct (decide (p = 1%N)) as [->|Hne].
    + rewrite lookup_insert_eq in Hl. inversion Hl. cbn. lia.
    + rewrite lookup_insert_ne, lookup_empty in Hl by done. done.
  - destruct (N.lt_ge_cases p pm) as [Hlt|Hge'].
    + rewrite (Hrc p o Hl) by lia. lia.
    + rewrite Hout in Hl by lia. rewrite lookup_insert_ne, lookup_empty in Hl by lia.
      done.
Qed.

Lemma import_attr k :
  match assoc k attrs with
  | None => assoc k d = None
  | Some at' => exists a, assoc k d = Some a /\ (2 <= a < pm)%N /\
                          h !! a = Some (mkObject 1 (attr_body at'))
  end.
Proof using Halloc.
  destruct (alloc_attrs_spec _ _ _ _ _ _ Halloc) as (_ & _ & _ & H). apply H.
Qed.

Lemma init_filter_unset :
  filter_function (priv w) = None ->
  exists w', init ctx w = Crash NullDeref w' /\ calls (since w w') = [].
Proof using Hlive Hmod Hsite Halloc.
  intros Hf. pose proof import_name as Hn. pose proof import_base as Hb.
  destruct w as [live h0 nx sm err pv fs tr]; cbn in Hlive, Hmod, Hf. subst live.
  eexists. split.
  - run_outer. rewrite Hmod. run_outer. rewrite Hsite. change (N.succ 1) with 2%N. rewrite Halloc. run_outer.
    free_atom. run_outer. rewrite Hf. reflexivity.
  - since_now. reflexivity.
Qed.

Lemma init_filter_missing f :
  filter_function (priv w) = Some f -> assoc f attrs = None ->
  exists w', init ctx w = Ok (AVERROR EINVAL) w' /\ calls (since w w') = [] /\
             List.filter is_forward (since w w') = [] /\ pFunc (priv w') = NULL.
Proof using Hlive Hmod Hsite Halloc.
  intros Hf Hfa. pose proof import_name as Hn. pose proof import_base as Hb.
  pose proof (import_attr f) as Hd. rewrite Hfa in Hd.
  destruct w as [live h0 nx sm err pv fs tr]; cbn in Hlive, Hmod, Hf. subst live.
  eexists. split; [|split; [|split]].
  - run_outer. rewrite Hmod. run_outer. rewrite Hsite. change (N.succ 1) with 2%N. rewrite Halloc. run_outer.
    free_atom. run_outer. rewrite Hf. run_outer. reflexivity.
  - since_now. reflexivity.
  - since_now. reflexivity.
  - reflexivity.
Qed.

Lemma init_filter_not_callable f v :
  filter_function (priv w) = Some f -> assoc f attrs = Some (AttrConst v) ->
  exists w', init ctx w = Ok (AVERROR EINVAL) w' /\ calls (since w w') = [] /\
             List.filter is_forward (since w w') = [].
Proof using Hlive Hmod Hsite Halloc.
  intros Hf Hfa. pose proof import_name as Hn. pose proof import_base as Hb.
  pose proof (import_attr f) as Hd. rewrite Hfa in Hd.
  destruct Hd as (fa & Hfd & Hr & Hl). cbn [attr_body] in Hl.
  destruct w as [live h0 nx sm err pv fs tr]; cbn in Hlive, Hmod, Hf. subst live.
  eexists. split; [|split].
  - run_outer. rewrite Hmod. run_outer. rewrite Hsite. change (N.succ 1) with 2%N. rewrite Halloc. run_outer.
    free_atom. run_outer. rewrite Hf. run_outer. reflexivity.
  - since_now. reflexivity.
  - since_now. reflexivity.
Qed.

Lemma init_binds f fa qf :
  filter_function (priv w) = Some f -> assoc f d = Some fa ->
  h !! fa = Some (mkObject 1 (PyFunction qf)) -> (2 <= fa < pm)%N ->
  init ctx w =
  (r <- check_and_call_init ;;
   if (r <? 0)%Z
   then _ <- av_log AV_LOG_ERROR ("could not call init function" ++ nl) ;; ret (AVERROR EINVAL)
   else ret 0%Z) (after_binding w m d pm h f fa qf).
Proof using Hlive Hmod Hsite Halloc.
  intros Hf Hfd Hl Hr. pose proof import_name as Hn. pose proof import_base as Hb.
  destruct w as [live h0 nx sm err pv fs tr]; cbn in *. subst live.
  run_outer. rewrite Hmod. run_outer. rewrite Hsite. change (N.succ 1) with 2%N. rewrite Halloc. run_outer.
  free_atom. run_outer. rewrite Hf. run_outer.
  match goal with
  | |- match check_and_call_init ?W with _ => _ end = _ ?W2 =>
      replace W with W2; [reflexivity|]
  end.
  unfold after_binding. heap_simp. finish.
Qed.

Section Binding.
Variables (f : string) (fa : N) (qf : string).
Hypothesis Hf : filter_function (priv w) = Some f.
Hypothesis Hfd : assoc f d = Some fa.
Hypothesis Hfl : h !! fa = Some (mkObject 1 (PyFunction qf)).
Hypothesis Hfr : (2 <= fa < pm)%N.

Local Abbreviation W1 := (after_binding w m d pm h f fa qf).

Lemma bound_fresh p : (next_addr W1 <= p)%N -> heap W1 !! p = None.
Proof using Halloc Hfr.
  cbn. intros Hp. pose proof (import_fresh p) as Hn.
  repeat look. apply Hn. lia.
Qed.

Lemma bound_module : heap W1 !! pModule (priv W1) = Some (mkObject 2 (PyModule m d)).
Proof using Hfr. cbn. by repeat look. Qed.

Lemma bound_func : heap W1 !! pFunc (priv W1) = Some (mkObject 2 (PyFunction qf)).
Proof using Type. cbn. by repeat look. Qed.

Lemma bound_attr ga body :
  h !! ga = Some (mkObject 1 body) -> (2 <= ga < pm)%N ->
  exists rc, heap W1 !! ga = Some (mkObject rc body) /\ (0 < rc)%Z.
Proof using Hfl Hfr.
  intros Hl Hr. cbn. destruct (decide (ga = fa)) as [->|Hne].
  - rewrite lookup_insert_eq. exists 2%Z. split; [congruence|lia].
  - exists 1%Z. split; [|lia]. by repeat look.
Qed.

Lemma bound_heap_ok : heap_ok W1 = true.
Proof using Halloc Hfr.
  pose proof import_base as Hb. pose proof import_null as H0.
  apply heap_ok_intro; cbn; [lia|]. intros p o.
  destruct (decide (p = fa)) as [->|Hn1].
  { rewrite lookup_insert_eq. intros [= <-]. cbn. lia. }
  rewrite lookup_insert_ne by done.
  destruct (decide (p = pm)) as [->|Hn2].
  { rewrite lookup_insert_eq. intros [= <-]. cbn. lia. }
  rewrite lookup_insert_ne by done.
  destruct (decide (p = 1%N)) as [->|Hn3].
  { rewrite lookup_delete_eq. done. }
  rewrite lookup_delete_ne by done. intros Hl.
  split; [|by apply (import_refcnt p)].
  destruct (N.lt_ge_cases p pm) as [Hlt|Hge].
  - split; [|lia]. destruct (decide (p = 0%N)) as [->|]; [congruence|lia].
  - rewrite (import_fresh p Hge) in Hl. done.
Qed.

Lemma bound_Bound : Bound W1.
Proof using Halloc Hfr.
  split; [reflexivity|]. split; [apply bound_heap_ok|].
  exists 2%Z, m, d, 2%Z, qf. split; [apply bound_module | apply bound_func].
Qed.

Lemma Bound_after w1 w2 :
  Bound w1 -> py_live w2 = py_live w1 -> heap w2 = heap w1 -> priv w2 = priv w1 ->
  (next_addr w1 <= next_addr w2)%N -> Bound w2.
Proof using Type.
  intros (Hl & Hok & rcm & m' & d' & rcf & qf' & Hm & Hfn) Hl2 Hh Hp Hn.
  split; [congruence|]. split; [by apply (heap_ok_mono w1)|].
  exists rcm, m', d', rcf, qf'. rewrite Hh, Hp. done.
Qed.

Lemma init_initializer_unset :
  init_function (priv w) = None -> init ctx w = Ok 0%Z W1.
Proof using Hlive Hmod Hsite Halloc Hf Hfd Hfl Hfr.
  intros Hg. rewrite (init_binds f fa qf Hf Hfd Hfl Hfr).
  unfold bind at 1. rewrite (check_and_call_init_unset W1 Hg). reflexivity.
Qed.

Lemma init_initializer_unresolved g :
  init_function (priv w) = Some g -> assoc g attrs = None ->
  exists w', init ctx w = Ok (AVERROR EINVAL) w' /\ calls (since w w') = [].
Proof using Hlive Hmod Hsite Halloc Hf Hfd Hfl Hfr.
  intros Hg Hga. rewrite (init_binds f fa qf Hf Hfd Hfl Hfr).
  pose proof (import_attr g) as Hat. rewrite Hga in Hat.
  pose proof import_base as Hb.
  unfold bind at 1.
  rewrite (check_and_call_init_unresolved W1 g _ _ _ Hg ltac:(cbn; lia) bound_module Hat).
  eexists. split; [reflexivity|]. since_now. reflexivity.
Qed.

Lemma init_initializer_not_callable g v :
  init_function (priv w) = Some g -> assoc g attrs = Some (AttrConst v) ->
  exists w', init ctx w = Ok (AVERROR EINVAL) w' /\ calls (since w w') = [].
Proof using Hlive Hmod Hsite Halloc Hf Hfd Hfl Hfr.
  intros Hg Hga. rewrite (init_binds f fa qf Hf Hfd Hfl Hfr).
  pose proof (import_attr g) as Hat. rewrite Hga in Hat.
  destruct Hat as (ga & Hgd & Hr & Hl).
  destruct (bound_attr ga _ Hl Hr) as (rc & Hl1 & Hrc).
  pose proof import_base as Hb.
  unfold bind at 1.
  rewrite (check_and_call_init_not_callable W1 g _ _ _ ga rc (PyAtomic v) bound_fresh Hg
             ltac:(cbn; lia) bound_module Hgd Hl1 ltac:(done) ltac:(lia) Hrc).
  eexists. split; [reflexivity|]. since_now. reflexivity.
Qed.

Lemma init_initializer_null_args g qg :
  init_function (priv w) = Some g -> assoc g attrs = Some (AttrFunction qg) ->
  init_args (priv w) = None ->
  exists w', init ctx w = Crash NullDeref w' /\ calls (since w w') = [].
Proof using Hlive Hmod Hsite Halloc Hf Hfd Hfl Hfr.
  intros Hg Hga Ha. rewrite (init_binds f fa qf Hf Hfd Hfl Hfr).
  pose proof (import_attr g) as Hat. rewrite Hga in Hat.
  destruct Hat as (ga & Hgd & Hr & Hl).
  destruct (bound_attr ga _ Hl Hr) as (rc & Hl1 & Hrc).
  pose proof import_base as Hb.
  unfold bind at 1.
  rewrite (check_and_call_init_null_args W1 g _ _ _ ga rc qg bound_fresh Hg Ha
             ltac:(cbn; lia) bound_module Hgd Hl1 ltac:(lia)).
  eexists. split; [reflexivity|]. since_now. reflexivity.
Qed.

(** The path on which the initializer runs: whatever the call's outcome,
    [init] returns 0. *)
Lemma init_initializer_called g qg a :
  init_function (priv w) = Some g -> assoc g attrs = Some (AttrFunction qg) ->
  init_args (priv w) = Some a ->
  exists ga out w',
    init ctx w = Ok 0%Z w' /\
    out = script qg [Some (PyUnicode a)] (trace W1 ++ [EvGetAttr pm g ga]) /\
    calls (since w w') = [EvCall ga qg [Some (PyUnicode a)] out] /\
    List.filter is_lookup (since w w') = [EvGetAttr pm f fa; EvGetAttr pm g ga] /\
    List.filter is_forward (since w w') = [] /\
    Bound w' /\
    err_indicator w' = match out with Raises e => Some e | Returns _ => None end.
Proof using Hlive Hmod Hsite Halloc Hf Hfd Hfl Hfr.
  intros Hg Hga Ha. rewrite (init_binds f fa qf Hf Hfd Hfl Hfr).
  pose proof (import_attr g) as Hat. rewrite Hga in Hat.
  destruct Hat as (ga & Hgd & Hr & Hl).
  destruct (bound_attr ga _ Hl Hr) as (rc & Hl1 & Hrc).
  pose proof import_base as Hb. pose proof bound_Bound as HB.
  unfold bind at 1.
  rewrite (check_and_call_init_calls W1 g a _ _ _ ga rc qg bound_fresh Hg Ha
             ltac:(cbn; lia) bound_module Hgd Hl1 ltac:(lia) Hrc).
  cbv zeta. cbn [Z.ltb Z.compare ret].
  exists ga, (script qg [Some (PyUnicode a)] (trace W1 ++ [EvGetAttr pm g ga])).
  change (pModule (priv W1)) with pm.
  destruct (script qg _ _) as [v|e] eqn:Hout.
  - eexists. split; [reflexivity|]. split; [reflexivity|].
    split; [since_now; reflexivity|]. split; [since_now; reflexivity|].
    split; [since_now; reflexivity|]. split; [|reflexivity].
    eapply Bound_after; [exact HB| | | |]; cbn; (reflexivity || lia).
  - eexists. split; [reflexivity|]. split; [reflexivity|].
    split; [since_now; reflexivity|]. split; [since_now; reflexivity|].
    split; [since_now; reflexivity|]. split; [|reflexivity].
    eapply Bound_after; [exact HB| | | |]; cbn; (reflexivity || lia).
Qed.

Lemma init_after_binding : init_outcome w (init ctx w).
Proof using Hlive Hmod Hsite Halloc Hf Hfd Hfl Hfr.
  destruct (init_function (priv w)) as [g|] eqn:Hg.
  - destruct (assoc g attrs) as [[qg|v]|] eqn:Hga.
    + destruct (init_args (priv w)) as [a|] eqn:Ha.
      * destruct (init_initializer_called g qg a Hg Hga Ha)
          as (ga & out & w' & -> & _ & Hc & _ & _ & HB & He).
        by eapply init_called.
      * destruct (init_initializer_null_args g qg Hg Hga Ha) as (w' & -> & Hc).
        by apply init_crashes.
    + destruct (init_initializer_not_callable g v Hg Hga) as (w' & -> & Hc).
      by apply init_refuses.
    + destruct (init_initializer_unresolved g Hg Hga) as (w' & -> & Hc).
      by apply init_refuses.
  - rewrite (init_initializer_unset Hg).
    apply init_plain; [done| | |apply bound_Bound]; since_now; reflexivity.
Qed.

End Binding.

End Loading.

Lemma init_module_unset ctx w :
  py_live w = false -> module (priv w) = None ->
  exists w', init ctx w = Crash NullDeref w' /\ calls (since w w') = [].
Proof.
  intros Hlive Hm.
  destruct w as [live h nx sm err pv fs tr]; cbn in Hlive, Hm. subst live.
  eexists. split.
  - run_outer. rewrite Hm. reflexivity.
  - since_now. reflexivity.
Qed.

Lemma init_module_missing ctx w m :
  py_live w = false -> module (priv w) = Some m -> site_packages m = None ->
  exists w', init ctx w = Ok (AVERROR EINVAL) w' /\ calls (since w w') = [] /\
             List.filter is_forward (since w w') = [] /\ pModule (priv w') = NULL.
Proof.
  intros Hlive Hm Hsite.
  destruct w as [live h nx sm err pv fs tr]; cbn in Hlive, Hm. subst live.
  eexists. split; [|split; [|split]].
  - run_outer. rewrite Hm. run_outer. rewrite Hsite. run_outer. free_atom. run_outer.
    reflexivity.
  - since_now. reflexivity.
  - since_now. reflexivity.
  - reflexivity.
Qed.

(** Every way [init] can end, from a world in which the interpreter is
    not yet running. *)
Lemma init_outcomes ctx w : py_live w = false -> init_outcome w (init ctx w).
Proof.
  intros Hlive.
  destruct (module (priv w)) as [m|] eqn:Hm.
  2: { destruct (init_module_unset ctx w Hlive Hm) as (w' & -> & Hc).
       by apply init_crashes. }
  destruct (site_packages m) as [attrs|] eqn:Hsite.
  2: { destruct (init_module_missing ctx w m Hlive Hm Hsite) as (w' & -> & Hc & _).
       by apply init_refuses. }
  destruct (alloc_attrs attrs 2 (<[1%N := mkObject 1 (PyUnicode m)]> ∅))
    as [[d pm] h] eqn:Halloc.
  destruct (filter_function (priv w)) as [f|] eqn:Hf.
  2: { destruct (init_filter_unset ctx w m attrs d pm h Hlive Hm Hsite Halloc Hf)
         as (w' & -> & Hc).
       by apply init_crashes. }
  pose proof (import_attr _ _ _ _ _ Halloc f) as Hat.
  destruct (assoc f attrs) as [[qf|v]|] eqn:Hfa.
  - destruct Hat as (fa & Hfd & Hr & Hl).
    by eapply (init_after_binding ctx w m attrs d pm h Hlive Hm Hsite Halloc f fa qf).
  - destruct (init_filter_not_callable ctx w m attrs d pm h Hlive Hm Hsite Halloc f v Hf Hfa)
      as (w' & -> & Hc & _).
    by apply init_refuses.
  - destruct (init_filter_missing ctx w m attrs d pm h Hlive Hm Hsite Halloc f Hf Hfa)
      as (w' & -> & Hc & _).
    by apply init_refuses.
Qed.

End Lifecycle.

(** ** The claims about activation and teardown *)

Section Claims.
Context `{E : Env}.

Lemma run_stage_refused ctx inlink fs w r w' :
  init ctx w = Ok r w' -> (r < 0)%Z -> run_stage ctx inlink fs w = Ok (r, []) w'.
Proof.
  intros Hinit Hr. unfold run_stage, bind. rewrite Hinit.
  destruct (Z.ltb_spec r 0); [reflexivity|lia].
Qed.

Lemma Bound_callable w :
  Bound w ->
  pModule (priv w) <> NULL /\ pFunc (priv w) <> NULL /\
  PyCallable_Check (pFunc (priv w)) w = Ok true w.
Proof.
  intros (_ & Hok & rcm & m & d & rcf & qf & Hm & Hf).
  pose proof (heap_ok_lookup _ _ _ Hok Hm). pose proof (heap_ok_lookup _ _ _ Hok Hf).
  split; [lia|]. split; [lia|]. unfold PyCallable_Check.
  destruct (N.eqb_spec (pFunc (priv w)) 0); [lia|]. rewrite Hf. reflexivity.
Qed.

(** Activation is refused when the module cannot be imported or the
    filter function's name is missing from it or names a value. *)
Lemma init_refuses_unusable_filter ctx w m :
  py_live w = false ->
  module (priv w) = Some m ->
  (site_packages m = None \/
   exists attrs f,
     site_packages m = Some attrs /\ filter_function (priv w) = Some f /\
     (assoc f attrs = None \/ exists v, assoc f attrs = Some (AttrConst v))) ->
  exists w',
    init ctx w = Ok (AVERROR EINVAL) w' /\
    calls (since w w') = [] /\
    List.filter is_forward (since w w') = [].
Proof.
  intros Hlive Hm [Hsite|(attrs & f & Hsite & Hf & Hfa)].
  - destruct (init_module_missing ctx w m Hlive Hm Hsite) as (w' & ? & ? & ? & _). eauto.
  - destruct (alloc_attrs attrs 2 (<[1%N := mkObject 1 (PyUnicode m)]> ∅))
      as [[d pm] h] eqn:Halloc.
    destruct Hfa as [Hfa|[v Hfa]].
    + destruct (init_filter_missing ctx w m attrs d pm h Hlive Hm Hsite Halloc f Hf Hfa)
        as (w' & ? & ? & ? & _). eauto.
    + exact (init_filter_not_callable ctx w m attrs d pm h Hlive Hm Hsite Halloc
               f v Hf Hfa).
Qed.

(** C6: when the named module cannot be imported, or [filter_function]
    names an attribute the module lacks or one that is not callable,
    [init] returns [AVERROR(EINVAL)], the same code in the three cases,
    without having called anything; the host then handles no frame, so the
    handler is never invoked. *)
Theorem init_rejects_missing_module_or_filter ctx w m :
  py_live w = false ->
  module (priv w) = Some m ->
  (site_packages m = None \/
   exists attrs f,
     site_packages m = Some attrs /\ filter_function (priv w) = Some f /\
     (assoc f attrs = None \/ exists v, assoc f attrs = Some (AttrConst v))) ->
  exists w',
    init ctx w = Ok (AVERROR EINVAL) w' /\
    calls (since w w') = [] /\
    forall inlink fs, run_stage ctx inlink fs w = Ok (AVERROR EINVAL, []) w'.
Proof.
  intros Hlive Hm Hcases.
  destruct (init_refuses_unusable_filter ctx w m Hlive Hm Hcases) as (w' & Hinit & Hc & _).
  exists w'. split; [exact Hinit|]. split; [exact Hc|].
  intros inlink fs. apply run_stage_refused; [exact Hinit|]. reflexivity.
Qed.

(** C4, as the code has it: when the initializer call made during
    activation raises, the failure is ignored: [init] returns 0, the stage
    is bound (module and filter callable live) and the error indicator is
    left holding the exception.  The only call activation makes is the
    initializer's, so the premise says that it was resolved, called and
    raised. *)
Theorem init_ignores_initializer_failure ctx w e :
  py_live w = false ->
  (exists c q args,
      In (EvCall c q args (Raises e)) (since w (world_of (init ctx w)))) ->
  exists w',
    init ctx w = Ok 0%Z w' /\
    Bound w' /\
    err_indicator w' = Some e.
Proof.
  intros Hlive (c & q & args & Hin).
  assert (forall tr, calls tr = [] -> ~ In (EvCall c q args (Raises e)) tr) as Hno.
  { intros tr Hc Hi. assert (In (EvCall c q args (Raises e)) (calls tr)) as Hi'.
    { unfold calls. apply filter_In. done. }
    rewrite Hc in Hi'. done. }
  destruct (init_outcomes ctx w Hlive) as [f w' Hc|w' Hc|w' _ Hc _ _|w' g a c' qg out _ _ Hc HB He];
    cbn [world_of] in Hin.
  - by destruct (Hno _ Hc).
  - by destruct (Hno _ Hc).
  - by destruct (Hno _ Hc).
  - exists w'. split; [reflexivity|]. split; [exact HB|].
    assert (In (EvCall c q args (Raises e)) (calls (since w w'))) as Hi.
    { unfold calls. apply filter_In. done. }
    rewrite Hc in Hi. destruct Hi as [Hi|[]]. inversion Hi; subst. exact He.
Qed.

(** C9: after a successful activation [pModule] and [pFunc] are non-null
    and [pFunc] passes the callable check; no handling of frames, however
    it ends, writes the private context; and when the filter function's
    name is missing or not callable, [init] fails and the host handles no
    frame. *)
Theorem init_success_binds_module_and_filter ctx w :
  py_live w = false ->
  (forall w',
      init ctx w = Ok 0%Z w' ->
      pModule (priv w') <> NULL /\
      pFunc (priv w') <> NULL /\
      PyCallable_Check (pFunc (priv w')) w' = Ok true w' /\
      (forall inlink fs, priv (world_of (handle_frames inlink fs w')) = priv w')) /\
  (forall inlink in_ w1, priv (world_of (filter_frame inlink in_ w1)) = priv w1) /\
  (forall m attrs f,
      module (priv w) = Some m -> site_packages m = Some attrs ->
      filter_function (priv w) = Some f ->
      assoc f attrs = None \/ (exists v, assoc f attrs = Some (AttrConst v)) ->
      exists w',
        init ctx w = Ok (AVERROR EINVAL) w' /\
        List.filter is_forward (since w w') = [] /\
        forall inlink fs, run_stage ctx inlink fs w = Ok (AVERROR EINVAL, []) w').
Proof.
  intros Hlive. split; [|split].
  - intros w' Hinit. pose proof (init_outcomes ctx w Hlive) as Hout.
    rewrite Hinit in Hout.
    assert (Bound w') as HB by (inversion Hout; done).
    destruct (Bound_callable w' HB) as (H1 & H2 & H3).
    split; [exact H1|]. split; [exact H2|]. split; [exact H3|].
    intros inlink fs. apply keeps_priv_handle_frames.
  - intros inlink in_ w1. apply keeps_priv_filter_frame.
  - intros m attrs f Hm Hsite Hf Hfa.
    destruct (init_refuses_unusable_filter ctx w m Hlive Hm) as (w' & Hinit & _ & Hfw).
    { right. exists attrs, f. done. }
    exists w'. split; [exact Hinit|]. split; [exact Hfw|].
    intros inlink fs. apply run_stage_refused; [exact Hinit|]. reflexivity.
Qed.

(** C7, as the code has it: with [init_function] unset
    [check_and_call_init] does nothing at all, in any world, and
    activation calls nothing;
    with [init_function] naming a function of the imported module (the
    filter callable being resolved and [init_args] set), activation calls
    that function exactly once, with the one-item tuple holding the
    [init_args] string, and no frame has been forwarded by then. *)
Theorem init_calls_initializer_once ctx w :
  py_live w = false ->
  (forall w0, init_function (priv w0) = None -> check_and_call_init w0 = Ok 0%Z w0) /\
  (init_function (priv w) = None -> calls (since w (world_of (init ctx w))) = []) /\
  (forall m attrs f qf g qg a,
      module (priv w) = Some m -> site_packages m = Some attrs ->
      filter_function (priv w) = Some f -> assoc f attrs = Some (AttrFunction qf) ->
      init_function (priv w) = Some g -> assoc g attrs = Some (AttrFunction qg) ->
      init_args (priv w) = Some a ->
      exists c out w',
        init ctx w = Ok 0%Z w' /\
        calls (since w w') = [EvCall c qg [Some (PyUnicode a)] out] /\
        List.filter is_forward (since w w') = []).
Proof.
  intros Hlive. split; [|split].
  - intros w0 Hg. by apply check_and_call_init_unset.
  - intros Hg.
    destruct (init_outcomes ctx w Hlive) as [f w' Hc|w' Hc|w' _ Hc _ _|w' g a c' qg out Hg' _ _ _ _];
      cbn [world_of]; congruence.
  - intros m attrs f qf g qg a Hm Hsite Hf Hfa Hg Hga Ha.
    destruct (alloc_attrs attrs 2 (<[1%N := mkObject 1 (PyUnicode m)]> ∅))
      as [[d pm] h] eqn:Halloc.
    pose proof (import_attr _ _ _ _ _ Halloc f) as Hat. rewrite Hfa in Hat.
    destruct Hat as (fa & Hfd & Hr & Hl).
    destruct (init_initializer_called ctx w m attrs d pm h Hlive Hm Hsite Halloc
                f fa qf Hf Hfd Hl Hr g qg a Hg Hga Ha)
      as (ga & out & w' & Hinit & _ & Hc & _ & Hfw & _).
    exists ga, out, w'. done.
Qed.

(** C10: with an initializer that resolves to a function and [init_args]
    null, [check_and_call_init] allocates the one-slot argument tuple and
    then decodes the null pointer: it faults in
    [PyUnicode_DecodeFSDefault], before any call is made. *)
Theorem check_and_call_init_decodes_null_init_args w g rcm m d ga rc qg :
  heap_ok w = true ->
  init_function (priv w) = Some g ->
  init_args (priv w) = None ->
  heap w !! pModule (priv w) = Some (mkObject rcm (PyModule m d)) ->
  assoc g d = Some ga ->
  heap w !! ga = Some (mkObject rc (PyFunction qg)) ->
  exists w',
    check_and_call_init w = Crash NullDeref w' /\
    heap w' !! next_addr w = Some (mkObject 1 (PyTuple [NULL])) /\
    PyUnicode_DecodeFSDefault (init_args (priv w')) w' = Crash NullDeref w' /\
    calls (since w w') = [].
Proof.
  intros Hok Hg Ha Hm Hgd Hl.
  pose proof (heap_ok_lookup _ _ _ Hok Hm) as Hpm.
  pose proof (heap_ok_lookup _ _ _ Hok Hl) as Hga.
  rewrite (check_and_call_init_null_args w g rcm m d ga rc qg
             (fun p => heap_ok_fresh w p Hok) Hg Ha ltac:(lia) Hm Hgd Hl ltac:(lia)).
  eexists. split; [reflexivity|]. cbn. rewrite Ha.
  split; [apply lookup_insert_eq|]. split; [reflexivity|].
  since_now. reflexivity.
Qed.

(** *** Teardown *)

(** C8, as the code has it: on an activated stage, with [uninit_function]
    unset [check_and_call_uninit] does nothing and teardown only releases
    the two references and stops the interpreter; with [uninit_function]
    naming a function of the module, teardown calls it exactly once, with
    the empty tuple, after everything already in the trace (every frame
    handled) and before [Py_FinalizeEx]. *)
Theorem uninit_calls_finalizer_once ctx w rcm m d rcf qf :
  py_live w = true ->
  heap_ok w = true ->
  heap w !! pModule (priv w) = Some (mkObject rcm (PyModule m d)) ->
  heap w !! pFunc (priv w) = Some (mkObject rcf (PyFunction qf)) ->
  (uninit_function (priv w) = None ->
   check_and_call_uninit w = Ok 0%Z w /\
   exists w',
     uninit ctx w = Ok tt w' /\
     since w w' = [EvDecref (pFunc (priv w)); EvDecref (pModule (priv w)); EvPyFinalize]) /\
  (forall u ua rc qu,
      uninit_function (priv w) = Some u ->
      assoc u d = Some ua ->
      heap w !! ua = Some (mkObject rc (PyFunction qu)) ->
      exists out w',
        uninit ctx w = Ok tt w' /\
        since w w' =
          [EvGetAttr (pModule (priv w)) u ua; EvCall ua qu [] out; EvDecref (next_addr w)]
          ++ match out with
             | Returns _ => [EvDecref (next_addr w + 1)%N]
             | Raises _ => []
             end
          ++ [EvDecref ua; EvDecref (pFunc (priv w)); EvDecref (pModule (priv w));
              EvPyFinalize] /\
        py_live w' = false).
Proof.
  intros Hlive Hok Hm Hf.
  pose proof (heap_ok_lookup _ _ _ Hok Hm) as Hpm.
  pose proof (heap_ok_lookup _ _ _ Hok Hf) as Hpf.
  split.
  - intros Hu. split; [by apply check_and_call_uninit_unset|].
    unfold uninit. unfold bind at 1.
    rewrite (check_and_call_uninit_unset w Hu).
    rewrite (uninit_tail w 0 rcm m d rcf qf Hlive ltac:(lia) ltac:(lia) Hm Hf).
    eexists. split; [reflexivity|]. since_now. reflexivity.
  - intros u ua rc qu Hu Hud Hl.
    destruct (heap_ok_object _ _ _ Hok Hl) as [Hua Hrc].
    unfold uninit. unfold bind at 1.
    rewrite (check_and_call_uninit_calls w u rcm m d ua rc qu
               (fun p => heap_ok_fresh w p Hok) Hu ltac:(lia) Hm Hud Hl ltac:(lia) Hrc).
    cbv zeta.
    exists (script qu [] (trace w ++ [EvGetAttr (pModule (priv w)) u ua])).
    destruct (script qu [] _) as [v|e].
    + erewrite uninit_tail; [|exact Hlive|cbn; lia|cbn; lia|exact Hm|exact Hf].
      eexists. split; [reflexivity|]. split; [|reflexivity].
      since_now. reflexivity.
    + erewrite uninit_tail; [|exact Hlive|cbn; lia|cbn; lia|exact Hm|exact Hf].
      eexists. split; [reflexivity|]. split; [|reflexivity].
      since_now. reflexivity.
Qed.

(** On an activated stage a finalizer name the module does not define is
    logged and teardown goes on: both references are released once and the
    interpreter is stopped. *)
Lemma uninit_unresolved_finalizer ctx w rcm m d rcf qf u :
  py_live w = true ->
  heap_ok w = true ->
  heap w !! pModule (priv w) = Some (mkObject rcm (PyModule m d)) ->
  heap w !! pFunc (priv w) = Some (mkObject rcf (PyFunction qf)) ->
  uninit_function (priv w) = Some u ->
  assoc u d = None ->
  exists w',
    uninit ctx w = Ok tt w' /\
    since w w' =
      [EvGetAttr (pModule (priv w)) u NULL;
       EvLog AV_LOG_ERROR ("could not call uninit function" ++ nl);
       EvDecref (pFunc (priv w)); EvDecref (pModule (priv w)); EvPyFinalize] /\
    py_live w' = false.
Proof.
  intros Hlive Hok Hm Hf Hu Hud.
  pose proof (heap_ok_lookup _ _ _ Hok Hm) as Hpm.
  pose proof (heap_ok_lookup _ _ _ Hok Hf) as Hpf.
  unfold uninit. unfold bind at 1.
  rewrite (check_and_call_uninit_unresolved w u rcm m d Hu ltac:(lia) Hm Hud).
  erewrite uninit_tail; [|exact Hlive|cbn; lia|cbn; lia|exact Hm|exact Hf].
  eexists. split; [reflexivity|]. split; [|reflexivity].
  since_now. reflexivity.
Qed.

(** With a null [pFunc], as a failed activation leaves it, [uninit]
    faults in its first [Py_DECREF]; with a null [pModule] and a finalizer
    configured it faults already in [PyObject_GetAttrString]. *)
Lemma uninit_null_filter_faults ctx w :
  uninit_function (priv w) = None -> pFunc (priv w) = NULL ->
  uninit ctx w = Crash NullDeref w.
Proof.
  intros Hu Hf. unfold uninit. unfold bind at 1.
  rewrite (check_and_call_uninit_unset w Hu).
  cbn [Z.ltb Z.compare]. unfold bind, ret, load_priv, Py_DECREF. rewrite Hf. reflexivity.
Qed.

Lemma uninit_null_module_faults ctx w u :
  uninit_function (priv w) = Some u -> pModule (priv w) = NULL ->
  uninit ctx w = Crash NullDeref w.
Proof.
  intros Hu Hm. unfold uninit, check_and_call_uninit, bind, load_priv.
  rewrite Hu. unfold PyObject_GetAttrString. rewrite Hm. reflexivity.
Qed.

End Claims.

(** ** The statements on the concrete stage *)

(** C4 as the spec states it fails: the initializer resolves, is called
    and raises, and [init] returns 0, not [AVERROR(EINVAL)]. *)
Lemma init_succeeds_although_initializer_raises :
  value_of (@init Demo.raising Demo.ctx (Demo.boot Demo.with_init)) = Some 0%Z /\
  calls (trace (world_of (@init Demo.raising Demo.ctx (Demo.boot Demo.with_init)))) =
    [EvCall 2%N "demo.setup" [Some (PyUnicode "gain=2")] (Raises "RuntimeError")].
Proof. vm_compute. split; reflexivity. Qed.

Lemma init_ignores_initializer_failure_witness :
  py_live (Demo.boot Demo.with_init) = false /\
  (exists c q args,
      In (EvCall c q args (Raises "RuntimeError"))
         (since (Demo.boot Demo.with_init)
                (world_of (@init Demo.raising Demo.ctx (Demo.boot Demo.with_init))))) /\
  exists w',
    @init Demo.raising Demo.ctx (Demo.boot Demo.with_init) = Ok 0%Z w' /\
    Bound w' /\
    err_indicator w' = Some "RuntimeError"%string.
Proof.
  assert (exists c q args,
      In (EvCall c q args (Raises "RuntimeError"))
         (since (Demo.boot Demo.with_init)
                (world_of (@init Demo.raising Demo.ctx (Demo.boot Demo.with_init)))))
    as H.
  { eexists _, _, _. vm_compute. do 5 right. left. reflexivity. }
  split; [reflexivity|]. split; [exact H|].
  exact (init_ignores_initializer_failure (E := Demo.raising) Demo.ctx
           (Demo.boot Demo.with_init) "RuntimeError" eq_refl H).
Defined.

(** C5 fails on the code: after an activation that could not import the
    module both references are null, and [uninit] dereferences the null
    [pFunc] in [Py_DECREF]: it neither skips it nor reaches
    [Py_FinalizeEx]. *)
Theorem uninit_after_failed_import_dereferences_null :
  value_of (@init Demo.quiet Demo.ctx (Demo.boot Demo.no_module)) = Some (AVERROR EINVAL) /\
  pModule (priv (Demo.after_init Demo.quiet Demo.no_module)) = NULL /\
  pFunc (priv (Demo.after_init Demo.quiet Demo.no_module)) = NULL /\
  fault_of (@uninit Demo.quiet Demo.ctx (Demo.after_init Demo.quiet Demo.no_module))
    = Some NullDeref /\
  since (Demo.after_init Demo.quiet Demo.no_module)
        (world_of (@uninit Demo.quiet Demo.ctx (Demo.after_init Demo.quiet Demo.no_module)))
    = [] /\
  py_live (world_of (@uninit Demo.quiet Demo.ctx
                       (Demo.after_init Demo.quiet Demo.no_module))) = true.
Proof. vm_compute. repeat split; reflexivity. Qed.

Lemma init_rejects_missing_module_or_filter_witness :
  py_live (Demo.boot Demo.value_filter) = false /\
  module (priv (Demo.boot Demo.value_filter)) = Some "demo"%string /\
  (@site_packages Demo.quiet "demo" = None \/
   exists attrs f,
     @site_packages Demo.quiet "demo" = Some attrs /\
     filter_function (priv (Demo.boot Demo.value_filter)) = Some f /\
     (assoc f attrs = None \/ exists v, assoc f attrs = Some (AttrConst v))) /\
  exists w',
    @init Demo.quiet Demo.ctx (Demo.boot Demo.value_filter) = Ok (AVERROR EINVAL) w' /\
    calls (since (Demo.boot Demo.value_filter) w') = [] /\
    forall inlink fs,
      @run_stage Demo.quiet Demo.ctx inlink fs (Demo.boot Demo.value_filter)
        = Ok (AVERROR EINVAL, []) w'.
Proof.
  assert (@site_packages Demo.quiet "demo" = None \/
          exists attrs f,
            @site_packages Demo.quiet "demo" = Some attrs /\
            filter_function (priv (Demo.boot Demo.value_filter)) = Some f /\
            (assoc f attrs = None \/ exists v, assoc f attrs = Some (AttrConst v))) as H.
  { right. eexists _, _. split; [reflexivity|]. split; [reflexivity|].
    right. eexists. reflexivity. }
  split; [reflexivity|]. split; [reflexivity|]. split; [exact H|].
  exact (init_rejects_missing_module_or_filter (E := Demo.quiet) Demo.ctx
           (Demo.boot Demo.value_filter) "demo" eq_refl eq_refl H).
Defined.

(** C7 as the spec states it fails: [init_function] is set, to a name the
    module does not define, and the initializer is invoked zero times. *)
Lemma init_skips_unresolved_initializer :
  init_function (priv (Demo.boot Demo.with_missing_init)) = Some "warmup"%string /\
  value_of (@init Demo.quiet Demo.ctx (Demo.boot Demo.with_missing_init))
    = Some (AVERROR EINVAL) /\
  calls (trace (world_of (@init Demo.quiet Demo.ctx (Demo.boot Demo.with_missing_init))))
    = [].
Proof. vm_compute. repeat split; reflexivity. Qed.

Lemma init_calls_initializer_once_witness :
  py_live (Demo.boot Demo.with_init) = false /\
  exists c out w',
    @init Demo.quiet Demo.ctx (Demo.boot Demo.with_init) = Ok 0%Z w' /\
    calls (since (Demo.boot Demo.with_init) w') =
      [EvCall c "demo.setup" [Some (PyUnicode "gain=2")] out] /\
    List.filter is_forward (since (Demo.boot Demo.with_init) w') = [].
Proof.
  split; [reflexivity|].
  destruct (init_calls_initializer_once (E := Demo.quiet) Demo.ctx
              (Demo.boot Demo.with_init) eq_refl) as (_ & _ & H).
  exact (H "demo"%string _ "process"%string "demo.process"%string "setup"%string
           "demo.setup"%string "gain=2"%string
           eq_refl eq_refl eq_refl eq_refl eq_refl eq_refl eq_refl).
Defined.

(** C8 as the spec states it fails: [uninit_function] is set, to a name
    the module does not define, and teardown invokes no finalizer. *)
Lemma uninit_skips_unresolved_finalizer :
  uninit_function (priv (Demo.after_init Demo.quiet Demo.with_missing_uninit))
    = Some "cleanup"%string /\
  value_of (@init Demo.quiet Demo.ctx (Demo.boot Demo.with_missing_uninit)) = Some 0%Z /\
  value_of (@uninit Demo.quiet Demo.ctx
              (Demo.after_init Demo.quiet Demo.with_missing_uninit)) = Some tt /\
  since (Demo.after_init Demo.quiet Demo.with_missing_uninit)
        (world_of (@uninit Demo.quiet Demo.ctx
                     (Demo.after_init Demo.quiet Demo.with_missing_uninit))) =
    [EvGetAttr 6%N "cleanup" NULL; EvLog AV_LOG_ERROR ("could not call uninit function" ++ nl);
     EvDecref 3%N; EvDecref 6%N; EvPyFinalize].
Proof. vm_compute. repeat split; reflexivity. Qed.

Lemma uninit_calls_finalizer_once_witness :
  py_live (Demo.after_init Demo.quiet Demo.with_uninit) = true /\
  heap_ok (Demo.after_init Demo.quiet Demo.with_uninit) = true /\
  heap (Demo.after_init Demo.quiet Demo.with_uninit) !! 6%N =
    Some (mkObject 2 (PyModule "demo" [("setup"%string, 2%N); ("process"%string, 3%N);
                                      ("teardown"%string, 4%N); ("gain"%string, 5%N)])) /\
  heap (Demo.after_init Demo.quiet Demo.with_uninit) !! 3%N =
    Some (mkObject 2 (PyFunction "demo.process")) /\
  exists out w',
    @uninit Demo.quiet Demo.ctx (Demo.after_init Demo.quiet Demo.with_uninit) = Ok tt w' /\
    since (Demo.after_init Demo.quiet Demo.with_uninit) w' =
      [EvGetAttr 6%N "teardown" 4%N; EvCall 4%N "demo.teardown" [] out; EvDecref 7%N]
      ++ match out with
         | Returns _ => [EvDecref 8%N]
         | Raises _ => []
         end
      ++ [EvDecref 4%N; EvDecref 3%N; EvDecref 6%N; EvPyFinalize] /\
    py_live w' = false.
Proof.
  assert (py_live (Demo.after_init Demo.quiet Demo.with_uninit) = true) as H1
    by (vm_compute; reflexivity).
  assert (heap_ok (Demo.after_init Demo.quiet Demo.with_uninit) = true) as H2
    by (vm_compute; reflexivity).
  assert (heap (Demo.after_init Demo.quiet Demo.with_uninit)
            !! pModule (priv (Demo.after_init Demo.quiet Demo.with_uninit)) =
          Some (mkObject 2 (PyModule "demo"
                              [("setup"%string, 2%N); ("process"%string, 3%N);
                               ("teardown"%string, 4%N); ("gain"%string, 5%N)]))) as H3
    by (vm_compute; reflexivity).
  assert (heap (Demo.after_init Demo.quiet Demo.with_uninit)
            !! pFunc (priv (Demo.after_init Demo.quiet Demo.with_uninit)) =
          Some (mkObject 2 (PyFunction "demo.process"))) as H4
    by (vm_compute; reflexivity).
  split; [exact H1|]. split; [exact H2|]. split; [exact H3|]. split; [exact H4|].
  destruct (uninit_calls_finalizer_once (E := Demo.quiet) Demo.ctx _ _ _ _ _ _
              H1 H2 H3 H4) as [_ H].
  exact (H "teardown"%string 4%N 1%Z "demo.teardown"%string
           eq_refl eq_refl ltac:(vm_compute; reflexivity)).
Defined.

Lemma init_success_binds_module_and_filter_witness :
  py_live (Demo.boot Demo.plain) = false /\
  @init Demo.quiet Demo.ctx (Demo.boot Demo.plain)
    = Ok 0%Z (Demo.after_init Demo.quiet Demo.plain) /\
  pModule (priv (Demo.after_init Demo.quiet Demo.plain)) <> NULL /\
  pFunc (priv (Demo.after_init Demo.quiet Demo.plain)) <> NULL /\
  @PyCallable_Check (pFunc (priv (Demo.after_init Demo.quiet Demo.plain)))
     (Demo.after_init Demo.quiet Demo.plain)
    = Ok true (Demo.after_init Demo.quiet Demo.plain) /\
  (forall inlink fs,
      priv (world_of (@handle_frames Demo.quiet inlink fs
                        (Demo.after_init Demo.quiet Demo.plain)))
      = priv (Demo.after_init Demo.quiet Demo.plain)).
Proof.
  assert (@init Demo.quiet Demo.ctx (Demo.boot Demo.plain)
          = Ok 0%Z (Demo.after_init Demo.quiet Demo.plain)) as H
    by (vm_compute; reflexivity).
  split; [reflexivity|]. split; [exact H|].
  destruct (init_success_binds_module_and_filter (E := Demo.quiet) Demo.ctx
              (Demo.boot Demo.plain) eq_refl) as [H1 _].
  exact (H1 _ H).
Defined.

Lemma check_and_call_init_decodes_null_init_args_witness :
  heap_ok Demo.unset_args = true /\
  init_function (priv Demo.unset_args) = Some "setup"%string /\
  init_args (priv Demo.unset_args) = None /\
  heap Demo.unset_args !! 6%N =
    Some (mkObject 2 (PyModule "demo" [("setup"%string, 2%N); ("process"%string, 3%N);
                                      ("teardown"%string, 4%N); ("gain"%string, 5%N)])) /\
  heap Demo.unset_args !! 2%N = Some (mkObject 1 (PyFunction "demo.setup")) /\
  exists w',
    @check_and_call_init Demo.quiet Demo.unset_args = Crash NullDeref w' /\
    heap w' !! 7%N = Some (mkObject 1 (PyTuple [NULL])) /\
    PyUnicode_DecodeFSDefault (init_args (priv w')) w' = Crash NullDeref w' /\
    calls (since Demo.unset_args w') = [].
Proof.
  assert (heap_ok Demo.unset_args = true) as H1 by (vm_compute; reflexivity).
  assert (heap Demo.unset_args !! pModule (priv Demo.unset_args) =
          Some (mkObject 2 (PyModule "demo"
                              [("setup"%string, 2%N); ("process"%string, 3%N);
                               ("teardown"%string, 4%N); ("gain"%string, 5%N)]))) as H2
    by (vm_compute; reflexivity).
  assert (heap Demo.unset_args !! 2%N = Some (mkObject 1 (PyFunction "demo.setup"))) as H3
    by (vm_compute; reflexivity).
  split; [exact H1|]. split; [reflexivity|]. split; [reflexivity|].
  split; [exact H2|]. split; [exact H3|].
  exact (check_and_call_init_decodes_null_init_args (E := Demo.quiet) Demo.unset_args
           "setup"%string _ _ _ 2%N _ _ H1 eq_refl eq_refl H2 eq_refl H3).
Defined.

(** The example scenario of the spec: [setup("gain=2")] once, then
    [process] on the three frames in order, then teardown without a
    finalizer call. *)
Example spec_scenario :
  calls (trace (world_of (@run_stage Demo.quiet Demo.ctx Demo.inlink
                            [4096%N; 4097%N; 4098%N] (Demo.boot Demo.with_init)))) =
    [EvCall 2%N "demo.setup" [Some (PyUnicode "gain=2")] (Returns AtomNone);
     EvCall 3%N "demo.process"
       [Some (PyFloat 0x0p+0%float); Some (PyLong 64); Some (PyLong 64);
        Some (PyLong 65536)] (Returns AtomNone);
     EvCall 3%N "demo.process"
       [Some (PyFloat 0x1.47ae147ae147bp-5%float); Some (PyLong 64); Some (PyLong 64);
        Some (PyLong 131072)] (Returns AtomNone);
     EvCall 3%N "demo.process"
       [Some (PyFloat 0x1.47ae147ae147bp-4%float); Some (PyLong 64); Some (PyLong 64);
        Some (PyLong 196608)] (Returns AtomNone)].
Proof. vm_compute. reflexivity. Qed.

(** * Beyond the claims: the life of a context

    What [init] leaves behind on each of its paths, what [filter_frame]
    keeps, and what [uninit] needs. *)

(** ** Loaded modules and activated stages *)

Lemma assoc_In {A} k (l : list (string * A)) a :
  assoc k l = Some a -> exists e, In e l /\ snd e = a.
Proof.
  unfold assoc. destruct (find _ l) as [e|] eqn:Hf; [|done].
  intros [= <-]. apply find_some in Hf as [Hin _]. eauto.
Qed.

Lemma module_loaded_elim w :
  module_loaded w = true ->
  py_live w = true /\ heap_ok w = true /\
  exists rcm m d,
    heap w !! pModule (priv w) = Some (mkObject rcm (PyModule m d)) /\
    forall k a, assoc k d = Some a -> exists o, heap w !! a = Some o.
Proof.
  unfold module_loaded. rewrite !andb_true_iff. intros [[Hl Hok] H].
  destruct (heap w !! pModule (priv w)) as [[rcm [| |m d|]]|] eqn:Hm; try done.
  split; [done|]. split; [done|]. exists rcm, m, d. split; [done|].
  intros k a Ha. apply assoc_In in Ha as (e & Hin & <-).
  rewrite forallb_forall in H. specialize (H e Hin).
  destruct (heap w !! e.2); [eauto|done].
Qed.

Lemma module_loaded_intro w rcm m d :
  py_live w = true -> heap_ok w = true ->
  heap w !! pModule (priv w) = Some (mkObject rcm (PyModule m d)) ->
  (forall e, In e d -> is_Some (heap w !! snd e)) ->
  module_loaded w = true.
Proof.
  intros Hl Hok Hm Hd. unfold module_loaded. rewrite Hl, Hok, Hm. cbn.
  apply forallb_forall. intros e He. by destruct (Hd e He) as [o ->].
Qed.

Lemma module_loaded_after w w' :
  module_loaded w = true ->
  py_live w' = py_live w -> heap w' = heap w ->
  pModule (priv w') = pModule (priv w) ->
  (next_addr w <= next_addr w')%N ->
  module_loaded w' = true.
Proof.
  unfold module_loaded. rewrite !andb_true_iff. intros [[Hl Hok] H] Hl' Hh Hp Hn.
  rewrite Hl', Hh, Hp. split; [split; [done|]|done].
  by apply (heap_ok_mono w).
Qed.

Lemma activated_elim w :
  activated w = true ->
  module_loaded w = true /\
  exists rcf qf, heap w !! pFunc (priv w) = Some (mkObject rcf (PyFunction qf)).
Proof.
  unfold activated. rewrite andb_true_iff. intros [Hl H]. split; [done|].
  destruct (heap w !! pFunc (priv w)) as [[rcf [| | |qf]]|]; try done. eauto.
Qed.

Lemma activated_after w w' :
  activated w = true ->
  py_live w' = py_live w -> heap w' = heap w -> priv w' = priv w ->
  (next_addr w <= next_addr w')%N ->
  activated w' = true.
Proof.
  unfold activated. rewrite !andb_true_iff. intros [Hl H] Hl' Hh Hp Hn.
  split; [apply (module_loaded_after w); congruence || done|].
  by rewrite Hh, Hp.
Qed.

Lemma activated_references_live w : activated w = true -> references_live w = true.
Proof.
  unfold activated, references_live. rewrite !andb_true_iff. intros [Hl H].
  split; [done|]. by repeat case_match.
Qed.

Lemma resolves_spec w rcm m d u :
  heap w !! pModule (priv w) = Some (mkObject rcm (PyModule m d)) ->
  resolves w u = match assoc u d with
                 | Some a => match heap w !! a with
                             | Some (mkObject _ (PyFunction _)) => true
                             | _ => false
                             end
                 | None => false
                 end.
Proof. intros Hm. unfold resolves, module_dict. by rewrite Hm. Qed.

Section Hooks.
Context `{E : Env}.

(** With the module loaded the optional finalizer hook always returns,
    restores the heap and logs nothing. *)
Lemma check_and_call_uninit_loaded w :
  module_loaded w = true ->
  exists w' evs,
    check_and_call_uninit w = Ok (hook_code w (uninit_function (priv w))) w' /\
    trace w' = trace w ++ evs /\
    length (calls evs) = hook_calls w (uninit_function (priv w)) /\
    (List.filter is_forward evs = [] /\ List.filter is_log evs = []) /\
    heap w' = heap w /\ priv w' = priv w /\ py_live w' = py_live w /\
    frames w' = frames w /\ sys_modules w' = sys_modules w /\
    (next_addr w <= next_addr w')%N.
Proof.
  intros Hld. destruct (module_loaded_elim w Hld) as (Hlive & Hok & rcm & m & d & Hm & Hd).
  pose proof (heap_ok_lookup _ _ _ Hok Hm) as Hpm.
  unfold hook_code, hook_calls.
  destruct (uninit_function (priv w)) as [u|] eqn:Hu.
  2: { exists w, []. rewrite (check_and_call_uninit_unset w Hu), app_nil_r. done. }
  rewrite (resolves_spec w rcm m d u Hm).
  destruct (assoc u d) as [ua|] eqn:Hud.
  2: { rewrite (check_and_call_uninit_unresolved w u rcm m d Hu ltac:(lia) Hm Hud).
       eexists _, _. split; [reflexivity|]. cbn. rewrite <- ?app_assoc. done. }
  destruct (Hd u ua Hud) as [[rc body] Hl].
  destruct (heap_ok_object _ _ _ Hok Hl) as [Hua Hrc]. rewrite Hl.
  destruct body as [v|items|nm dd|q].
  4: { rewrite (check_and_call_uninit_calls w u rcm m d ua rc q
                  (fun p => heap_ok_fresh w p Hok) Hu ltac:(lia) Hm Hud Hl ltac:(lia) Hrc).
       cbv zeta. destruct (script q [] _) as [v|e].
       - eexists _, _. split; [reflexivity|]. cbn. split; [reflexivity|]. repeat split; lia.
       - eexists _, _. split; [reflexivity|]. cbn. split; [reflexivity|]. repeat split; lia. }
  all: rewrite (check_and_call_uninit_not_callable w u rcm m d ua rc _
                  (fun p => heap_ok_fresh w p Hok) Hu ltac:(lia) Hm Hud Hl
                  ltac:(done) ltac:(lia) Hrc);
       eexists _, _; (split; [reflexivity|]); cbn; rewrite <- ?app_assoc; done.
Qed.

(** The same for the optional initializer hook, when the argument
    string it would decode is there. *)
Lemma check_and_call_init_loaded w :
  module_loaded w = true ->
  init_function (priv w) = None \/ is_Some (init_args (priv w)) ->
  exists w' evs,
    check_and_call_init w = Ok (hook_code w (init_function (priv w))) w' /\
    trace w' = trace w ++ evs /\
    length (calls evs) = hook_calls w (init_function (priv w)) /\
    (List.filter is_forward evs = [] /\ List.filter is_log evs = []) /\
    heap w' = heap w /\ priv w' = priv w /\ py_live w' = py_live w /\
    frames w' = frames w /\ sys_modules w' = sys_modules w /\
    (next_addr w <= next_addr w')%N.
Proof.
  intros Hld Hargs.
  destruct (module_loaded_elim w Hld) as (Hlive & Hok & rcm & m & d & Hm & Hd).
  pose proof (heap_ok_lookup _ _ _ Hok Hm) as Hpm.
  unfold hook_code, hook_calls.
  destruct (init_function (priv w)) as [g|] eqn:Hg.
  2: { exists w, []. rewrite (check_and_call_init_unset w Hg), app_nil_r. done. }
  destruct Hargs as [?|[a Ha]]; [done|].
  rewrite (resolves_spec w rcm m d g Hm).
  destruct (assoc g d) as [ga|] eqn:Hgd.
  2: { rewrite (check_and_call_init_unresolved w g rcm m d Hg ltac:(lia) Hm Hgd).
       eexists _, _. split; [reflexivity|]. cbn. rewrite <- ?app_assoc. done. }
  destruct (Hd g ga Hgd) as [[rc body] Hl].
  destruct (heap_ok_object _ _ _ Hok Hl) as [Hga Hrc]. rewrite Hl.
  destruct body as [v|items|nm dd|q].
  4: { rewrite (check_and_call_init_calls w g a rcm m d ga rc q
                  (fun p => heap_ok_fresh w p Hok) Hg Ha ltac:(lia) Hm Hgd Hl ltac:(lia) Hrc).
       cbv zeta. destruct (script q _ _) as [v|e].
       - eexists _, _. split; [reflexivity|]. cbn. split; [reflexivity|]. repeat split; lia.
       - eexists _, _. split; [reflexivity|]. cbn. split; [reflexivity|]. repeat split; lia. }
  all: rewrite (check_and_call_init_not_callable w g rcm m d ga rc _
                  (fun p => heap_ok_fresh w p Hok) Hg ltac:(lia) Hm Hgd Hl
                  ltac:(done) ltac:(lia) Hrc);
       eexists _, _; (split; [reflexivity|]); cbn; rewrite <- ?app_assoc; done.
Qed.

End Hooks.

(** ** Teardown from live references *)

Section Teardown.
Context `{E : Env}.

(** The two releases and the shutdown that end [uninit], when [pFunc] is
    any live object without children. *)
Lemma uninit_tail_leaf w r rcm m d rcf body :
  py_live w = true ->
  (0 < pModule (priv w))%N -> (0 < pFunc (priv w))%N ->
  heap w !! pModule (priv w) = Some (mkObject rcm (PyModule m d)) ->
  heap w !! pFunc (priv w) = Some (mkObject rcf body) ->
  children body = [] -> pModule (priv w) <> pFunc (priv w) ->
  (_ <- (if (r <? 0)%Z then av_log AV_LOG_ERROR ("could not call uninit function" ++ nl) else ret tt) ;;
   py_context <- load_priv ;;
   _ <- Py_DECREF (pFunc py_context) ;;
   py_context <- load_priv ;;
   _ <- Py_DECREF (pModule py_context) ;;
   _ <- Py_FinalizeEx ;;
   ret tt) w =
  Ok tt (mkWorld false ∅ (next_addr w) [] None (priv w) (frames w)
           (trace w ++ (if (r <? 0)%Z then [EvLog AV_LOG_ERROR ("could not call uninit function" ++ nl)] else [])
                    ++ [EvDecref (pFunc (priv w)); EvDecref (pModule (priv w));
                        EvPyFinalize])).
Proof.
  intros Hlive Hpm Hpf Hm Hf Hleaf Hne.
  destruct w as [live h nx sm err pv fs tr]; cbn in *. subst live.
  destruct (r <? 0)%Z; run.
  - destruct (Z.leb_spec rcf 1).
    + erewrite release_atom; [| lia | repeat look; reflexivity | cbn; lia | exact Hleaf ].
      run. finish.
    + erewrite release_shared; [| lia | repeat look; reflexivity | cbn; lia].
      run. finish.
  - destruct (Z.leb_spec rcf 1).
    + erewrite release_atom; [| lia | repeat look; reflexivity | cbn; lia | exact Hleaf ].
      run. finish.
    + erewrite release_shared; [| lia | repeat look; reflexivity | cbn; lia].
      run. finish.
Qed.

Lemma references_live_elim w :
  references_live w = true ->
  module_loaded w = true /\
  exists rcf body, heap w !! pFunc (priv w) = Some (mkObject rcf body) /\
                   children body = [] /\ forall n dd, body <> PyModule n dd.
Proof.
  unfold references_live. rewrite andb_true_iff. intros [Hl H]. split; [done|].
  destruct (heap w !! pFunc (priv w)) as [[rcf [v|items|n dd|qf]]|]; try done; eauto.
Qed.

(** Teardown from live references. *)
Lemma uninit_live w ctx :
  references_live w = true ->
  exists w' pre,
    uninit ctx w = Ok tt w' /\
    trace w' = trace w ++ pre ++ (if (hook_code w (uninit_function (priv w)) <? 0)%Z
                         then [EvLog AV_LOG_ERROR ("could not call uninit function" ++ nl)]
                         else [])
                     ++ [EvDecref (pFunc (priv w)); EvDecref (pModule (priv w));
                         EvPyFinalize] /\
    length (calls pre) = hook_calls w (uninit_function (priv w)) /\
    (List.filter is_forward pre = [] /\ List.filter is_log pre = []) /\
    py_live w' = false /\ heap w' = ∅ /\ sys_modules w' = [] /\
    priv w' = priv w /\ frames w' = frames w.
Proof.
  intros Hrl. destruct (references_live_elim w Hrl) as (Hld & rcf & body & Hf & Hleaf & Hnm).
  destruct (module_loaded_elim w Hld) as (Hlive & Hok & rcm & m & d & Hm & Hd).
  pose proof (heap_ok_lookup _ _ _ Hok Hm) as Hpm.
  pose proof (heap_ok_lookup _ _ _ Hok Hf) as Hpf.
  destruct (check_and_call_uninit_loaded w Hld)
    as (w1 & evs & Hrun & Htr & Hc & [Hfw Hlog] & Hh & Hp & Hl1 & Hfs & Hsm & Hn).
  unfold uninit. unfold bind at 1. rewrite Hrun.
  rewrite (uninit_tail_leaf w1 _ rcm m d rcf body).
  - eexists _, evs. split; [reflexivity|].
    split. { cbn. rewrite Htr, Hp, <- !app_assoc. reflexivity. }
    cbn. rewrite Hp, Hfs. done.
  - congruence.
  - rewrite Hp. lia.
  - rewrite Hp. lia.
  - by rewrite Hh, Hp.
  - by rewrite Hh, Hp.
  - exact Hleaf.
  - rewrite Hp. intros Heq. rewrite Heq in Hm. rewrite Hm in Hf. inversion Hf. by eapply Hnm.
Qed.

(** Teardown with a null [pFunc]: the fault comes after the finalizer
    hook when the module is loaded. *)
Lemma uninit_null_filter w ctx :
  pFunc (priv w) = NULL ->
  pModule (priv w) = NULL \/ module_loaded w = true ->
  exists w',
    uninit ctx w = Crash NullDeref w' /\
    py_live w' = py_live w /\ heap w' = heap w /\ priv w' = priv w /\
    (pModule (priv w) = NULL -> w' = w) /\
    (module_loaded w = true ->
     length (calls (since w w')) = hook_calls w (uninit_function (priv w))).
Proof.
  intros Hpf [Hpm|Hld].
  - assert (module_loaded w = true -> False) as Hno.
    { intros Hld. destruct (module_loaded_elim w Hld) as (_ & Hok & rcm & m & d & Hm & _).
      pose proof (heap_ok_lookup _ _ _ Hok Hm). lia. }
    destruct (uninit_function (priv w)) as [u|] eqn:Hu.
    + exists w. rewrite (uninit_null_module_faults ctx w u Hu Hpm).
      repeat split; try done; intros H; by destruct Hno.
    + exists w. rewrite (uninit_null_filter_faults ctx w Hu Hpf).
      repeat split; try done; intros H; by destruct Hno.
  - destruct (module_loaded_elim w Hld) as (Hlive & Hok & rcm & m & d & Hm & Hd).
    pose proof (heap_ok_lookup _ _ _ Hok Hm) as Hpm.
    destruct (check_and_call_uninit_loaded w Hld)
      as (w1 & evs & Hrun & Htr & Hc & [Hfw Hlog] & Hh & Hp & Hl1 & Hfs & Hsm & Hn).
    unfold uninit. unfold bind at 1. rewrite Hrun.
    destruct (hook_code w (uninit_function (priv w)) <? 0)%Z.
    + eexists. split.
      { unfold bind, av_log, load_priv, Py_DECREF. cbn. rewrite Hp, Hpf. reflexivity. }
      cbn. repeat split; try done; try lia.
      intros _. erewrite since_app; [|cbn; rewrite Htr, <- app_assoc; reflexivity].
      unfold calls in *. rewrite List.filter_app, length_app. cbn. lia.
    + eexists. split.
      { unfold bind, ret, load_priv, Py_DECREF. rewrite Hp, Hpf. reflexivity. }
      repeat split; try done; try lia.
      intros _. by rewrite (since_app _ _ _ Htr).
Qed.

End Teardown.

(** ** The worlds activation leaves *)

(** Every entry of the dictionary built for a module is a live object
    at one of the addresses handed out, and every object at such an
    address is an entry. *)
Lemma alloc_attrs_dict attrs : forall n h d n' h',
  alloc_attrs attrs n h = (d, n', h') ->
  forall e, In e d -> (n <= snd e < n')%N /\ is_Some (h' !! snd e).
Proof.
  induction attrs as [|[k0 a0] rest IH]; intros n h d n' h' Heq e Hin; cbn in Heq.
  - inversion Heq; subst. destruct Hin.
  - destruct (alloc_attrs rest (N.succ n) (<[n:=mkObject 1 (attr_body a0)]> h))
      as [[d1 n1] h1] eqn:Hrest.
    inversion Heq; subst.
    destruct (alloc_attrs_spec _ _ _ _ _ _ Hrest) as (Hle & Hout & _ & _).
    destruct Hin as [<-|Hin].
    + cbn. split; [lia|]. rewrite Hout by lia. rewrite lookup_insert_eq. eauto.
    + destruct (IH _ _ _ _ _ Hrest e Hin) as [Hr Hl]. split; [lia|done].
Qed.

Lemma module_loaded_insert w w' a rc b :
  module_loaded w = true ->
  heap w' = <[a := mkObject rc b]> (heap w) ->
  (0 < a < next_addr w)%N -> (0 < rc)%Z -> a <> pModule (priv w) ->
  py_live w' = py_live w -> pModule (priv w') = pModule (priv w) ->
  (next_addr w <= next_addr w')%N ->
  module_loaded w' = true.
Proof.
  intros Hld Hh Ha Hrc Hne Hl Hp Hn.
  destruct (module_loaded_elim w Hld) as (Hlive & Hok & rcm & m & d & Hm & Hd).
  unfold module_loaded in Hld. rewrite Hm in Hld.
  apply andb_true_iff in Hld as [_ Hall]. rewrite forallb_forall in Hall.
  apply (module_loaded_intro w' rcm m d).
  - congruence.
  - apply heap_ok_intro; [lia|]. intros p o. rewrite Hh.
    destruct (decide (p = a)) as [->|Hpa].
    + rewrite lookup_insert_eq. intros [= <-]. cbn. lia.
    + rewrite lookup_insert_ne by done. intros Hlk.
      pose proof (heap_ok_object _ _ _ Hok Hlk). lia.
  - rewrite Hh, Hp. by rewrite lookup_insert_ne.
  - intros e He. rewrite Hh. destruct (decide (e.2 = a)) as [->|Hea].
    + rewrite lookup_insert_eq. eauto.
    + rewrite lookup_insert_ne by done. specialize (Hall e He).
      destruct (heap w !! e.2); [eauto|done].
Qed.

Section Activation.
Context `{E : Env}.
Variables (ctx : AVFilterContext) (w : World) (m : string)
          (attrs : list (string * Attr)) (d : list (string * N)) (pm : N)
          (h : gmap N PyObject).
Hypothesis Hlive : py_live w = false.
Hypothesis Hmod : module (priv w) = Some m.
Hypothesis Hsite : site_packages m = Some attrs.
Hypothesis Halloc :
  alloc_attrs attrs 2 (<[1%N := mkObject 1 (PyUnicode m)]> ∅) = (d, pm, h).

(** Once imported, the module is loaded in the sense of
    [module_loaded]. *)
Lemma import_loaded : module_loaded (after_import w m d pm h) = true.
Proof using Halloc.
  pose proof (import_base _ _ _ _ _ Halloc) as Hb.
  pose proof (import_null _ _ _ _ _ Halloc) as H0.
  apply (module_loaded_intro _ 2 m d); [reflexivity| | |].
  - apply heap_ok_intro; cbn; [lia|]. intros p o.
    destruct (decide (p = pm)) as [->|Hn2].
    { rewrite lookup_insert_eq. intros [= <-]. cbn. lia. }
    rewrite lookup_insert_ne by done.
    destruct (decide (p = 1%N)) as [->|Hn3].
    { rewrite lookup_delete_eq. done. }
    rewrite lookup_delete_ne by done. intros Hl.
    split; [|by apply (import_refcnt _ _ _ _ _ Halloc p)].
    destruct (N.lt_ge_cases p pm) as [Hlt|Hge].
    + split; [|lia]. destruct (decide (p = 0%N)) as [->|]; [congruence|lia].
    + rewrite (import_fresh _ _ _ _ _ Halloc p Hge) in Hl. done.
  - cbn. apply lookup_insert_eq.
  - intros e He. destruct (alloc_attrs_dict _ _ _ _ _ _ Halloc e He) as [Hr Hl].
    cbn. rewrite lookup_insert_ne by lia. rewrite lookup_delete_ne by lia. done.
Qed.

(** The worlds in which [init] stops before the filter callable is
    bound. *)
Lemma init_filter_unset_world :
  filter_function (priv w) = None ->
  init ctx w = Crash NullDeref (after_import w m d pm h).
Proof using Hlive Hmod Hsite Halloc.
  intros Hf. pose proof (import_name _ _ _ _ _ Halloc) as Hn.
  pose proof (import_base _ _ _ _ _ Halloc) as Hb.
  destruct w as [live h0 nx sm err pv fs tr]; cbn in Hlive, Hmod, Hf. subst live.
  run_outer. rewrite Hmod. run_outer. rewrite Hsite. change (N.succ 1) with 2%N.
  rewrite Halloc. run_outer.
  free_atom. run_outer. rewrite Hf. unfold after_import. heap_simp. finish.
Qed.

Lemma init_filter_missing_world f :
  filter_function (priv w) = Some f -> assoc f attrs = None ->
  init ctx w =
  Ok (AVERROR EINVAL)
     (emit (EvLog AV_LOG_ERROR ("could not load filter function" ++ nl))
        (with_priv (set_pFunc NULL (set_pModule pm (priv w)))
           (emit (EvGetAttr pm f NULL)
              (with_err (Some "AttributeError"%string) (after_import w m d pm h))))).
Proof using Hlive Hmod Hsite Halloc.
  intros Hf Hfa. pose proof (import_name _ _ _ _ _ Halloc) as Hn.
  pose proof (import_base _ _ _ _ _ Halloc) as Hb.
  pose proof (import_attr _ _ _ _ _ Halloc f) as Hd. rewrite Hfa in Hd.
  destruct w as [live h0 nx sm err pv fs tr]; cbn in Hlive, Hmod, Hf. subst live.
  run_outer. rewrite Hmod. run_outer. rewrite Hsite. change (N.succ 1) with 2%N.
  rewrite Halloc. run_outer.
  free_atom. run_outer. rewrite Hf. run_outer. unfold after_import. heap_simp. finish.
Qed.

Lemma init_filter_not_callable_world f v fa :
  filter_function (priv w) = Some f -> assoc f attrs = Some (AttrConst v) ->
  assoc f d = Some fa ->
  init ctx w =
  Ok (AVERROR EINVAL)
     (emit (EvLog AV_LOG_ERROR ("could not load filter function" ++ nl))
        (with_priv (set_pFunc fa (set_pModule pm (priv w)))
           (emit (EvGetAttr pm f fa)
              (with_heap (<[fa := mkObject 2 (PyAtomic v)]> (heap (after_import w m d pm h)))
                 (after_import w m d pm h))))).
Proof using Hlive Hmod Hsite Halloc.
  intros Hf Hfa Hfd. pose proof (import_name _ _ _ _ _ Halloc) as Hn.
  pose proof (import_base _ _ _ _ _ Halloc) as Hb.
  pose proof (import_attr _ _ _ _ _ Halloc f) as Hd. rewrite Hfa in Hd.
  destruct Hd as (fa' & Hfd' & Hr & Hl). cbn [attr_body] in Hl.
  assert (fa' = fa) as -> by congruence.
  destruct w as [live h0 nx sm err pv fs tr]; cbn in Hlive, Hmod, Hf. subst live.
  run_outer. rewrite Hmod. run_outer. rewrite Hsite. change (N.succ 1) with 2%N.
  rewrite Halloc. run_outer.
  free_atom. run_outer. rewrite Hf. run_outer. unfold after_import. heap_simp. finish.
Qed.

End Activation.

Section Missing.
Context `{E : Env}.

Lemma init_module_missing_world ctx w m :
  py_live w = false -> module (priv w) = Some m -> site_packages m = None ->
  init ctx w =
  Ok (AVERROR EINVAL)
     (mkWorld true ∅ 2%N [] (Some "ModuleNotFoundError"%string)
        (set_pModule NULL (priv w)) (frames w)
        (trace w ++ [EvPyInitialize; EvImport m NULL; EvDecref 1%N;
                     EvLog AV_LOG_ERROR ("could not load module" ++ nl)])).
Proof.
  intros Hlive Hm Hsite.
  destruct w as [live h nx sm err pv fs tr]; cbn in Hlive, Hm. subst live.
  run_outer. rewrite Hm. run_outer. rewrite Hsite. run_outer. free_atom. run_outer.
  heap_simp. finish.
Qed.

End Missing.


Section Activated.
Context `{E : Env}.
Variables (ctx : AVFilterContext) (w : World) (m : string)
          (attrs : list (string * Attr)) (d : list (string * N)) (pm : N)
          (h : gmap N PyObject).
Hypothesis Hlive : py_live w = false.
Hypothesis Hmod : module (priv w) = Some m.
Hypothesis Hsite : site_packages m = Some attrs.
Hypothesis Halloc :
  alloc_attrs attrs 2 (<[1%N := mkObject 1 (PyUnicode m)]> ∅) = (d, pm, h).
Variables (f : string) (fa : N) (qf : string).
Hypothesis Hf : filter_function (priv w) = Some f.
Hypothesis Hfd : assoc f d = Some fa.
Hypothesis Hfl : h !! fa = Some (mkObject 1 (PyFunction qf)).
Hypothesis Hfr : (2 <= fa < pm)%N.

Local Abbreviation W1 := (after_binding w m d pm h f fa qf).

(** Once the filter callable is bound the stage is activated, the names
    that resolve are those the module binds to functions, and the heap
    holds the module and its attributes only. *)
Lemma bound_activated : activated W1 = true.
Proof using Halloc Hfr.
  unfold activated. rewrite (bound_func w m d pm h f fa qf).
  rewrite andb_true_r.
  apply (module_loaded_insert (after_import w m d pm h) W1 fa 2 (PyFunction qf));
    [apply (import_loaded w m attrs d pm h Halloc)|reflexivity|cbn; lia|lia|cbn; lia
    |reflexivity|reflexivity|cbn; lia].
Qed.

Lemma bound_resolves g :
  resolves W1 g = match assoc g attrs with
                  | Some (AttrFunction _) => true
                  | _ => false
                  end.
Proof using Halloc Hfl Hfr.
  rewrite (resolves_spec W1 2 m d g (bound_module w m d pm h f fa qf Hfr)).
  pose proof (import_attr _ _ _ _ _ Halloc g) as Hat.
  destruct (assoc g attrs) as [at'|]; [|by rewrite Hat].
  destruct Hat as (ga & -> & Hr & Hl).
  destruct (bound_attr w m d pm h f fa qf Hfl Hfr ga _ Hl Hr) as (rc & -> & _).
  by destruct at'.
Qed.


(** What [init] returns once the filter callable is bound, and the world
    it leaves. *)
Lemma init_bound_result :
  init_function (priv w) = None \/ is_Some (init_args (priv w)) ->
  exists w' evs,
    init ctx w = Ok (if (hook_code W1 (init_function (priv w)) <? 0)%Z
                     then AVERROR EINVAL else 0%Z) w' /\
    trace w' = trace W1 ++ evs
               ++ (if (hook_code W1 (init_function (priv w)) <? 0)%Z
                   then [EvLog AV_LOG_ERROR ("could not call init function" ++ nl)] else []) /\
    length (calls evs) = hook_calls W1 (init_function (priv w)) /\
    (List.filter is_forward evs = [] /\ List.filter is_log evs = []) /\
    heap w' = heap W1 /\ priv w' = priv W1 /\ py_live w' = true /\
    frames w' = frames w /\ sys_modules w' = [(m, pm)] /\
    (next_addr W1 <= next_addr w')%N.
Proof using Hlive Hmod Hsite Halloc Hf Hfd Hfl Hfr.
  intros Hargs.
  destruct (activated_elim W1 bound_activated) as [Hld _].
  destruct (check_and_call_init_loaded W1 Hld Hargs)
    as (w1 & evs & Hrun & Htr & Hc & [Hfw Hlog] & Hh & Hp & Hl1 & Hfs & Hsm & Hn).
  rewrite (init_binds ctx w m attrs d pm h Hlive Hmod Hsite Halloc f fa qf Hf Hfd Hfl Hfr).
  unfold bind at 1. rewrite Hrun.
  change (init_function (priv W1)) with (init_function (priv w)).
  destruct (hook_code W1 (init_function (priv w)) <? 0)%Z.
  - eexists _, evs. split; [reflexivity|]. cbn -[after_binding].
    rewrite Htr, <- !app_assoc. repeat split; try done.
  - eexists _, evs. split; [reflexivity|]. cbn -[after_binding].
    rewrite Htr, app_nil_r. repeat split; try done.
Qed.

End Activated.

Section Outcomes.
Context `{E : Env}.

(** A successful activation went through the binding of the filter
    callable, and leaves the heap and the context of that moment. *)
Lemma init_success_world ctx w w' :
  py_live w = false -> init ctx w = Ok 0%Z w' ->
  exists m attrs d pm h f fa qf evs,
    module (priv w) = Some m /\ site_packages m = Some attrs /\
    alloc_attrs attrs 2 (<[1%N := mkObject 1 (PyUnicode m)]> ∅) = (d, pm, h) /\
    filter_function (priv w) = Some f /\ assoc f d = Some fa /\
    h !! fa = Some (mkObject 1 (PyFunction qf)) /\ (2 <= fa < pm)%N /\
    trace w' = trace (after_binding w m d pm h f fa qf) ++ evs /\
    length (calls evs)
      = hook_calls (after_binding w m d pm h f fa qf) (init_function (priv w)) /\
    (List.filter is_forward evs = [] /\ List.filter is_log evs = []) /\
    heap w' = heap (after_binding w m d pm h f fa qf) /\
    priv w' = priv (after_binding w m d pm h f fa qf) /\
    py_live w' = true /\ frames w' = frames w /\ sys_modules w' = [(m, pm)] /\
    (next_addr (after_binding w m d pm h f fa qf) <= next_addr w')%N.
Proof.
  intros Hlive Hinit.
  destruct (module (priv w)) as [m|] eqn:Hm.
  2: { destruct (init_module_unset ctx w Hlive Hm) as (w1 & Heq & _). congruence. }
  destruct (site_packages m) as [attrs|] eqn:Hsite.
  2: { destruct (init_module_missing ctx w m Hlive Hm Hsite) as (w1 & Heq & _).
       rewrite Heq in Hinit. inversion Hinit. }
  destruct (alloc_attrs attrs 2 (<[1%N := mkObject 1 (PyUnicode m)]> ∅))
    as [[d pm] h] eqn:Halloc.
  destruct (filter_function (priv w)) as [f|] eqn:Hf.
  2: { destruct (init_filter_unset ctx w m attrs d pm h Hlive Hm Hsite Halloc Hf)
         as (w1 & Heq & _). congruence. }
  pose proof (import_attr _ _ _ _ _ Halloc f) as Hat.
  destruct (assoc f attrs) as [[qf|v]|] eqn:Hfa.
  2: { destruct (init_filter_not_callable ctx w m attrs d pm h Hlive Hm Hsite Halloc f v Hf Hfa)
         as (w1 & Heq & _). rewrite Heq in Hinit. inversion Hinit. }
  2: { destruct (init_filter_missing ctx w m attrs d pm h Hlive Hm Hsite Halloc f Hf Hfa)
         as (w1 & Heq & _). rewrite Heq in Hinit. inversion Hinit. }
  destruct Hat as (fa & Hfd & Hr & Hl). cbn [attr_body] in Hl.
  exists m, attrs, d, pm, h, f, fa, qf.
  assert (init_function (priv w) = None \/ is_Some (init_args (priv w))) as Hargs.
  { destruct (init_function (priv w)) as [g|] eqn:Hg; [|by left]. right.
    destruct (init_args (priv w)) as [a|] eqn:Ha; [eauto|].
    destruct (assoc g attrs) as [[qg|v]|] eqn:Hga.
    - destruct (init_initializer_null_args ctx w m attrs d pm h Hlive Hm Hsite Halloc
                  f fa qf Hf Hfd Hl Hr g qg Hg Hga Ha) as (w1 & Heq & _). congruence.
    - destruct (init_initializer_not_callable ctx w m attrs d pm h Hlive Hm Hsite Halloc
                  f fa qf Hf Hfd Hl Hr g v Hg Hga) as (w1 & Heq & _).
      rewrite Heq in Hinit. inversion Hinit.
    - destruct (init_initializer_unresolved ctx w m attrs d pm h Hlive Hm Hsite Halloc
                  f fa qf Hf Hfd Hl Hr g Hg Hga) as (w1 & Heq & _).
      rewrite Heq in Hinit. inversion Hinit. }
  destruct (init_bound_result ctx w m attrs d pm h Hlive Hm Hsite Halloc f fa qf
              Hf Hfd Hl Hr Hargs)
    as (w1 & evs & Hrun & Htr & Hc & [Hfw Hlog] & Hh & Hp & Hl1 & Hfs & Hsm & Hn).
  rewrite Hrun in Hinit.
  destruct (hook_code _ _ <? 0)%Z; [inversion Hinit|].
  inversion Hinit; subst w1. rewrite app_nil_r in Htr.
  exists evs. done.
Qed.

End Outcomes.

(** ** The private context across the life of a stage *)

Section Configuration.
Context `{E : Env}.

Ltac lifecycle_prim :=
  intros w;
  cbv [alloc PyTuple_New PyFloat_FromDouble PyLong_FromLong PyUnicode_DecodeFSDefault
       drop_ref Py_DECREF Py_XDECREF PyTuple_SetItem PyObject_CallObject
       PyObject_GetAttrString PyCallable_Check PyImport_Import Py_Initialize Py_FinalizeEx
       av_frame_make_writable deref_frame ff_filter_frame load_priv av_log bind ret];
  repeat case_match; reflexivity.

Lemma keeps_priv_Py_XDECREF p : keeps_priv (Py_XDECREF p).
Proof. lifecycle_prim. Qed.
Lemma keeps_priv_PyUnicode_DecodeFSDefault s : keeps_priv (PyUnicode_DecodeFSDefault s).
Proof. lifecycle_prim. Qed.
Lemma keeps_priv_PyObject_GetAttrString o n : keeps_priv (PyObject_GetAttrString o n).
Proof. lifecycle_prim. Qed.
Lemma keeps_priv_PyCallable_Check o : keeps_priv (PyCallable_Check o).
Proof. lifecycle_prim. Qed.
Lemma keeps_priv_PyImport_Import n : keeps_priv (PyImport_Import n).
Proof. lifecycle_prim. Qed.
Lemma keeps_priv_Py_Initialize : keeps_priv Py_Initialize.
Proof. lifecycle_prim. Qed.
Lemma keeps_priv_Py_FinalizeEx : keeps_priv Py_FinalizeEx.
Proof. lifecycle_prim. Qed.
Lemma keeps_priv_av_log l s : keeps_priv (av_log l s).
Proof. lifecycle_prim. Qed.

Create HintDb lifecycle discriminated.
#[local] Hint Resolve keeps_priv_ret keeps_priv_if keeps_priv_alloc keeps_priv_PyTuple_New
  keeps_priv_Py_DECREF keeps_priv_PyTuple_SetItem keeps_priv_PyObject_CallObject
  keeps_priv_load_priv keeps_priv_Py_XDECREF keeps_priv_PyUnicode_DecodeFSDefault
  keeps_priv_PyObject_GetAttrString keeps_priv_PyCallable_Check keeps_priv_PyImport_Import
  keeps_priv_Py_Initialize keeps_priv_Py_FinalizeEx keeps_priv_av_log : lifecycle.

Ltac keeps_steps :=
  repeat first
    [ apply keeps_priv_bind; [|intros]
    | apply keeps_priv_if
    | progress auto with lifecycle ].

Lemma keeps_priv_check_and_call_init : keeps_priv check_and_call_init.
Proof.
  unfold check_and_call_init. apply keeps_priv_bind; [auto with lifecycle|]. intros c.
  destruct (init_function c); keeps_steps.
Qed.

Lemma keeps_priv_check_and_call_uninit : keeps_priv check_and_call_uninit.
Proof.
  unfold check_and_call_uninit. apply keeps_priv_bind; [auto with lifecycle|]. intros c.
  destruct (uninit_function c); keeps_steps.
Qed.

Lemma keeps_priv_uninit ctx : keeps_priv (uninit ctx).
Proof.
  unfold uninit. apply keeps_priv_bind; [apply keeps_priv_check_and_call_uninit|].
  intros r. keeps_steps.
Qed.

Lemma keeps_options_priv {A} (m : C A) : keeps_priv m -> keeps_options m.
Proof. intros H w. by rewrite H. Qed.

Lemma keeps_options_bind {A B} (m : C A) (k : A -> C B) :
  keeps_options m -> (forall a, keeps_options (k a)) -> keeps_options (bind m k).
Proof.
  intros Hm Hk w. unfold bind. specialize (Hm w).
  destruct (m w) as [a w1|f w1]; cbn in *; [|done].
  rewrite Hk. done.
Qed.

Lemma keeps_options_store_pModule p : keeps_options (store_pModule p).
Proof. intros w. reflexivity. Qed.

Lemma keeps_options_store_pFunc p : keeps_options (store_pFunc p).
Proof. intros w. reflexivity. Qed.

Lemma keeps_options_init ctx : keeps_options (init ctx).
Proof.
  unfold init.
  repeat first
    [ apply keeps_options_store_pModule
    | apply keeps_options_store_pFunc
    | apply keeps_options_bind; [|intros]
    | match goal with |- keeps_options (if ?c then _ else _) => destruct c end
    | apply keeps_options_priv;
      first [ apply keeps_priv_check_and_call_init | keeps_steps; fail ] ].
Qed.

(** X14: the five option strings are never modified by [init], and
    [check_and_call_init], [check_and_call_uninit] and [uninit] never write
    the private context at all, however they end: [pModule] and [pFunc]
    are written by [init] only, and [uninit] does not reset them. *)
Theorem lifecycle_keeps_configuration :
  (forall ctx w, options (priv (world_of (init ctx w))) = options (priv w)) /\
  (forall w, priv (world_of (check_and_call_init w)) = priv w) /\
  (forall w, priv (world_of (check_and_call_uninit w)) = priv w) /\
  (forall ctx w, priv (world_of (uninit ctx w)) = priv w).
Proof.
  split; [exact keeps_options_init|]. split; [exact keeps_priv_check_and_call_init|].
  split; [exact keeps_priv_check_and_call_uninit|exact keeps_priv_uninit].
Qed.

End Configuration.

(** ** How activation ends *)

Section Endings.
Context `{E : Env}.

(** X1: with the [module] option left unset (its default is a null
    string), [init] starts the interpreter and then decodes the null
    pointer: it faults in [PyUnicode_DecodeFSDefault], with nothing
    imported, the context untouched and the interpreter left running. *)
Theorem init_without_module_name_faults ctx w :
  module (priv w) = None ->
  exists w',
    init ctx w = Crash NullDeref w' /\
    since w w' = [EvPyInitialize] /\
    py_live w' = true /\ priv w' = priv w /\ frames w' = frames w.
Proof.
  intros Hm. destruct w as [live h nx sm err pv fs tr]; cbn in Hm.
  destruct live.
  - eexists. split; [run_outer; rewrite Hm; reflexivity|].
    split; [since_now; reflexivity|]. done.
  - eexists. split; [run_outer; rewrite Hm; reflexivity|].
    split; [since_now; reflexivity|]. done.
Qed.

(** X2: with an importable module and the [filter_function] option left
    unset, [init] faults in [PyObject_GetAttrString] on the null name: by
    then the module is imported and [pModule] holds a reference to it, and
    [pFunc] has not been written. *)
Theorem init_without_filter_name_faults ctx w m attrs :
  py_live w = false -> module (priv w) = Some m -> site_packages m = Some attrs ->
  filter_function (priv w) = None ->
  exists w',
    init ctx w = Crash NullDeref w' /\
    since w w' = [EvPyInitialize; EvImport m (pModule (priv w')); EvDecref 1%N] /\
    module_loaded w' = true /\
    sys_modules w' = [(m, pModule (priv w'))] /\
    pFunc (priv w') = pFunc (priv w).
Proof.
  intros Hlive Hm Hsite Hf.
  destruct (alloc_attrs attrs 2 (<[1%N := mkObject 1 (PyUnicode m)]> ∅))
    as [[d pm] h] eqn:Halloc.
  exists (after_import w m d pm h).
  split; [exact (init_filter_unset_world ctx w m attrs d pm h Hlive Hm Hsite Halloc Hf)|].
  split; [since_now; reflexivity|].
  split; [exact (import_loaded w m attrs d pm h Halloc)|]. done.
Qed.

(** X3: when the module cannot be imported, [init] drops its reference to
    the name object, logs exactly "could not load module" at error level
    and returns [AVERROR(EINVAL)]; [pModule] is null, [pFunc] is as it
    was, the import's exception is left pending and the interpreter is
    left running. *)
Theorem init_reports_missing_module ctx w m :
  py_live w = false -> module (priv w) = Some m -> site_packages m = None ->
  exists w',
    init ctx w = Ok (AVERROR EINVAL) w' /\
    since w w' = [EvPyInitialize; EvImport m NULL; EvDecref 1%N;
                  EvLog AV_LOG_ERROR ("could not load module" ++ nl)] /\
    pModule (priv w') = NULL /\ pFunc (priv w') = pFunc (priv w) /\
    py_live w' = true /\ is_Some (err_indicator w').
Proof.
  intros Hlive Hm Hsite.
  rewrite (init_module_missing_world ctx w m Hlive Hm Hsite).
  eexists. split; [reflexivity|].
  split; [since_now; reflexivity|]. cbn. repeat split; eauto.
Qed.

(** X4: when the module imports but [filter_function] names an attribute
    it lacks or a value, [init] logs exactly "could not load filter
    function" and returns [AVERROR(EINVAL)] without releasing anything: the
    module stays loaded and referenced by [pModule]; [pFunc] is null when
    the attribute is missing, and a held reference to the value when it is
    not callable. *)
Theorem init_reports_unusable_filter ctx w m attrs f :
  py_live w = false -> module (priv w) = Some m -> site_packages m = Some attrs ->
  filter_function (priv w) = Some f ->
  (assoc f attrs = None \/ exists v, assoc f attrs = Some (AttrConst v)) ->
  exists w',
    init ctx w = Ok (AVERROR EINVAL) w' /\
    since w w' = [EvPyInitialize; EvImport m (pModule (priv w')); EvDecref 1%N;
                  EvGetAttr (pModule (priv w')) f (pFunc (priv w'));
                  EvLog AV_LOG_ERROR ("could not load filter function" ++ nl)] /\
    module_loaded w' = true /\
    (assoc f attrs = None -> pFunc (priv w') = NULL) /\
    ((exists v, assoc f attrs = Some (AttrConst v)) -> references_live w' = true).
Proof.
  intros Hlive Hm Hsite Hf Hfa.
  destruct (alloc_attrs attrs 2 (<[1%N := mkObject 1 (PyUnicode m)]> ∅))
    as [[d pm] h] eqn:Halloc.
  pose proof (import_loaded w m attrs d pm h Halloc) as Hld.
  pose proof (import_base _ _ _ _ _ Halloc) as Hb.
  destruct Hfa as [Hfa|[v Hfa]].
  - eexists. split;
      [exact (init_filter_missing_world ctx w m attrs d pm h Hlive Hm Hsite Halloc f Hf Hfa)|].
    split; [since_now; reflexivity|].
    split; [by apply (module_loaded_after (after_import w m d pm h))|].
    split; [done|]. intros [v Hv]. congruence.
  - pose proof (import_attr _ _ _ _ _ Halloc f) as Hat. rewrite Hfa in Hat.
    destruct Hat as (fa & Hfd & Hr & Hl).
    eexists. split;
      [exact (init_filter_not_callable_world ctx w m attrs d pm h Hlive Hm Hsite Halloc
                f v fa Hf Hfa Hfd)|].
    split; [since_now; reflexivity|].
    assert (module_loaded
              (emit (EvLog AV_LOG_ERROR ("could not load filter function" ++ nl))
                 (with_priv (set_pFunc fa (set_pModule pm (priv w)))
                    (emit (EvGetAttr pm f fa)
                       (with_heap (<[fa := mkObject 2 (PyAtomic v)]>
                                     (heap (after_import w m d pm h)))
                          (after_import w m d pm h))))) = true) as Hld'.
    { apply (module_loaded_insert (after_import w m d pm h) _ fa 2 (PyAtomic v));
        [exact Hld|reflexivity|cbn; lia|lia|cbn; lia|reflexivity|reflexivity|cbn; lia]. }
    split; [exact Hld'|]. split; [congruence|]. intros _.
    unfold references_live. rewrite Hld'. cbn. by rewrite lookup_insert_eq.
Qed.



End Endings.

(** ** Steady state and teardown *)

Section Steady.
Context `{E : Env}.


Lemma omap_agree {A B} (F G : A -> option B) (l : list A) :
  (forall x, x ∈ l -> F x = G x) -> omap F l = omap G l.
Proof.
  induction l as [|x l IH]; intros H; [reflexivity|]. cbn.
  rewrite (H x) by left. rewrite IH; [reflexivity|]. intros y Hy. apply H. by right.
Qed.

(** Frames handled one after the other on an activated stage. *)
Lemma handle_frames_activated inlink fs : forall w,
  activated w = true -> NoDup fs ->
  Forall (fun f => is_Some (frames w !! f)) fs ->
  exists rs w' evs,
    handle_frames inlink fs w = Ok rs w' /\
    trace w' = trace w ++ evs /\
    omap call_view evs = omap (frame_call w (time_base inlink)) fs /\
    length (calls evs) = length fs /\
    length rs = length fs /\
    List.filter is_forward evs
      = map (EvFilterFrame (nth 0 (outputs (dst inlink)) NULL)) fs /\
    activated w' = true /\ heap w' = heap w /\ priv w' = priv w /\
    (forall g, g ∉ fs -> frames w' !! g = frames w !! g).
Proof.
  induction fs as [|f fs IH]; intros w Hact Hnd Hall.
  - exists [], w, []. cbn. rewrite app_nil_r. done.
  - apply NoDup_cons in Hnd as [Hnf Hnd].
    apply Forall_cons in Hall as [[fr Hfr] Hall].
    destruct (activated_elim w Hact) as (Hld & rcf & qf & Hf).
    destruct (module_loaded_elim w Hld) as (Hlive & Hok & _).
    pose proof (filter_frame_steady inlink f w fr _ qf Hok Hfr Hf eq_refl) as H.
    cbv zeta in H. fold (marshal (time_base inlink) (make_writable fr)) in H.
    set (out := script qf (marshal (time_base inlink) (make_writable fr))
                       (trace w ++ [EvMakeWritable f])) in *.
    match type of H with _ = Ok _ ?W => set (w1 := W) in * end.
    assert (heap w1 = heap w /\ priv w1 = priv w /\ py_live w1 = py_live w /\
            (next_addr w <= next_addr w1)%N /\
            frames w1 = <[f := make_writable fr]> (frames w) /\
            exists mid, trace w1 = trace w ++ [EvMakeWritable f;
                            EvCall (pFunc (priv w)) qf
                              (marshal (time_base inlink) (make_writable fr)) out] ++ mid
                          ++ [EvFilterFrame (nth 0 (outputs (dst inlink)) NULL) f] /\
                        omap call_view mid = [] /\ calls mid = [] /\
                        List.filter is_forward mid = [])
      as (Hh & Hp & Hl & Hn & Hfs & mid & Htr & Hm1 & Hm2 & Hm3).
    { unfold w1. destruct out; cbn; (repeat split; try lia);
        [exists [EvDecref (next_addr w); EvDecref (next_addr w + 5)%N]
        |exists [EvDecref (next_addr w)]]; done. }
    destruct (IH w1)
      as (rs & w2 & evs & Hrun2 & Htr2 & Hcv & Hcs & Hlen & Hfw & Hact2 & Hh2 & Hp2 & Hfr2).
    + by apply (activated_after w).
    + done.
    + eapply Forall_impl; [exact Hall|]. intros g [frg Hg]. rewrite Hfs.
      destruct (decide (f = g)) as [->|Hne].
      * rewrite lookup_insert_eq. eauto.
      * rewrite lookup_insert_ne by done. eauto.
    + assert (omap (frame_call w1 (time_base inlink)) fs
              = omap (frame_call w (time_base inlink)) fs) as Hsame.
      { apply omap_agree. intros g Hg. unfold frame_call. rewrite Hfs, Hp.
        rewrite lookup_insert_ne; [done|]. intros ->. done. }
      eexists (_ :: rs), w2, _.
      split. { cbn [handle_frames]. unfold bind at 1. rewrite H.
               unfold bind at 1. rewrite Hrun2. reflexivity. }
      split. { rewrite Htr2, Htr. rewrite <- app_assoc. reflexivity. }
      unfold calls in *.
      rewrite !omap_app, !List.filter_app. cbn [omap call_view app List.filter is_call is_forward].
      rewrite Hm1, Hm2, Hm3.
      cbn. rewrite Hcv, Hsame, Hcs, Hlen, Hfw, Hh2, Hp2, Hh, Hp.
      assert (frame_call w (time_base inlink) f
              = Some (pFunc (priv w), marshal (time_base inlink) (make_writable fr))) as Hfc
        by (unfold frame_call; rewrite Hfr; reflexivity).
      rewrite Hfc.
      repeat split; try done.
      intros g Hg. rewrite Hfr2, Hfs.
      * apply lookup_insert_ne. intros ->. apply Hg. by left.
      * intros Hin. apply Hg. by right.
Qed.


End Steady.

Section Shutdown.
Context `{E : Env}.

(** X11: whenever both references of the context are live, [uninit]
    completes whatever the finalizer option is: at most one call is made
    (exactly one when the finalizer resolves), a finalizer that does not
    resolve is logged, and then [pFunc] and [pModule] are released, in that
    order, and the interpreter is stopped with an empty heap.  The context
    is not reset. *)
Theorem uninit_releases_live_references ctx w :
  references_live w = true ->
  exists w' pre,
    uninit ctx w = Ok tt w' /\
    since w w' = pre ++ (if (hook_code w (uninit_function (priv w)) <? 0)%Z
                         then [EvLog AV_LOG_ERROR ("could not call uninit function" ++ nl)]
                         else [])
                     ++ [EvDecref (pFunc (priv w)); EvDecref (pModule (priv w));
                         EvPyFinalize] /\
    length (calls pre) = hook_calls w (uninit_function (priv w)) /\
    List.filter is_log pre = [] /\
    py_live w' = false /\ heap w' = ∅ /\ sys_modules w' = [] /\
    priv w' = priv w /\ frames w' = frames w.
Proof.
  intros Hrl.
  destruct (uninit_live w ctx Hrl) as (w' & pre & Hrun & Hs & Hc & [_ Hlog] & Hrest).
  exists w', pre. by rewrite (since_app _ _ _ Hs).
Qed.

(** X12: after an activation that failed because the module could not be
    imported or lacks the filter attribute, on a context whose [pFunc]
    started null, [pFunc] is null and [uninit] faults on a null pointer;
    neither reference is released, the context is not written and the
    interpreter is left running.  Where it faults: when the module could
    not be imported and a finalizer is configured, inside
    [check_and_call_uninit], in [PyObject_GetAttrString] on the null
    [pModule]; otherwise [check_and_call_uninit] returns (having called a
    finalizer that resolves, when the module was imported) and the fault
    is in [Py_DECREF] on the null [pFunc]. *)
Theorem uninit_after_unbound_activation_faults ctx w m :
  py_live w = false -> module (priv w) = Some m -> pFunc (priv w) = NULL ->
  (site_packages m = None \/
   exists attrs f, site_packages m = Some attrs /\
                   filter_function (priv w) = Some f /\ assoc f attrs = None) ->
  exists w' w'',
    init ctx w = Ok (AVERROR EINVAL) w' /\
    pFunc (priv w') = NULL /\
    uninit ctx w' = Crash NullDeref w'' /\
    py_live w'' = true /\ priv w'' = priv w' /\
    (site_packages m = None ->
     pModule (priv w') = NULL /\ w'' = w' /\
     match uninit_function (priv w') with
     | Some u =>
         PyObject_GetAttrString (pModule (priv w')) (Some u) w' = Crash NullDeref w' /\
         check_and_call_uninit w' = Crash NullDeref w'
     | None =>
         check_and_call_uninit w' = Ok 0%Z w' /\
         Py_DECREF (pFunc (priv w')) w' = Crash NullDeref w'
     end) /\
    (site_packages m <> None ->
     exists w1,
       check_and_call_uninit w' = Ok (hook_code w' (uninit_function (priv w'))) w1 /\
       length (calls (since w' w1)) = hook_calls w' (uninit_function (priv w')) /\
       Py_DECREF (pFunc (priv w'')) w'' = Crash NullDeref w'' /\
       since w' w'' = since w' w1
                      ++ (if (hook_code w' (uninit_function (priv w')) <? 0)%Z
                          then [EvLog AV_LOG_ERROR ("could not call uninit function" ++ nl)]
                          else []) /\
       module_loaded w'' = true).
Proof.
  intros Hlive Hm Hpf [Hsite|(attrs & f & Hsite & Hf & Hfa)].
  - pose proof (init_module_missing_world ctx w m Hlive Hm Hsite) as Hinit.
    match type of Hinit with _ = Ok _ ?W => set (w1 := W) in * end.
    assert (pModule (priv w1) = NULL) as Hpm by reflexivity.
    assert (pFunc (priv w1) = NULL) as Hpf1 by exact Hpf.
    exists w1, w1. split; [exact Hinit|]. split; [exact Hpf1|].
    destruct (uninit_function (priv w1)) as [u|] eqn:Hu.
    + split; [exact (uninit_null_module_faults ctx w1 u Hu Hpm)|].
      split; [reflexivity|]. split; [reflexivity|].
      split; [|intros Hne; by destruct Hne]. intros _.
      split; [exact Hpm|]. split; [reflexivity|].
      split.
      * unfold PyObject_GetAttrString. rewrite Hpm. reflexivity.
      * unfold check_and_call_uninit, bind, load_priv. rewrite Hu.
        unfold PyObject_GetAttrString. rewrite Hpm. reflexivity.
    + split; [exact (uninit_null_filter_faults ctx w1 Hu Hpf1)|].
      split; [reflexivity|]. split; [reflexivity|].
      split; [|intros Hne; by destruct Hne]. intros _.
      split; [exact Hpm|]. split; [reflexivity|].
      split; [exact (check_and_call_uninit_unset w1 Hu)|].
      unfold Py_DECREF. rewrite Hpf1. reflexivity.
  - destruct (alloc_attrs attrs 2 (<[1%N := mkObject 1 (PyUnicode m)]> ∅))
      as [[d pm] h] eqn:Halloc.
    pose proof (init_filter_missing_world ctx w m attrs d pm h Hlive Hm Hsite Halloc f Hf Hfa)
      as Hinit.
    match type of Hinit with _ = Ok _ ?W => set (w1 := W) in * end.
    assert (module_loaded w1 = true) as Hld.
    { apply (module_loaded_after (after_import w m d pm h));
        [exact (import_loaded w m attrs d pm h Halloc)|reflexivity..|cbn; lia]. }
    assert (pFunc (priv w1) = NULL) as Hpf1 by reflexivity.
    destruct (check_and_call_uninit_loaded w1 Hld)
      as (w2 & evs & Hrun & Htr & Hc & [Hfw Hlog] & Hh & Hp & Hl1 & Hfs & Hsm & Hn).
    assert (py_live w1 = true) as Hlive1 by reflexivity.
    destruct (hook_code w1 (uninit_function (priv w1)) <? 0)%Z eqn:Hcode.
    + exists w1, (emit (EvLog AV_LOG_ERROR ("could not call uninit function" ++ nl)) w2).
      split; [exact Hinit|]. split; [exact Hpf1|].
      split.
      { unfold uninit. unfold bind at 1. rewrite Hrun, Hcode.
        unfold bind, av_log, load_priv, Py_DECREF. cbn. rewrite Hp, Hpf1. reflexivity. }
      split; [cbn; congruence|]. split; [exact Hp|].
      split; [intros Hs; congruence|]. intros _.
      exists w2. split; [exact Hrun|].
      split; [by rewrite (since_app _ _ _ Htr)|].
      split; [unfold Py_DECREF; cbn; rewrite Hp, Hpf1; reflexivity|].
      split.
      { rewrite Hcode, (since_app _ _ _ Htr). apply since_app.
        unfold emit. cbn [trace]. rewrite Htr. by rewrite <- app_assoc. }
      apply (module_loaded_after w1); [exact Hld|cbn; congruence|exact Hh
                                       |cbn; by rewrite Hp|exact Hn].
    + exists w1, w2.
      split; [exact Hinit|]. split; [exact Hpf1|].
      split.
      { unfold uninit. unfold bind at 1. rewrite Hrun, Hcode.
        unfold bind, ret, load_priv, Py_DECREF. rewrite Hp, Hpf1. reflexivity. }
      split; [congruence|]. split; [exact Hp|].
      split; [intros Hs; congruence|]. intros _.
      exists w2. split; [exact Hrun|].
      split; [by rewrite (since_app _ _ _ Htr)|].
      split; [unfold Py_DECREF; rewrite Hp, Hpf1; reflexivity|].
      split; [by rewrite Hcode, app_nil_r|].
      apply (module_loaded_after w1); [exact Hld|exact Hl1|exact Hh
                                       |by rewrite Hp|exact Hn].
Qed.



End Shutdown.

(** The conversion of a 64-bit address to a C [long] loses nothing. *)
Lemma long_of_ptr_range a :
  (a < 2 ^ 64)%N ->
  (- 2 ^ 63 <= long_of_ptr a < 2 ^ 63)%Z /\
  Z.to_N (long_of_ptr a mod 2 ^ 64) = a /\
  ((long_of_ptr a < 0)%Z <-> (2 ^ 63 <= a)%N).
Proof.
  intros Ha. unfold long_of_ptr.
  assert (0 <= Z.of_N a < 2 ^ 64)%Z as Hz.
  { split; [lia|]. change (2 ^ 64)%Z with (Z.of_N (2 ^ 64)). lia. }
  rewrite (Z.mod_small (Z.of_N a)) by lia. cbv zeta.
  assert ((2 ^ 63 <= a)%N <-> (2 ^ 63 <= Z.of_N a)%Z) as Hiff.
  { change (2 ^ 63)%Z with (Z.of_N (2 ^ 63)). lia. }
  destruct (Z.ltb_spec (Z.of_N a) (2 ^ 63)).
  - rewrite Z.mod_small by lia. split; [lia|]. split; [lia|]. lia.
  - replace ((Z.of_N a - 2 ^ 64) mod 2 ^ 64)%Z with (Z.of_N a).
    + split; [lia|]. split; [lia|]. lia.
    + symmetry. rewrite <- (Z.mod_small (Z.of_N a) (2 ^ 64)) at 2 by lia.
      replace (Z.of_N a - 2 ^ 64)%Z with (Z.of_N a + (-1) * 2 ^ 64)%Z by lia.
      apply Z.mod_add. lia.
Qed.

Section Address.
Context `{E : Env}.

(** X15: in steady state the one call [filter_frame] makes has, as its
    fourth argument, an integer that fits a C [long] and determines the
    64-bit address of the frame's first data plane: it is that address
    modulo [2^64], negative exactly for addresses from [2^63] on. *)
Theorem filter_frame_passes_plane_address inlink in_ w fr ob q :
  heap_ok w = true ->
  frames w !! in_ = Some fr ->
  heap w !! pFunc (priv w) = Some ob ->
  ob_body ob = PyFunction q ->
  (nth 0 (data (make_writable fr)) NULL < 2 ^ 64)%N ->
  exists r w' ts wd ht z out,
    filter_frame inlink in_ w = Ok r w' /\
    calls (since w w')
      = [EvCall (pFunc (priv w)) q [ts; wd; ht; Some (PyLong z)] out] /\
    (- 2 ^ 63 <= z < 2 ^ 63)%Z /\
    Z.to_N (z mod 2 ^ 64) = nth 0 (data (make_writable fr)) NULL /\
    ((z < 0)%Z <-> (2 ^ 63 <= nth 0 (data (make_writable fr)) NULL)%N).
Proof.
  intros Hok Hfr Hf Hq Ha.
  destruct (filter_frame_steady_props inlink in_ w fr ob q Hok Hfr Hf Hq)
    as (w' & mid & Hrun & Htr & Hmid & _).
  destruct (long_of_ptr_range _ Ha) as (Hr & Hback & Hsign).
  eexists _, w', _, _, _, _, _. split; [exact Hrun|].
  split; [|split; [exact Hr|split; [exact Hback|exact Hsign]]].
  rewrite (since_app _ _ _ Htr). unfold calls.
  cbn [app List.filter is_call]. rewrite List.filter_app. cbn.
  replace (List.filter is_call mid) with (@nil Event); [reflexivity|].
  clear -Hmid. induction Hmid as [|e mid [He _] _ IH]; [done|]. cbn. by rewrite He.
Qed.

End Address.

Section Lifetime.
Context `{E : Env}.

Lemma hook_calls_after w w' name :
  heap w' = heap w -> priv w' = priv w -> hook_calls w' name = hook_calls w name.
Proof.
  intros Hh Hp. unfold hook_calls, resolves, module_dict. by rewrite Hh, Hp.
Qed.

(** X13: after a successful [init], handling any distinct frames the host
    owns and then [uninit] runs to completion: one return code and one
    forward per frame, in order, one handler call per frame plus the
    finalizer's when it resolves, [Py_FinalizeEx] as the last event and an
    empty heap. *)
Theorem activated_stage_runs_to_completion ctx inlink fs w w1 :
  py_live w = false -> init ctx w = Ok 0%Z w1 ->
  NoDup fs -> Forall (fun f => is_Some (frames w !! f)) fs ->
  exists rs w2 w3,
    handle_frames inlink fs w1 = Ok rs w2 /\
    uninit ctx w2 = Ok tt w3 /\
    length rs = length fs /\
    length (calls (since w1 w3))
      = (length fs + hook_calls w1 (uninit_function (priv w)))%nat /\
    List.filter is_forward (since w1 w3)
      = map (EvFilterFrame (nth 0 (outputs (dst inlink)) NULL)) fs /\
    last (trace w3) = Some EvPyFinalize /\
    py_live w3 = false /\ heap w3 = ∅.
Proof.
  intros Hlive Hinit Hnd Hall.
  destruct (init_success_world ctx w w1 Hlive Hinit)
    as (m & attrs & d & pm & h & f & fa & qf & evs0 & Hm & Hsite & Halloc & Hf & Hfd & Hl & Hr
        & Htr0 & _ & _ & Hh0 & Hp0 & Hl0 & Hfs0 & _ & Hn0).
  assert (activated w1 = true) as Hact.
  { apply (activated_after (after_binding w m d pm h f fa qf));
      [exact (bound_activated w m attrs d pm h Halloc f fa qf Hr)|done..]. }
  destruct (handle_frames_activated inlink fs w1 Hact Hnd)
    as (rs & w2 & evs & Hrun & Htr & Hcv & Hcs & Hlen & Hfw & Hact2 & Hh & Hp & _).
  { by rewrite Hfs0. }
  destruct (uninit_live w2 ctx (activated_references_live w2 Hact2))
    as (w3 & pre & Hrun3 & Htr3 & Hc3 & [Hfw3 _] & Hl3 & Hh3 & _).
  exists rs, w2, w3. split; [exact Hrun|]. split; [exact Hrun3|].
  assert (uninit_function (priv w2) = uninit_function (priv w)) as Hu.
  { rewrite Hp, Hp0. reflexivity. }
  rewrite Hu, (hook_calls_after w1 w2 _ Hh Hp) in Hc3.
  rewrite Htr in Htr3. rewrite <- app_assoc in Htr3.
  rewrite (since_app _ _ _ Htr3).
  split; [exact Hlen|].
  unfold calls in *. rewrite !List.filter_app, !length_app, Hcs, Hc3, Hfw, Hfw3.
  split. { destruct (_ <? _)%Z; cbn; lia. }
  split. { destruct (_ <? _)%Z; cbn; by rewrite app_nil_r. }
  split; [|done].
  rewrite Htr3, !app_assoc, last_app. reflexivity.
Qed.

End Lifetime.

(** ** The same, on the concrete stage *)

Lemma init_without_module_name_faults_witness :
  module (priv (Demo.boot Cases.no_module_name)) = None /\
  exists w',
    @init Demo.quiet Demo.ctx (Demo.boot Cases.no_module_name) = Crash NullDeref w' /\
    since (Demo.boot Cases.no_module_name) w' = [EvPyInitialize] /\
    py_live w' = true /\ priv w' = Cases.no_module_name /\
    frames w' = Demo.host_frames.
Proof.
  split; [reflexivity|].
  exact (init_without_module_name_faults (E := Demo.quiet) Demo.ctx
           (Demo.boot Cases.no_module_name) eq_refl).
Defined.

Lemma init_without_filter_name_faults_witness :
  py_live (Demo.boot Cases.no_filter_name) = false /\
  module (priv (Demo.boot Cases.no_filter_name)) = Some "demo"%string /\
  filter_function (priv (Demo.boot Cases.no_filter_name)) = None /\
  exists w',
    @init Demo.quiet Demo.ctx (Demo.boot Cases.no_filter_name) = Crash NullDeref w' /\
    since (Demo.boot Cases.no_filter_name) w'
      = [EvPyInitialize; EvImport "demo" (pModule (priv w')); EvDecref 1%N] /\
    module_loaded w' = true /\
    sys_modules w' = [("demo"%string, pModule (priv w'))] /\
    pFunc (priv w') = NULL.
Proof.
  split; [reflexivity|]. split; [reflexivity|]. split; [reflexivity|].
  exact (init_without_filter_name_faults (E := Demo.quiet) Demo.ctx
           (Demo.boot Cases.no_filter_name) "demo" _ eq_refl eq_refl eq_refl eq_refl).
Defined.

Lemma init_reports_missing_module_witness :
  py_live (Demo.boot Demo.no_module) = false /\
  module (priv (Demo.boot Demo.no_module)) = Some "nosuch"%string /\
  @site_packages Demo.quiet "nosuch" = None /\
  exists w',
    @init Demo.quiet Demo.ctx (Demo.boot Demo.no_module) = Ok (AVERROR EINVAL) w' /\
    since (Demo.boot Demo.no_module) w'
      = [EvPyInitialize; EvImport "nosuch" NULL; EvDecref 1%N;
         EvLog AV_LOG_ERROR ("could not load module" ++ nl)] /\
    pModule (priv w') = NULL /\ pFunc (priv w') = NULL /\
    py_live w' = true /\ is_Some (err_indicator w').
Proof.
  split; [reflexivity|]. split; [reflexivity|]. split; [reflexivity|].
  exact (init_reports_missing_module (E := Demo.quiet) Demo.ctx
           (Demo.boot Demo.no_module) "nosuch" eq_refl eq_refl eq_refl).
Defined.

Lemma init_reports_unusable_filter_witness :
  py_live (Demo.boot Demo.value_filter) = false /\
  module (priv (Demo.boot Demo.value_filter)) = Some "demo"%string /\
  @site_packages Demo.quiet "demo" = Some Cases.demo_attrs /\
  filter_function (priv (Demo.boot Demo.value_filter)) = Some "gain"%string /\
  (assoc "gain" Cases.demo_attrs = None \/
   exists v, assoc "gain" Cases.demo_attrs = Some (AttrConst v)) /\
  exists w',
    @init Demo.quiet Demo.ctx (Demo.boot Demo.value_filter) = Ok (AVERROR EINVAL) w' /\
    since (Demo.boot Demo.value_filter) w'
      = [EvPyInitialize; EvImport "demo" (pModule (priv w')); EvDecref 1%N;
         EvGetAttr (pModule (priv w')) "gain" (pFunc (priv w'));
         EvLog AV_LOG_ERROR ("could not load filter function" ++ nl)] /\
    module_loaded w' = true /\
    (assoc "gain" Cases.demo_attrs = None -> pFunc (priv w') = NULL) /\
    ((exists v, assoc "gain" Cases.demo_attrs = Some (AttrConst v)) ->
     references_live w' = true).
Proof.
  assert (assoc "gain" Cases.demo_attrs = None \/
          exists v, assoc "gain" Cases.demo_attrs = Some (AttrConst v)) as H
    by (right; eexists; reflexivity).
  split; [reflexivity|]. split; [reflexivity|]. split; [reflexivity|].
  split; [reflexivity|]. split; [exact H|].
  exact (init_reports_unusable_filter (E := Demo.quiet) Demo.ctx
           (Demo.boot Demo.value_filter) "demo" Cases.demo_attrs "gain"
           eq_refl eq_refl eq_refl eq_refl H).
Defined.





Lemma uninit_releases_live_references_witness :
  references_live (Demo.after_init Demo.quiet Demo.with_missing_uninit) = true /\
  exists w' pre,
    @uninit Demo.quiet Demo.ctx (Demo.after_init Demo.quiet Demo.with_missing_uninit)
      = Ok tt w' /\
    since (Demo.after_init Demo.quiet Demo.with_missing_uninit) w' =
      pre ++ (if (hook_code (Demo.after_init Demo.quiet Demo.with_missing_uninit)
                            (Some "cleanup"%string) <? 0)%Z
              then [EvLog AV_LOG_ERROR ("could not call uninit function" ++ nl)]
              else [])
          ++ [EvDecref 3%N; EvDecref 6%N; EvPyFinalize] /\
    length (calls pre)
      = hook_calls (Demo.after_init Demo.quiet Demo.with_missing_uninit)
                   (Some "cleanup"%string) /\
    List.filter is_log pre = [] /\
    py_live w' = false /\ heap w' = ∅ /\ sys_modules w' = [] /\
    priv w' = priv (Demo.after_init Demo.quiet Demo.with_missing_uninit) /\
    frames w' = frames (Demo.after_init Demo.quiet Demo.with_missing_uninit).
Proof.
  assert (references_live (Demo.after_init Demo.quiet Demo.with_missing_uninit) = true)
    as H by (vm_compute; reflexivity).
  split; [exact H|].
  exact (uninit_releases_live_references (E := Demo.quiet) Demo.ctx _ H).
Defined.

Lemma uninit_after_unbound_activation_faults_witness :
  py_live (Demo.boot Cases.no_module_with_uninit) = false /\
  module (priv (Demo.boot Cases.no_module_with_uninit)) = Some "nosuch"%string /\
  pFunc (priv (Demo.boot Cases.no_module_with_uninit)) = NULL /\
  @site_packages Demo.quiet "nosuch" = None /\
  exists w',
    @init Demo.quiet Demo.ctx (Demo.boot Cases.no_module_with_uninit)
      = Ok (AVERROR EINVAL) w' /\
    pFunc (priv w') = NULL /\ pModule (priv w') = NULL /\
    @uninit Demo.quiet Demo.ctx w' = Crash NullDeref w' /\
    py_live w' = true /\
    @PyObject_GetAttrString NULL (Some "teardown"%string) w' = Crash NullDeref w' /\
    @check_and_call_uninit Demo.quiet w' = Crash NullDeref w'.
Proof.
  split; [reflexivity|]. split; [reflexivity|]. split; [reflexivity|].
  split; [reflexivity|].
  destruct (uninit_after_unbound_activation_faults (E := Demo.quiet) Demo.ctx
              (Demo.boot Cases.no_module_with_uninit) "nosuch" eq_refl eq_refl eq_refl
              (or_introl eq_refl))
    as (w' & w'' & Hinit & Hpf & Hun & Hl & Hp & Hmiss & _).
  destruct (Hmiss eq_refl) as (Hpm & Hsame & Hwhere).
  assert (w' = world_of (@init Demo.quiet Demo.ctx (Demo.boot Cases.no_module_with_uninit)))
    as Hw by (rewrite Hinit; reflexivity).
  assert (uninit_function (priv w') = Some "teardown"%string) as Hu
    by (rewrite Hw; vm_compute; reflexivity).
  rewrite Hu in Hwhere. destruct Hwhere as [Hga Hcc].
  rewrite Hpm in Hga. rewrite Hsame in Hun, Hl.
  exists w'. repeat split; assumption.
Defined.



Lemma filter_frame_passes_plane_address_witness :
  heap_ok Cases.high_plane = true /\
  frames Cases.high_plane !! 4099%N
    = Some (mkFrame 3 64 64 [9223372036854779904%N]) /\
  heap Cases.high_plane !! 3%N = Some (mkObject 2 (PyFunction "demo.process")) /\
  (9223372036854779904 < 2 ^ 64)%N /\
  exists r w' ts wd ht z out,
    @filter_frame Demo.quiet Demo.inlink 4099%N Cases.high_plane = Ok r w' /\
    calls (since Cases.high_plane w')
      = [EvCall 3%N "demo.process" [ts; wd; ht; Some (PyLong z)] out] /\
    (- 2 ^ 63 <= z < 2 ^ 63)%Z /\
    Z.to_N (z mod 2 ^ 64) = 9223372036854779904%N /\
    ((z < 0)%Z <-> (2 ^ 63 <= 9223372036854779904)%N).
Proof.
  assert (heap_ok Cases.high_plane = true) as H1 by (vm_compute; reflexivity).
  assert (frames Cases.high_plane !! 4099%N
          = Some (mkFrame 3 64 64 [9223372036854779904%N])) as H2
    by (vm_compute; reflexivity).
  assert (heap Cases.high_plane !! pFunc (priv Cases.high_plane)
          = Some (mkObject 2 (PyFunction "demo.process"))) as H3
    by (vm_compute; reflexivity).
  split; [exact H1|]. split; [exact H2|]. split; [exact H3|]. split; [reflexivity|].
  exact (filter_frame_passes_plane_address (E := Demo.quiet) Demo.inlink 4099%N _ _ _ _
           H1 H2 H3 eq_refl eq_refl).
Defined.

Lemma activated_stage_runs_to_completion_witness :
  py_live (Demo.boot Demo.with_uninit) = false /\
  @init Demo.quiet Demo.ctx (Demo.boot Demo.with_uninit)
    = Ok 0%Z (Demo.after_init Demo.quiet Demo.with_uninit) /\
  NoDup [4096%N; 4097%N; 4098%N] /\
  Forall (fun f => is_Some (frames (Demo.boot Demo.with_uninit) !! f))
         [4096%N; 4097%N; 4098%N] /\
  exists rs w2 w3,
    @handle_frames Demo.quiet Demo.inlink [4096%N; 4097%N; 4098%N]
       (Demo.after_init Demo.quiet Demo.with_uninit) = Ok rs w2 /\
    @uninit Demo.quiet Demo.ctx w2 = Ok tt w3 /\
    length rs = 3%nat /\
    length (calls (since (Demo.after_init Demo.quiet Demo.with_uninit) w3))
      = (3 + hook_calls (Demo.after_init Demo.quiet Demo.with_uninit)
                        (Some "teardown"%string))%nat /\
    List.filter is_forward (since (Demo.after_init Demo.quiet Demo.with_uninit) w3)
      = [EvFilterFrame 7%N 4096%N; EvFilterFrame 7%N 4097%N; EvFilterFrame 7%N 4098%N] /\
    last (trace w3) = Some EvPyFinalize /\
    py_live w3 = false /\ heap w3 = ∅.
Proof.
  assert (@init Demo.quiet Demo.ctx (Demo.boot Demo.with_uninit)
          = Ok 0%Z (Demo.after_init Demo.quiet Demo.with_uninit)) as H1
    by (vm_compute; reflexivity).
  assert (NoDup [4096%N; 4097%N; 4098%N]) as H2.
  { repeat (apply NoDup_cons; split; [rewrite ?elem_of_cons, elem_of_nil; lia|]).
    apply NoDup_nil. exact I. }
  assert (Forall (fun f => is_Some (frames (Demo.boot Demo.with_uninit) !! f))
                 [4096%N; 4097%N; 4098%N]) as H3.
  { repeat constructor; vm_compute; eexists; reflexivity. }
  split; [reflexivity|]. split; [exact H1|]. split; [exact H2|]. split; [exact H3|].
  exact (activated_stage_runs_to_completion (E := Demo.quiet) Demo.ctx Demo.inlink
           [4096%N; 4097%N; 4098%N] (Demo.boot Demo.with_uninit) _ eq_refl H1 H2 H3).
Defined.
